(** * release.py: version bumping and release automation

    A shallow embedding of [scripts/release.py].  The script keeps a JSON
    version document ([version.json]), appends to a changelog, patches two
    YAML files line by line and calls external tools.  Python values that
    come out of [json.load] are modelled by [json]; the files the script
    touches are the fields of [env]; every effect the script performs
    ([print], [open], [subprocess.run]) is recorded in a trace, and the
    control flow ([sys.exit], uncaught exceptions) is the [outcome] of a
    small state-and-exception monad.

    The external programs are a parameter: a function from the command and
    the state of the host to an exit code, the captured output and the new
    state of the host, or to the error of a program that cannot be started.
    Nothing is assumed about it in the model; the theorems that need the
    programs to return say so.

    The host is a POSIX system: text files are written with newlines as
    line ends (and read with the line ends of any system translated, as
    Python does), and a command list passed with [shell=True] goes to
    [/bin/sh -c].

    Left out: JSON numbers that are not integers, the text of
    [version.json] on disk (the file is held as the value [json.load]
    returns), the encoding of text files, tracebacks on standard error, and
    [run_shell_command], which the script defines but never calls. *)

From stdpp Require Import gmap strings list fin_maps pretty.

Open Scope string_scope.

(** ** Python values *)

(** The values [json.load] builds.  A [dict] is a finite map from string
    keys.  Integers are unbounded, as in Python.  Number literals with a
    fraction or an exponent (Python [float]) are not represented. *)
#[local] Unset Elimination Schemes.
Inductive json : Type :=
  | JNull
  | JBool (b : bool)
  | JInt (n : Z)
  | JStr (s : string)
  | JArr (l : list json)
  | JObj (m : gmap string json).
#[local] Set Elimination Schemes.

(** The exceptions the script can let escape. *)
Inductive exn : Type :=
  | FileNotFoundError
  | JSONDecodeError
  | KeyError
  | TypeError
  | ValueError
  | PermissionError
  | OSError.

(** How a call ends: it returns, it calls [sys.exit], or it raises. *)
Inductive outcome (A : Type) : Type :=
  | Ok (a : A)
  | Exit (code : Z)
  | Raise (e : exn).
Arguments Ok {A} a.
Arguments Exit {A} code.
Arguments Raise {A} e.

Definition obind {A B} (o : outcome A) (k : A → outcome B) : outcome B :=
  match o with
  | Ok a => k a
  | Exit c => Exit c
  | Raise e => Raise e
  end.

(** ** Text helpers *)

Definition nl : string := String (Ascii.ascii_of_nat 10) "".

(** The carriage return, as a string. *)
Definition cr : string := String (Ascii.ascii_of_nat 13) "".

(** The double-quote character, as a string. *)
Definition dq : string := String (Ascii.ascii_of_nat 34) "".

(** [line.startswith(p)] *)
Fixpoint startswith (p s : string) : bool :=
  match p with
  | "" => true
  | String a p' =>
      match s with
      | "" => false
      | String b s' => if Ascii.eqb a b then startswith p' s' else false
      end
  end.

(** [p in s] on two strings: [p] occurs in [s] as a substring. *)
Fixpoint contains (p s : string) : bool :=
  startswith p s ||
  match s with
  | "" => false
  | String _ s' => contains p s'
  end.

(** Reading a file in text mode.  The script calls [open] without
    [newline], so Python translates the line ends while it reads: a
    carriage return followed by a newline, and a carriage return alone, both
    arrive as one newline. *)
Fixpoint universal_newlines (s : string) : string :=
  match s with
  | "" => ""
  | String c s' =>
      if Ascii.eqb c (Ascii.ascii_of_nat 13) then
        match s' with
        | String c' s'' =>
            if Ascii.eqb c' (Ascii.ascii_of_nat 10)
            then String c' (universal_newlines s'')
            else String (Ascii.ascii_of_nat 10) (universal_newlines s')
        | "" => String (Ascii.ascii_of_nat 10) ""
        end
      else String c (universal_newlines s')
  end.

(** Cutting a text after every newline; each line keeps its newline. *)
Fixpoint readlines_from (cur : string) (s : string) : list string :=
  match s with
  | "" => match cur with "" => [] | _ => [cur] end
  | String c s' =>
      if Ascii.eqb c (Ascii.ascii_of_nat 10)
      then (cur +:+ nl) :: readlines_from "" s'
      else readlines_from (cur +:+ String c "") s'
  end.

(** [f.readlines()] on a file with the characters [s]: the line ends are
    translated, then the text is cut into lines. *)
Definition readlines (s : string) : list string :=
  readlines_from "" (universal_newlines s).

(** What a sequence of [f.write] calls leaves in the file.  Writing in text
    mode turns a newline into [os.linesep]; the host is a POSIX system (the
    script hands the tools a POSIX environment: [HOME], [TERM], [LANG]),
    where that is the newline itself. *)
Definition written (chunks : list string) : string :=
  foldr String.append "" chunks.

(** ** Operations on Python values *)

(** [v[k]] with a string key. *)
Definition py_getitem (v : json) (k : string) : outcome json :=
  match v with
  | JObj m =>
      match m !! k with
      | Some x => Ok x
      | None => Raise KeyError
      end
  | _ => Raise TypeError
  end.

(** [v[k] = x] with a string key; the result is the updated container. *)
Definition py_setitem (v : json) (k : string) (x : json) : outcome json :=
  match v with
  | JObj m => Ok (JObj (<[k := x]> m))
  | _ => Raise TypeError
  end.

(** [v + 1].  [bool] is a subclass of [int]. *)
Definition py_add_one (v : json) : outcome json :=
  match v with
  | JInt n => Ok (JInt (n + 1))
  | JBool b => Ok (JInt (Z.b2z b + 1))
  | _ => Raise TypeError
  end.

(** [k in v] for a string [k]. *)
Definition py_contains (k : string) (v : json) : outcome bool :=
  match v with
  | JObj m => Ok (bool_decide (is_Some (m !! k)))
  | JArr l =>
      Ok (existsb (λ x, match x with JStr s => String.eqb s k | _ => false end) l)
  | JStr s => Ok (contains k s)
  | _ => Raise TypeError
  end.

(** [a[b][c]] and [a[b][c][d]] *)
Definition subscript2 (a : json) (b c : string) : outcome json :=
  obind (py_getitem a b) (λ x, py_getitem x c).

Definition subscript3 (a : json) (b c d : string) : outcome json :=
  obind (py_getitem a b) (λ x, obind (py_getitem x c) (λ y, py_getitem y d)).

(** [a[b][c][d] = x].  The three dictionaries are shared with [a], so the
    assignment is visible through [a]; the result is [a] afterwards. *)
Definition store3 (a : json) (b c d : string) (x : json) : outcome json :=
  obind (py_getitem a b) (λ rec,
  obind (py_getitem rec c) (λ cur,
  obind (py_setitem cur d x) (λ cur',
  obind (py_setitem rec c cur') (λ rec',
  py_setitem a b rec')))).

(** A name bound to [a[b][c']] before the assignment [a[b][c][d] = x],
    read after it.  The assignment changes one object, the dictionary
    [a[b][c]].  [json.load] builds a fresh object for every value, so the
    name refers to that dictionary exactly when [c'] is [c]; reading
    [a[b][c']] again in the updated [a] gives what the name shows in either
    case.  [v] is the value the name had before. *)
Definition after_store (a' : json) (b c' : string) (v : json) : json :=
  match subscript2 a' b c' with
  | Ok v' => v'
  | _ => v
  end.

(** ** Constants of the script *)

Definition SUPPORTED_FLAVORS : list string :=
  ["workplacebyls"; "workplacebytsphub"; "tiabytsp"].
Definition SUPPORTED_PLATFORMS : list string := ["android"; "ios"].
Definition VERSION_FILE_PATH : string := "version.json".
Definition CHANGELOG_FILE_PATH : string := "CHANGELOG.md".
Definition FLUTTER_VERSION : string := "3.29.1".
Definition PUBSPEC_PATH : string := "pubspec.yaml".
Definition CODEMAGIC_PATH : string := "codemagic.yaml".
Definition CREDENTIALS_PATH : string := "credentials/ayman-sctipt-credentials.json".

(** ** The host: files, clock, external programs *)

(** A file that the script parses with [json.load]. *)
Inductive json_file : Type :=
  | NoFile
  | BadJson
  | JsonDoc (d : json).

(** The part of the machine the script looks at.  Text files hold their
    characters as they are in the file ([None] when the file does not
    exist); [artifacts] is the
    set of build outputs that exist; [today] is what
    [datetime.now().strftime('%Y-%m-%d')] returns. *)
Record env : Type := Env {
  version_json : json_file;
  credentials_json : json_file;
  changelog_md : option string;
  pubspec_yaml : option string;
  codemagic_yaml : option string;
  artifacts : gset string;
  today : string
}.

(** The mode of an [open] call: read, truncate and write, or append. *)
Inductive mode : Type := Rd | Wr | Ap.

(** One [subprocess.run] call. *)
Record invocation : Type := Invocation {
  argv : list string;
  shell : bool;
  env_given : bool
}.

(** The argument list the program started by a call receives, on a POSIX
    host.  Without [shell=True] it is the list itself.  With [shell=True]
    and a list, [subprocess] executes [/bin/sh -c] followed by the list: the
    first item is the command text the shell runs and the others become the
    positional parameters of the shell.  A command text that is one plain
    word starts the program of that name without arguments.  Command texts
    that need the grammar of the shell are left out ([None]). *)
Definition plain_char (c : Ascii.ascii) : bool :=
  let n := Ascii.nat_of_ascii c in
  (Nat.leb 48 n && Nat.leb n 57) || (Nat.leb 65 n && Nat.leb n 90) ||
  (Nat.leb 97 n && Nat.leb n 122) || Nat.eqb n 45 || Nat.eqb n 46 ||
  Nat.eqb n 47 || Nat.eqb n 95.

Fixpoint plain_chars (s : string) : bool :=
  match s with
  | "" => true
  | String c s' => plain_char c && plain_chars s'
  end.

Definition plain_word (s : string) : bool :=
  match s with
  | "" => false
  | _ => plain_chars s
  end.

Definition received_argv (i : invocation) : option (list string) :=
  if shell i then
    match argv i with
    | command :: _ => if plain_word command then Some [command] else None
    | [] => None
    end
  else Some (argv i).

Record CompletedProcess : Type := Completed {
  stdout : string;
  stderr : string;
  returncode : Z
}.

Inductive event : Type :=
  | EPrint (s : string)
  | EOpen (path : string) (m : mode)
  | ERun (i : invocation).

Record world : Type := World {
  host : env;
  trace : list event
}.

Definition log (e : event) (w : world) : world :=
  World (host w) (trace w ++ [e]).

Definition set_host (f : env → env) (w : world) : world :=
  World (f (host w)) (trace w).

Definition with_version (v : json_file) (e : env) : env :=
  Env v (credentials_json e) (changelog_md e) (pubspec_yaml e)
      (codemagic_yaml e) (artifacts e) (today e).
Definition with_changelog (t : option string) (e : env) : env :=
  Env (version_json e) (credentials_json e) t (pubspec_yaml e)
      (codemagic_yaml e) (artifacts e) (today e).
Definition with_pubspec (t : option string) (e : env) : env :=
  Env (version_json e) (credentials_json e) (changelog_md e) t
      (codemagic_yaml e) (artifacts e) (today e).
Definition with_codemagic (t : option string) (e : env) : env :=
  Env (version_json e) (credentials_json e) (changelog_md e) (pubspec_yaml e)
      t (artifacts e) (today e).

(** ** The monad of script actions *)

Definition M (A : Type) : Type := world → outcome A * world.

Definition ret {A} (a : A) : M A := λ w, (Ok a, w).

Definition bind {A B} (m : M A) (k : A → M B) : M B :=
  λ w, match m w with
       | (Ok a, w') => k a w'
       | (Exit c, w') => (Exit c, w')
       | (Raise e, w') => (Raise e, w')
       end.

Definition raise {A} (e : exn) : M A := λ w, (Raise e, w).
Definition sys_exit {A} (c : Z) : M A := λ w, (Exit c, w).
Definition lift {A} (o : outcome A) : M A := λ w, (o, w).
Definition print (s : string) : M unit := λ w, (Ok tt, log (EPrint s) w).
Definition opened (path : string) (m : mode) : M unit :=
  λ w, (Ok tt, log (EOpen path m) w).
Definition look {A} (f : env → A) : M A := λ w, (Ok (f (host w)), w).
Definition modify (f : env → env) : M unit := λ w, (Ok tt, set_host f w).

Notation "'let*' x ':=' m 'in' k" := (bind m (λ x, k))
  (at level 10, x name, m at level 100, k at level 200, only parsing).
Notation "'let*' ' p ':=' m 'in' k" := (bind m (λ x, match x with p => k end))
  (at level 10, p pattern, m at level 100, k at level 200, only parsing).
Notation "m >>> k" := (bind m (λ _, k))
  (at level 100, k at level 200, right associativity, only parsing).

(** [for x in xs: body] *)
Fixpoint for_each {X} (xs : list X) (body : X → M unit) : M unit :=
  match xs with
  | [] => ret tt
  | x :: xs' => body x >>> for_each xs' body
  end.

(** A [for] loop whose body updates a local value. *)
Fixpoint for_fold {X S} (xs : list X) (body : X → S → M S) (s : S) : M S :=
  match xs with
  | [] => ret s
  | x :: xs' => let* s' := body x s in for_fold xs' body s'
  end.

(** The exit status of the process when the top-level call ends. *)
Definition exit_status {A} (o : outcome A) : Z :=
  match o with
  | Ok _ => 0
  | Exit c => c
  | Raise _ => 1
  end.

(** ** Sample data

    A version document in the shape the script expects, a host holding it,
    and stand-ins for the external programs. *)

Definition flavor_record (build_name : string) (android ios : Z) : json :=
  JObj (<["build_name" := JStr build_name]>
       (<["android" := JObj {["build_number" := JInt android]}]>
       (<["ios" := JObj {["build_number" := JInt ios]}]> ∅))).

Definition sample_doc : json :=
  JObj (<["workplacebyls" := flavor_record "1.2.0" 5 5]>
       (<["workplacebytsphub" := flavor_record "2.0.1" 17 12]>
       (<["tiabytsp" := flavor_record "0.9.4" 3 8]> ∅))).

Definition sample_credentials : json :=
  let entry (name : string) :=
    JObj (<["google_play" := JStr ("credentials/" +:+ name +:+ "-play.json")]>
         (<["app_store_key_path" := JStr ("credentials/" +:+ name +:+ "-asc.json")]> ∅)) in
  JObj (<["workplacebyls" := entry "workplacebyls"]>
       (<["workplacebytsphub" := entry "workplacebytsphub"]>
       (<["tiabytsp" := entry "tiabytsp"]> ∅))).

Definition sample_pubspec : string :=
  "name: workplace" +:+ nl +:+
  "version: 1.0.0+1" +:+ nl +:+
  "environment:" +:+ nl +:+
  "  sdk: ^3.7.0" +:+ nl.

Definition sample_codemagic : string :=
  "workflows:" +:+ nl +:+
  "  vars:" +:+ nl +:+
  "      BUILD_NAME: " +:+ dq +:+ "1.0.0" +:+ dq +:+ nl +:+
  "      BUILD_NUMBER: " +:+ dq +:+ "1" +:+ dq +:+ nl +:+
  "  scripts: []" +:+ nl.

Definition sample_env : env :=
  Env (JsonDoc sample_doc) (JsonDoc sample_credentials)
      (Some ("# Changelog" +:+ nl)) (Some sample_pubspec) (Some sample_codemagic)
      ∅ "2025-01-31".

Definition sample_world : world := World sample_env [].

(** A host on which the build outputs of workplacebyls already exist. *)
Definition built_env : env :=
  Env (JsonDoc sample_doc) (JsonDoc sample_credentials)
      (Some ("# Changelog" +:+ nl)) (Some sample_pubspec) None
      {["build/app/outputs/bundle/workplacebylsRelease/app-workplacebyls-release.aab";
        "build/ios/ipa/Workplace By LS.ipa"]}
      "2025-01-31".

Definition built_world : world := World built_env [].

(** External programs that all fail with exit code 70 and touch nothing. *)
Definition failing_tools (i : invocation) (e : env) : option (CompletedProcess * env) :=
  Some (Completed "" "error: tool failed" 70, e).

(** External programs that all succeed and touch nothing. *)
Definition passing_tools (i : invocation) (e : env) : option (CompletedProcess * env) :=
  Some (Completed "done" "" 0, e).

(** A checkout on which nothing has been set up. *)
Definition empty_env : env := Env NoFile NoFile None None None ∅ "2025-01-31".

Definition empty_world : world := World empty_env [].

(** A checkout with the version document and nothing else. *)
Definition store_only_env : env :=
  Env (JsonDoc sample_doc) NoFile None None None ∅ "2025-01-31".

Definition store_only_world : world := World store_only_env [].

(** The built host without its credentials file. *)
Definition unsigned_env : env :=
  Env (JsonDoc sample_doc) NoFile (Some ("# Changelog" +:+ nl)) (Some sample_pubspec)
      None (artifacts built_env) "2025-01-31".

Definition unsigned_world : world := World unsigned_env [].

(** The built host with credentials that lack the Google Play key. *)
Definition keyless_entry : json :=
  JObj {["app_store_key_path" := JStr "credentials/workplacebyls-asc.json"]}.

Definition keyless_credentials : json := JObj {["workplacebyls" := keyless_entry]}.

Definition keyless_env : env :=
  Env (JsonDoc sample_doc) (JsonDoc keyless_credentials) (Some ("# Changelog" +:+ nl))
      (Some sample_pubspec) None (artifacts built_env) "2025-01-31".

Definition keyless_world : world := World keyless_env [].

(** The built host with a version document and credentials that are not
    JSON. *)
Definition corrupt_env : env :=
  Env BadJson BadJson (Some ("# Changelog" +:+ nl)) (Some sample_pubspec)
      None (artifacts built_env) "2025-01-31".

Definition corrupt_world : world := World corrupt_env [].

(** A version document with an entry for a platform that has no upload. *)
Definition web_doc : json :=
  JObj {["workplacebyls" :=
           JObj (<["build_name" := JStr "1.2.0"]>
                 {["web" := JObj {["build_number" := JInt 2]}]})]}.

Definition web_env : env :=
  Env (JsonDoc web_doc) NoFile None (Some sample_pubspec) None ∅ "2025-01-31".

Definition web_world : world := World web_env [].

(** A [pubspec.yaml] and a [codemagic.yaml] that carry no version. *)
Definition plain_env : env :=
  Env (JsonDoc sample_doc) NoFile None
      (Some ("name: workplace" +:+ nl +:+ "environment:" +:+ nl))
      (Some ("workflows:" +:+ nl +:+ "  scripts: []" +:+ nl))
      ∅ "2025-01-31".

Definition plain_world : world := World plain_env [].

(** A [pubspec.yaml] with the line ends of Windows and no version line. *)
Definition crlf_env : env :=
  Env (JsonDoc sample_doc) NoFile None
      (Some ("name: workplace" +:+ cr +:+ nl +:+ "environment:" +:+ cr +:+ nl))
      None ∅ "2025-01-31".

Definition crlf_world : world := World crlf_env [].

(** A version document that lacks the last flavor. *)
Definition partial_doc : json :=
  JObj (<["workplacebyls" := flavor_record "1.2.0" 5 5]>
       (<["workplacebytsphub" := flavor_record "2.0.1" 17 12]> ∅)).

Definition partial_env : env :=
  Env (JsonDoc partial_doc) NoFile (Some ("# Changelog" +:+ nl)) None None ∅ "2025-01-31".

Definition partial_world : world := World partial_env [].

(** A version document whose build name is itself a dictionary with a
    build number, and a [repr] that shows such a dictionary. *)
Definition nested_name_doc : json :=
  JObj {["workplacebyls" := JObj {["build_name" := JObj {["build_number" := JInt 2]}]}]}.

Definition nested_name_env : env :=
  Env (JsonDoc nested_name_doc) NoFile None (Some sample_pubspec) None ∅ "2025-01-31".

Definition nested_name_world : world := World nested_name_env [].

Definition number_repr (v : json) : string :=
  match v with
  | JObj m =>
      match m !! "build_number" with
      | Some (JInt n) => "{'build_number': " +:+ pretty n +:+ "}"
      | _ => "<container>"
      end
  | _ => "<container>"
  end.

(** The start error of a program that is not installed. *)
Definition not_found (i : invocation) (e : env) : exn := FileNotFoundError.

(** External programs that cannot be started. *)
Definition missing_tools (i : invocation) (e : env) : option (CompletedProcess * env) :=
  None.

Definition sample_repr (v : json) : string := "<container>".

(** ** The script *)

Section Script.

(** The operating system running a command: [None] when the program cannot
    be started ([subprocess.run] raises), otherwise what the program
    printed, its exit code, and the files it left behind. *)
Variable os_exec : invocation → env → option (CompletedProcess * env).

(** The exception [subprocess.run] raises when the program cannot be
    started.  It is the error of the operating system: [FileNotFoundError]
    when there is no such program, [PermissionError] when the file may not
    be executed, another [OSError] otherwise. *)
Variable start_error : invocation → env → exn.

(** [repr] of a list or a dictionary, which is what an f-string shows for
    such a value. *)
Variable py_repr : json → string.

(** What an f-string puts in place of [{v}]. *)
Definition py_str (v : json) : string :=
  match v with
  | JNull => "None"
  | JBool true => "True"
  | JBool false => "False"
  | JInt n => pretty n
  | JStr s => s
  | JArr _ | JObj _ => py_repr v
  end.

(** [subprocess.run(cmd, capture_output=True, text=True, ...)].  Every
    element of [cmd] has to be a string. *)
Fixpoint cmd_strings (cmd : list json) : option (list string) :=
  match cmd with
  | [] => Some []
  | JStr s :: cmd' => option_map (cons s) (cmd_strings cmd')
  | _ :: _ => None
  end.

Definition subprocess_run (cmd : list json) (sh given : bool) : M CompletedProcess :=
  match cmd_strings cmd with
  | None => raise TypeError
  | Some args =>
      let i := Invocation args sh given in
      λ w, match os_exec i (host w) with
           | None => (Raise (start_error i (host w)), log (ERun i) w)
           | Some (r, e') => (Ok r, set_host (λ _, e') (log (ERun i) w))
           end
  end.

Definition read_version_file : M json :=
  let* v := look version_json in
  match v with
  | NoFile => raise FileNotFoundError
  | BadJson => opened VERSION_FILE_PATH Rd >>> raise JSONDecodeError
  | JsonDoc d => opened VERSION_FILE_PATH Rd >>> ret d
  end.

Definition write_version_file (data : json) : M unit :=
  opened VERSION_FILE_PATH Wr >>>
  modify (with_version (JsonDoc data)).

Definition changelog_entry (date flavor platform : string)
    (build_name build_number : json) : string :=
  "- [" +:+ date +:+ "] " +:+ flavor +:+ " (" +:+ platform +:+ "): " +:+
  py_str build_name +:+ "+" +:+ py_str build_number +:+ nl.

Definition append_changelog (flavor platform : string)
    (build_name build_number : json) : M unit :=
  let* date := look today in
  let entry := changelog_entry date flavor platform build_name build_number in
  opened CHANGELOG_FILE_PATH Ap >>>
  modify (λ e, with_changelog (Some (default "" (changelog_md e) +:+ entry)) e).

Definition pubspec_line (build_name build_number : json) (line : string) : string :=
  if startswith "version:" line
  then "version: " +:+ py_str build_name +:+ "+" +:+ py_str build_number +:+ nl
  else line.

Definition update_pubspec_yaml (build_name build_number : json) : M unit :=
  let* f := look pubspec_yaml in
  match f with
  | None => raise FileNotFoundError
  | Some text =>
      opened PUBSPEC_PATH Rd >>>
      let lines := readlines text in
      opened PUBSPEC_PATH Wr >>>
      modify (with_pubspec
        (Some (written (pubspec_line build_name build_number <$> lines)))) >>>
      print ("📝 Updated pubspec.yaml with version: " +:+
             py_str build_name +:+ "+" +:+ py_str build_number)
  end.

Definition codemagic_line (build_name build_number : json) (line : string) : string :=
  if contains "BUILD_NAME" line
  then "      BUILD_NAME: " +:+ dq +:+ py_str build_name +:+ dq +:+ nl
  else if contains "BUILD_NUMBER" line
  then "      BUILD_NUMBER: " +:+ dq +:+ py_str build_number +:+ dq +:+ nl
  else line.

Definition update_codemagic_yaml (build_name build_number : json) : M unit :=
  let* f := look codemagic_yaml in
  match f with
  | None => ret tt
  | Some text =>
      opened CODEMAGIC_PATH Rd >>>
      let lines := readlines text in
      opened CODEMAGIC_PATH Wr >>>
      modify (with_codemagic
        (Some (written (codemagic_line build_name build_number <$> lines)))) >>>
      print "📝 Updated codemagic.yaml with BUILD_NAME and BUILD_NUMBER"
  end.

Definition get_aab_path (flavor : string) : string :=
  "build/app/outputs/bundle/" +:+ flavor +:+ "Release/app-" +:+ flavor +:+
  "-release.aab".

Definition ipa_paths : gmap string string :=
  <["tiabytsp" := "build/ios/ipa/TIA by TSP.ipa"]>
  (<["workplacebyls" := "build/ios/ipa/Workplace By LS.ipa"]>
  (<["workplacebytsphub" := "build/ios/ipa/Workplace By TSPHub.ipa"]> ∅)).

Definition get_ipa_path (flavor : string) : string :=
  default ("build/ios/ipa/" +:+ flavor +:+ ".ipa") (ipa_paths !! flavor).

Definition package_names : gmap string string :=
  <["workplacebyls" := "com.locationsolutions.workplacebyls"]>
  (<["workplacebytsphub" := "com.locationsolutions.workplacebytsphub"]>
  (<["tiabytsp" := "com.locationsolutions.tiabytsp"]> ∅)).

Definition get_package_name (flavor : string) : string :=
  default "com.locationsolutions.workplacebyls" (package_names !! flavor).

Definition load_credentials (flavor : string) : M json :=
  let* f := look credentials_json in
  match f with
  | NoFile => raise FileNotFoundError
  | BadJson => opened CREDENTIALS_PATH Rd >>> raise JSONDecodeError
  | JsonDoc data =>
      opened CREDENTIALS_PATH Rd >>>
      let* present := lift (py_contains flavor data) in
      if negb present then raise KeyError
      else
        let* shown := lift (py_getitem data flavor) in
        print ("🔑 Loaded credentials for " +:+ flavor +:+ " " +:+ py_str shown) >>>
        lift (py_getitem data flavor)
  end.

Definition google_play_cmd (flavor aab_path : string) (json_key : json) : list json :=
  [JStr "fastlane"; JStr "supply";
   JStr "--aab"; JStr aab_path;
   JStr "--package_name"; JStr (get_package_name flavor);
   JStr "--track"; JStr "production";
   JStr "--json_key"; json_key;
   JStr "--skip_upload_metadata";
   JStr "--skip_upload_images";
   JStr "--skip_upload_screenshots"].

Definition upload_to_google_play (flavor : string) : M unit :=
  let aab_path := get_aab_path flavor in
  let* files := look artifacts in
  if negb (bool_decide (aab_path ∈ files)) then
    print "❌ AAB not found. Did you run `flutter build appbundle`?"
  else
    let* creds := load_credentials flavor in
    let* json_key := lift (py_getitem creds "google_play") in
    let* result := subprocess_run (google_play_cmd flavor aab_path json_key) false false in
    print (stdout result) >>>
    print (stderr result) >>>
    print (if Z.eqb (returncode result) 0
           then "✅ Uploaded to Google Play Store"
           else "❌ Google Play upload failed").

Definition app_store_cmd (ipa_path : string) (api_key_path : json) : list json :=
  [JStr "fastlane"; JStr "deliver";
   JStr "--ipa"; JStr ipa_path;
   JStr "--skip_metadata";
   JStr "--skip_screenshots";
   JStr "--submit_for_review";
   JStr "--automatic_release";
   JStr "--api_key_path"; api_key_path].

Definition upload_to_app_store (flavor : string) : M unit :=
  let ipa_path := get_ipa_path flavor in
  let* files := look artifacts in
  if negb (bool_decide (ipa_path ∈ files)) then
    print ("❌ IPA not found at " +:+ ipa_path)
  else
    let* creds := load_credentials flavor in
    let* api_key_path := lift (py_getitem creds "app_store_key_path") in
    let* result := subprocess_run (app_store_cmd ipa_path api_key_path) false false in
    print (stdout result) >>>
    print (stderr result) >>>
    print (if Z.eqb (returncode result) 0
           then "✅ Uploaded to App Store Connect"
           else "❌ App Store upload failed").

(** [flavor, platform = args] *)
Definition unpack2 (args : list string) : M (string * string) :=
  match args with
  | [flavor; platform] => ret (flavor, platform)
  | _ => raise ValueError
  end.

Definition handle_bump (args : list string) : M unit :=
  if Nat.ltb (length args) 2 then
    print "❌ Usage: bump <flavor> <platform>" >>> sys_exit 1
  else
    let* '(flavor, platform) := unpack2 args in
    if negb (bool_decide (flavor ∈ SUPPORTED_FLAVORS))
       || negb (bool_decide (platform ∈ SUPPORTED_PLATFORMS)) then
      print "❌ Invalid flavor or platform." >>> sys_exit 1
    else
      let* data := read_version_file in
      let* current := lift (subscript2 data flavor platform) in
      let* build_name := lift (subscript2 data flavor "build_name") in
      let* old := lift (py_getitem current "build_number") in
      let* build_number := lift (py_add_one old) in
      let* data := lift (store3 data flavor platform "build_number" build_number) in
      write_version_file data >>>
      append_changelog flavor platform build_name build_number >>>
      print ("✅ Bumped " +:+ flavor +:+ " (" +:+ platform +:+ ") to " +:+
             py_str build_name +:+ "+" +:+ py_str build_number) >>>
      print ("BUILD_NAME=" +:+ py_str build_name) >>>
      print ("BUILD_NUMBER=" +:+ py_str build_number).

(** The body of the inner loop of [handle_bump_all]; [data] is the
    dictionary the loops update. *)
Definition bump_all_step (flavor platform : string) (data : json) : M json :=
  let* current := lift (subscript2 data flavor platform) in
  let* build_name := lift (subscript2 data flavor "build_name") in
  let* old := lift (py_getitem current "build_number") in
  let* build_number := lift (py_add_one old) in
  let* data := lift (store3 data flavor platform "build_number" build_number) in
  append_changelog flavor platform build_name build_number >>>
  print ("✅ Bumped " +:+ flavor +:+ " (" +:+ platform +:+ ") to " +:+
         py_str build_name +:+ "+" +:+ py_str build_number) >>>
  ret data.

Definition handle_bump_all : M unit :=
  let* data := read_version_file in
  let* data :=
    for_fold SUPPORTED_FLAVORS (λ flavor data,
      for_fold SUPPORTED_PLATFORMS (λ platform data,
        bump_all_step flavor platform data) data) data in
  write_version_file data >>>
  print "📦 All versions bumped and saved to version.json".

(** The list [cmd] of [handle_release] and [handle_release_all]; all its
    elements are strings. *)
Definition shorebird_cmd (flavor platform : string)
    (build_name build_number : json) : list string :=
  let target := "lib/main_" +:+ flavor +:+ ".dart" in
  ["shorebird"; "release"; platform;
   "--flutter-version=" +:+ FLUTTER_VERSION;
   "--flavor"; flavor;
   "-t"; target;
   "--build-name=" +:+ py_str build_name;
   "--build-number=" +:+ py_str build_number].

(** [if platform == 'android': ... elif platform == 'ios': ...] *)
Definition upload (flavor platform : string) : M unit :=
  if String.eqb platform "android" then upload_to_google_play flavor
  else if String.eqb platform "ios" then upload_to_app_store flavor
  else ret tt.

Definition handle_release (args : list string) : M unit :=
  if Nat.ltb (length args) 2 then
    print "❌ Usage: release <flavor> <platform>" >>> sys_exit 1
  else
    let* '(flavor, platform) := unpack2 args in
    let* data := read_version_file in
    let* current := lift (subscript2 data flavor platform) in
    let* build_name := lift (subscript2 data flavor "build_name") in
    let* build_number := lift (py_getitem current "build_number") in
    let* new_build_number := lift (py_add_one build_number) in
    update_pubspec_yaml build_name build_number >>>
    update_codemagic_yaml build_name build_number >>>
    let* result :=
      subprocess_run (JStr <$> shorebird_cmd flavor platform build_name build_number)
                     false false in
    print (stdout result) >>>
    print (stderr result) >>>
    upload flavor platform >>>
    let* data := lift (store3 data flavor platform "build_number" new_build_number) in
    let build_name := after_store data flavor "build_name" build_name in
    write_version_file data >>>
    append_changelog flavor platform build_name new_build_number >>>
    print ("✅ Released and bumped to " +:+ py_str build_name +:+ "+" +:+
           py_str new_build_number).

(** The body of the inner loop of [handle_release_all]. *)
Definition release_all_step (data : json) (platform flavor : string) : M unit :=
  let* current := lift (subscript2 data flavor platform) in
  let* build_name := lift (subscript2 data flavor "build_name") in
  let* build_number := lift (py_getitem current "build_number") in
  update_pubspec_yaml build_name build_number >>>
  update_codemagic_yaml build_name build_number >>>
  print ("🚀 Releasing " +:+ flavor +:+ " (" +:+ platform +:+ ")...") >>>
  let* result :=
    subprocess_run (JStr <$> shorebird_cmd flavor platform build_name build_number)
                   true true in
  print (stdout result) >>>
  print (stderr result) >>>
  upload flavor platform >>>
  append_changelog flavor platform build_name build_number >>>
  print ("✅ Done: " +:+ flavor +:+ " (" +:+ platform +:+ ") -> " +:+
         py_str build_name +:+ "+" +:+ py_str build_number).

Definition handle_release_all : M unit :=
  print "📦 Bumping all..." >>>
  handle_bump_all >>>
  let* data := read_version_file in
  for_each SUPPORTED_PLATFORMS (λ platform,
    for_each SUPPORTED_FLAVORS (λ flavor,
      release_all_step data platform flavor)) >>>
  write_version_file data >>>
  print "✅ All releases done.".

Definition help_text : string :=
  nl +:+ "Usage:" +:+ nl +:+
  "  python release.py <command> [options]" +:+ nl +:+ nl +:+
  "Commands:" +:+ nl +:+
  "  bump <flavor> <platform>        Bump version for specific flavor/platform" +:+ nl +:+
  "  bump-all                        Bump build numbers for all flavors/platforms" +:+ nl +:+
  "  release <flavor> <platform>     Bump + shorebird release + fastlane publish" +:+ nl +:+
  "  release-all                     Perform release for all combinations" +:+ nl +:+
  "  --help                          Show this help menu" +:+ nl.

Definition print_help : M unit := print help_text.

(** The table [commands] of [main]. *)
Definition commands (command : string) : option (list string → M unit) :=
  if String.eqb command "bump" then Some handle_bump
  else if String.eqb command "bump-all" then Some (λ _, handle_bump_all)
  else if String.eqb command "release" then Some handle_release
  else if String.eqb command "release-all" then Some (λ _, handle_release_all)
  else None.

(** [main], given [sys.argv[1:]]. *)
Definition main (args : list string) : M unit :=
  match args with
  | [] => print_help
  | command :: options =>
      if bool_decide ("--help" ∈ args) then print_help
      else
        match commands command with
        | None =>
            print ("❌ Unknown command: " +:+ command +:+ nl) >>>
            print_help >>>
            sys_exit 1
        | Some handler => handler options
        end
  end.

(** ** Vocabulary of the properties *)

(** The world [handle_bump] leaves after a successful run. *)
Definition bumped_world (f p : string) (bn : json) (n : Z) (d' : json) (w : world) : world :=
  World
    (with_changelog
       (Some (default "" (changelog_md (host w)) +:+
              changelog_entry (today (host w)) f p bn (JInt (n + 1))))
       (with_version (JsonDoc d') (host w)))
    (trace w ++
     [EOpen VERSION_FILE_PATH Rd; EOpen VERSION_FILE_PATH Wr;
      EOpen CHANGELOG_FILE_PATH Ap;
      EPrint ("✅ Bumped " +:+ f +:+ " (" +:+ p +:+ ") to " +:+
              py_str bn +:+ "+" +:+ py_str (JInt (n + 1)));
      EPrint ("BUILD_NAME=" +:+ py_str bn);
      EPrint ("BUILD_NUMBER=" +:+ py_str (JInt (n + 1)))]).

(** The pairs two nested loops go through, outer loop first. *)
Definition nested {X Y} (xs : list X) (ys : list Y) : list (X * Y) :=
  x ← xs; (λ y, (x, y)) <$> ys.

(** The document has an integer build number for every supported pair and
    a build name for every supported flavor. *)
Definition complete_doc (d : json) : Prop :=
  ∀ f p, f ∈ SUPPORTED_FLAVORS → p ∈ SUPPORTED_PLATFORMS →
    ∃ n bn, subscript3 d f p "build_number" = Ok (JInt n) ∧
            subscript2 d f "build_name" = Ok bn.

(** One pair of the loop of [bump-all] can be bumped in [d]. *)
Definition entry_ok (d : json) (fp : string * string) : Prop :=
  fp.2 ≠ "build_name" ∧
  ∃ n bn, subscript3 d fp.1 fp.2 "build_number" = Ok (JInt n) ∧
          subscript2 d fp.1 "build_name" = Ok bn.

(** Every external program can be started and runs to an exit code. *)
Definition tools_return : Prop :=
  ∀ i e, is_Some (os_exec i e).

(** No external program changes the credentials file. *)
Definition tools_keep_credentials : Prop :=
  ∀ i e r e', os_exec i e = Some (r, e') → credentials_json e' = credentials_json e.

(** No external program removes [pubspec.yaml]. *)
Definition tools_keep_pubspec : Prop :=
  ∀ i e r e', os_exec i e = Some (r, e') →
    is_Some (pubspec_yaml e) → is_Some (pubspec_yaml e').

(** The credentials file has an entry for the flavor, with both key paths. *)
Definition creds_ready (c : json_file) (flavor : string) : Prop :=
  ∃ data google_play app_store,
    c = JsonDoc data ∧
    subscript2 data flavor "google_play" = Ok (JStr google_play) ∧
    subscript2 data flavor "app_store_key_path" = Ok (JStr app_store).

(** The calls of the packaging tool among some events, in the order of
    the calls: those whose command list begins with [shorebird]. *)
Definition packaging_run (e : event) : option invocation :=
  match e with
  | ERun i =>
      match argv i with
      | cmd :: _ => if String.eqb cmd "shorebird" then Some i else None
      | [] => None
      end
  | _ => None
  end.

Definition packaging_runs (evs : list event) : list invocation :=
  omap packaging_run evs.

(** [w'] is reached from [w] by events that call the packaging tool as
    [runs] say, in that order, and that do not open the version file for
    writing. *)
Definition extends (w w' : world) (runs : list invocation) : Prop :=
  ∃ evs,
    trace w' = (trace w ++ evs)%list ∧
    packaging_runs evs = runs ∧
    Forall (λ e, e ≠ EOpen VERSION_FILE_PATH Wr) evs.

(** What an upload leaves behind: it has started no packaging tool and
    written no version file, and the host is either untouched or as the one
    program it ran left it. *)
Definition upload_effect (w w' : world) : Prop :=
  extends w w' [] ∧
  (host w' = host w ∨ ∃ i r, os_exec i (host w) = Some (r, host w')).

(** One external program has run between two states of the host. *)
Definition tool_step (e e' : env) : Prop :=
  ∃ i r, os_exec i e = Some (r, e').

(** What one round of the release loop should ship for a pair, read from
    the document the loop works on. *)
Definition ships (data : json) (pf : string * string) (call : invocation) : Prop :=
  ∃ bn num,
    subscript3 data pf.2 pf.1 "build_number" = Ok num ∧
    subscript2 data pf.2 "build_name" = Ok bn ∧
    call = Invocation (shorebird_cmd pf.2 pf.1 bn num) true true.

(** The events other than prints: the files opened and the programs run. *)
Definition effect_of (e : event) : option event :=
  match e with
  | EPrint _ => None
  | _ => Some e
  end.

Definition effects (t : list event) : list event := omap effect_of t.

(** Two worlds that differ at most in what has been printed. *)
Definition same_effects (w1 w2 : world) : Prop :=
  host w1 = host w2 ∧ effects (trace w1) = effects (trace w2).

(** Two actions that, started in worlds that differ at most in what has
    been printed, end the same way (with results related by [R] when they
    return) in worlds that again differ at most in what has been printed. *)
Definition sim {X} (R : X → X → Prop) (m1 m2 : M X) : Prop :=
  ∀ w1 w2, same_effects w1 w2 →
    match m1 w1, m2 w2 with
    | (Ok a1, w1'), (Ok a2, w2') => R a1 a2 ∧ same_effects w1' w2'
    | (Exit c1, w1'), (Exit c2, w2') => c1 = c2 ∧ same_effects w1' w2'
    | (Raise e1, w1'), (Raise e2, w2') => e1 = e2 ∧ same_effects w1' w2'
    | _, _ => False
    end.

(** The lookups [handle_bump] and [handle_release] make in the document
    before they change anything, in the order of the source:
    [data[flavor][platform]], [data[flavor]['build_name']],
    [current['build_number']] and that number [+ 1].  The result is the
    build name, the stored number and the next number. *)
Definition read_entry (data : json) (flavor platform : string)
    : outcome (json * json * json) :=
  obind (subscript2 data flavor platform) (λ current,
  obind (subscript2 data flavor "build_name") (λ build_name,
  obind (py_getitem current "build_number") (λ build_number,
  obind (py_add_one build_number) (λ next,
  Ok (build_name, build_number, next))))).

(** The programs started among some events, in order. *)
Definition run_of (e : event) : option invocation :=
  match e with
  | ERun i => Some i
  | _ => None
  end.

Definition runs (evs : list event) : list invocation := omap run_of evs.

(** The host after [update_pubspec_yaml] and [update_codemagic_yaml]: each
    file that exists holds its patched lines. *)
Definition patched_host (build_name build_number : json) (e : env) : env :=
  with_codemagic
    ((λ text, written (codemagic_line build_name build_number <$> readlines text))
       <$> codemagic_yaml e)
    (with_pubspec
       ((λ text, written (pubspec_line build_name build_number <$> readlines text))
          <$> pubspec_yaml e)
       e).

(** The events of the two patchers when [pubspec.yaml] exists. *)
Definition patch_events (build_name build_number : json) (e : env) : list event :=
  [EOpen PUBSPEC_PATH Rd; EOpen PUBSPEC_PATH Wr;
   EPrint ("📝 Updated pubspec.yaml with version: " +:+
           py_str build_name +:+ "+" +:+ py_str build_number)] ++
  match codemagic_yaml e with
  | Some _ =>
      [EOpen CODEMAGIC_PATH Rd; EOpen CODEMAGIC_PATH Wr;
       EPrint "📝 Updated codemagic.yaml with BUILD_NAME and BUILD_NUMBER"]
  | None => []
  end.

(** The string has no newline in it. *)
Fixpoint no_newline (s : string) : bool :=
  match s with
  | "" => true
  | String c s' => negb (Ascii.eqb c (Ascii.ascii_of_nat 10)) && no_newline s'
  end.

(** The string has no carriage return in it. *)
Fixpoint no_cr (s : string) : bool :=
  match s with
  | "" => true
  | String c s' => negb (Ascii.eqb c (Ascii.ascii_of_nat 13)) && no_cr s'
  end.

(** The string stays on one line: it has neither a newline nor a carriage
    return. *)
Definition no_line_break (s : string) : bool := no_newline s && no_cr s.

(** The shape of what [readlines] returns: every line is free of newlines
    up to the one that ends it, and only the last line may lack it (and is
    then not empty). *)
Inductive lines_ok : list string → Prop :=
  | lines_ok_nil : lines_ok []
  | lines_ok_last s : no_newline s = true → s ≠ "" → lines_ok [s]
  | lines_ok_cons s ls :
      no_newline s = true → lines_ok ls → lines_ok ((s +:+ nl) :: ls).

(** The changelog line [bump-all] writes for a pair of the document [d]
    on the day [date]: the build name, and the stored number plus one. *)
Definition bump_line (d : json) (date : string) (fp : string * string)
    (line : string) : Prop :=
  ∃ n bn,
    subscript3 d fp.1 fp.2 "build_number" = Ok (JInt n) ∧
    subscript2 d fp.1 "build_name" = Ok bn ∧
    line = changelog_entry date fp.1 fp.2 bn (JInt (n + 1)).

(** The action relates every world it is started in to the world it
    leaves by [R], however it ends, and when it ends through [sys.exit] the
    status is 1. *)
Definition upholds (R : world → world → Prop) {X} (m : M X) : Prop :=
  ∀ w, R w (m w).2 ∧ ∀ c, (m w).1 = Exit c → c = 1%Z.

(** An operation on Python values never ends the process. *)
Definition never_exits {X} (o : outcome X) : Prop := ∀ c, o ≠ Exit c.

(** The changelog [c'] is the changelog [c] with some text added at its
    end (a missing file counts as empty), and it has not been removed. *)
Definition changelog_grows (c c' : option string) : Prop :=
  (∃ added, default "" c' = default "" c +:+ added) ∧
  (is_Some c → is_Some c').

(** What a command without external programs leaves alone. *)
Definition only_store_touched (w w' : world) : Prop :=
  pubspec_yaml (host w') = pubspec_yaml (host w) ∧
  codemagic_yaml (host w') = codemagic_yaml (host w) ∧
  credentials_json (host w') = credentials_json (host w) ∧
  artifacts (host w') = artifacts (host w) ∧
  runs (trace w') = runs (trace w).

(** ** Properties *)

(** *** Running the monad *)

Lemma bind_Ok {X Y} (m : M X) (k : X → M Y) w a w' :
  m w = (Ok a, w') → bind m k w = k a w'.
Proof. intros E. unfold bind. by rewrite E. Qed.

Lemma bind_Exit {X Y} (m : M X) (k : X → M Y) w c w' :
  m w = (Exit c, w') → bind m k w = (Exit c, w').
Proof. intros E. unfold bind. by rewrite E. Qed.

Lemma bind_Raise {X Y} (m : M X) (k : X → M Y) w e w' :
  m w = (Raise e, w') → bind m k w = (Raise e, w').
Proof. intros E. unfold bind. by rewrite E. Qed.

Lemma bind_assoc {X Y Z} (m : M X) (k : X → M Y) (h : Y → M Z) w :
  bind (bind m k) h w = bind m (λ x, bind (k x) h) w.
Proof. unfold bind. by destruct (m w) as [[?| |] ?]. Qed.

Lemma bind_ret {X Y} (a : X) (k : X → M Y) w : bind (ret a) k w = k a w.
Proof. reflexivity. Qed.

Lemma bind_lift_Ok {X Y} (a : X) (k : X → M Y) w : bind (lift (Ok a)) k w = k a w.
Proof. reflexivity. Qed.

Lemma bind_lift_Raise {X Y} e (k : X → M Y) w :
  bind (lift (Raise e)) k w = (Raise e, w).
Proof. reflexivity. Qed.

Lemma bind_print {Y} s (k : unit → M Y) w :
  bind (print s) k w = k tt (log (EPrint s) w).
Proof. reflexivity. Qed.

Lemma bind_opened {Y} path m (k : unit → M Y) w :
  bind (opened path m) k w = k tt (log (EOpen path m) w).
Proof. reflexivity. Qed.

Lemma bind_look {X Y} (f : env → X) (k : X → M Y) w :
  bind (look f) k w = k (f (host w)) w.
Proof. reflexivity. Qed.

Lemma bind_modify {Y} (f : env → env) (k : unit → M Y) w :
  bind (modify f) k w = k tt (set_host f w).
Proof. reflexivity. Qed.

Lemma bind_sys_exit {X Y} c (k : X → M Y) w : bind (sys_exit c) k w = (Exit c, w).
Proof. reflexivity. Qed.

Lemma bind_raise {X Y} e (k : X → M Y) w : bind (raise e) k w = (Raise e, w).
Proof. reflexivity. Qed.

(** One step of a script run: the first action of a sequence is performed. *)
Ltac mstep :=
  first
    [ rewrite bind_assoc
    | rewrite bind_ret
    | rewrite bind_lift_Ok
    | rewrite bind_print
    | rewrite bind_opened
    | rewrite bind_look
    | rewrite bind_modify
    | rewrite bind_sys_exit
    | rewrite bind_raise
    | rewrite bind_lift_Raise ];
  cbv beta.

Ltac mrun := repeat mstep.

(** *** Text *)


(** *** Lookup tables *)

Lemma package_names_unsupported flavor :
  flavor ∉ SUPPORTED_FLAVORS → package_names !! flavor = None.
Proof.
  unfold SUPPORTED_FLAVORS, package_names. intros H.
  repeat (apply not_elem_of_cons in H as [? H]).
  by rewrite !lookup_insert_ne, lookup_empty.
Qed.

(** C10: for a flavor outside the supported set the package-name lookup
    does not fail; it returns the workplacebyls identifier, and that is the
    package the Google Play upload command names. *)
Theorem get_package_name_default flavor :
  flavor ∉ SUPPORTED_FLAVORS →
  get_package_name flavor = "com.locationsolutions.workplacebyls" ∧
  ∀ aab_path json_key,
    google_play_cmd flavor aab_path json_key !! 4%nat = Some (JStr "--package_name") ∧
    google_play_cmd flavor aab_path json_key !! 5%nat =
      Some (JStr "com.locationsolutions.workplacebyls").
Proof.
  intros H.
  assert (E : get_package_name flavor = "com.locationsolutions.workplacebyls").
  { unfold get_package_name. by rewrite package_names_unsupported. }
  split; [exact E|]. intros aab_path json_key.
  unfold google_play_cmd. rewrite E. split; reflexivity.
Qed.

(** C7: when the build artifact of a flavor is missing, the upload
    function prints one message and returns; it opens no file, starts no
    program and raises nothing.  This holds for the AAB of the Google Play
    upload and for the IPA of the App Store upload. *)
Theorem upload_skips_missing_artifact flavor w :
  (get_aab_path flavor ∉ artifacts (host w) →
   upload_to_google_play flavor w =
     (Ok tt, log (EPrint "❌ AAB not found. Did you run `flutter build appbundle`?") w)) ∧
  (get_ipa_path flavor ∉ artifacts (host w) →
   upload_to_app_store flavor w =
     (Ok tt, log (EPrint ("❌ IPA not found at " +:+ get_ipa_path flavor)) w)).
Proof.
  split; intros H.
  - unfold upload_to_google_play, bind, look.
    by rewrite bool_decide_eq_false_2.
  - unfold upload_to_app_store, bind, look.
    by rewrite bool_decide_eq_false_2.
Qed.

(** *** The version document *)

(** What [d[f][p][k] = Ok x] says about the shape of [d]. *)
Lemma subscript3_inv d f p k x :
  subscript3 d f p k = Ok x →
  ∃ md mr mc, d = JObj md ∧ md !! f = Some (JObj mr) ∧
              mr !! p = Some (JObj mc) ∧ mc !! k = Some x.
Proof.
  unfold subscript3, py_getitem, obind. intros H.
  destruct d as [| | | | |md]; try discriminate.
  destruct (md !! f) as [[| | | | |mr]|] eqn:Ef; try discriminate.
  destruct (mr !! p) as [[| | | | |mc]|] eqn:Ep; try discriminate.
  destruct (mc !! k) as [y|] eqn:Ek; try discriminate.
  injection H as ->. by exists md, mr, mc.
Qed.

Lemma subscript3_subscript2 d f p k x :
  subscript3 d f p k = Ok x →
  ∃ cur, subscript2 d f p = Ok cur ∧ py_getitem cur k = Ok x.
Proof.
  intros (md & mr & mc & -> & Ef & Ep & Ek)%subscript3_inv.
  exists (JObj mc). unfold subscript2, py_getitem, obind.
  by rewrite Ef, Ep, Ek.
Qed.

(** The assignment [d[f][p][k] = v] succeeds wherever [d[f][p][k]] can be
    read, and this is the dictionary it leaves. *)
Lemma store3_defined d f p k x v :
  subscript3 d f p k = Ok x → ∃ d', store3 d f p k v = Ok d'.
Proof.
  intros (md & mr & mc & -> & Ef & Ep & Ek)%subscript3_inv.
  unfold store3, py_getitem, py_setitem, obind. rewrite Ef, Ep. eauto.
Qed.

Lemma store3_inv d f p k v d' :
  store3 d f p k v = Ok d' →
  ∃ md mr mc, d = JObj md ∧ md !! f = Some (JObj mr) ∧
              mr !! p = Some (JObj mc) ∧
              d' = JObj (<[f := JObj (<[p := JObj (<[k := v]> mc)]> mr)]> md).
Proof.
  unfold store3, py_getitem, py_setitem, obind. intros H.
  destruct d as [| | | | |md]; try discriminate.
  destruct (md !! f) as [[| | | | |mr]|] eqn:Ef; try discriminate.
  destruct (mr !! p) as [[| | | | |mc]|] eqn:Ep; try discriminate.
  injection H as <-. by exists md, mr, mc.
Qed.

Lemma store3_read d f p k v d' :
  store3 d f p k v = Ok d' → subscript3 d' f p k = Ok v.
Proof.
  intros (md & mr & mc & -> & Ef & Ep & ->)%store3_inv.
  unfold subscript3, py_getitem, obind. by rewrite !lookup_insert_eq.
Qed.

Lemma store3_other_flavor d f p k v d' f' :
  store3 d f p k v = Ok d' → f' ≠ f → py_getitem d' f' = py_getitem d f'.
Proof.
  intros (md & mr & mc & -> & Ef & Ep & ->)%store3_inv Hne.
  unfold py_getitem. by rewrite lookup_insert_ne.
Qed.

Lemma store3_other_platform d f p k v d' p' :
  store3 d f p k v = Ok d' → p' ≠ p → subscript2 d' f p' = subscript2 d f p'.
Proof.
  intros (md & mr & mc & -> & Ef & Ep & ->)%store3_inv Hne.
  unfold subscript2, py_getitem, obind.
  by rewrite lookup_insert_eq, Ef, lookup_insert_ne.
Qed.

Lemma store3_other_pair d f p k v d' f' p' k' :
  store3 d f p k v = Ok d' → (f', p') ≠ (f, p) →
  subscript3 d' f' p' k' = subscript3 d f' p' k'.
Proof.
  intros (md & mr & mc & -> & Ef & Ep & ->)%store3_inv Hne.
  unfold subscript3, py_getitem, obind.
  destruct (decide (f' = f)) as [->|Hf].
  - assert (p' ≠ p) as Hp by congruence.
    by rewrite lookup_insert_eq, Ef, lookup_insert_ne.
  - by rewrite lookup_insert_ne.
Qed.

Lemma store3_build_name d f p k v d' f' :
  store3 d f p k v = Ok d' → p ≠ "build_name" →
  subscript2 d' f' "build_name" = subscript2 d f' "build_name".
Proof.
  intros Hst Hp.
  destruct (decide (f' = f)) as [->|Hf].
  - by apply (store3_other_platform _ _ _ _ _ _ _ Hst).
  - unfold subscript2. by rewrite (store3_other_flavor _ _ _ _ _ _ _ Hst Hf).
Qed.

Lemma after_store_build_name d f p k v d' bn :
  store3 d f p k v = Ok d' → p ≠ "build_name" →
  subscript2 d f "build_name" = Ok bn →
  after_store d' f "build_name" bn = bn.
Proof.
  intros Hst Hp Hbn. unfold after_store.
  by rewrite (store3_build_name _ _ _ _ _ _ f Hst Hp), Hbn.
Qed.

Lemma supported_platform_not_build_name p :
  p ∈ SUPPORTED_PLATFORMS → p ≠ "build_name".
Proof.
  unfold SUPPORTED_PLATFORMS. intros H ->.
  repeat (apply elem_of_cons in H as [H|H]; [discriminate|]).
  by apply elem_of_nil in H.
Qed.

(** *** Single actions *)

Lemma read_version_file_doc w d :
  version_json (host w) = JsonDoc d →
  read_version_file w = (Ok d, log (EOpen VERSION_FILE_PATH Rd) w).
Proof. intros E. unfold read_version_file, bind, look. by rewrite E. Qed.

Lemma supported_pair_accepted f p :
  f ∈ SUPPORTED_FLAVORS → p ∈ SUPPORTED_PLATFORMS →
  negb (bool_decide (f ∈ SUPPORTED_FLAVORS))
  || negb (bool_decide (p ∈ SUPPORTED_PLATFORMS)) = false.
Proof. intros Hf Hp. by rewrite !bool_decide_eq_true_2. Qed.

Lemma unsupported_pair_rejected f p :
  f ∉ SUPPORTED_FLAVORS ∨ p ∉ SUPPORTED_PLATFORMS →
  negb (bool_decide (f ∈ SUPPORTED_FLAVORS))
  || negb (bool_decide (p ∈ SUPPORTED_PLATFORMS)) = true.
Proof.
  intros [H|H]; rewrite (bool_decide_eq_false_2 _ H); simpl; [done|].
  apply orb_true_r.
Qed.

Lemma handle_bump_run f p w d n bn d' :
  f ∈ SUPPORTED_FLAVORS → p ∈ SUPPORTED_PLATFORMS →
  version_json (host w) = JsonDoc d →
  subscript3 d f p "build_number" = Ok (JInt n) →
  subscript2 d f "build_name" = Ok bn →
  store3 d f p "build_number" (JInt (n + 1)) = Ok d' →
  handle_bump [f; p] w = (Ok tt, bumped_world f p bn n d' w).
Proof.
  intros Hf Hp Hv Hn Hbn Hst.
  destruct (subscript3_subscript2 _ _ _ _ _ Hn) as (cur & Hcur & Hold).
  unfold handle_bump. cbn [length Nat.ltb Nat.leb unpack2]. mstep.
  rewrite supported_pair_accepted by done.
  rewrite (bind_Ok _ _ _ _ _ (read_version_file_doc _ _ Hv)).
  rewrite Hcur. mstep. rewrite Hbn. mstep. rewrite Hold. mstep.
  cbn [py_add_one]. mstep. rewrite Hst. mstep.
  unfold write_version_file, append_changelog. mrun.
  unfold bumped_world. destruct w as [e t]. simpl in *.
  unfold bind, lift, write_version_file, append_changelog, bind, opened, modify,
    look, print, log, set_host. simpl.
  rewrite <- !app_assoc. simpl. reflexivity.
Qed.

(** C3: for a supported flavor and platform whose entry is in the version
    document, [bump] returns normally and the document it has written holds
    that pair's build number plus one and the flavor's build name as it
    was. *)
Theorem bump_increments_build_number f p w d n bn :
  f ∈ SUPPORTED_FLAVORS → p ∈ SUPPORTED_PLATFORMS →
  version_json (host w) = JsonDoc d →
  subscript3 d f p "build_number" = Ok (JInt n) →
  subscript2 d f "build_name" = Ok bn →
  ∃ w' d',
    handle_bump [f; p] w = (Ok tt, w') ∧
    version_json (host w') = JsonDoc d' ∧
    subscript3 d' f p "build_number" = Ok (JInt (n + 1)) ∧
    subscript2 d' f "build_name" = Ok bn.
Proof.
  intros Hf Hp Hv Hn Hbn.
  destruct (store3_defined _ _ _ _ _ (JInt (n + 1)) Hn) as [d' Hst].
  exists (bumped_world f p bn n d' w), d'.
  split; [by eapply handle_bump_run|].
  split; [reflexivity|].
  split; [by eapply store3_read|].
  rewrite <- Hbn.
  eapply store3_build_name; [exact Hst|].
  by apply supported_platform_not_build_name.
Qed.

(** C9: [bump] changes nothing in the version document but the build
    number of the pair it was called for: the records of the other flavors,
    every other key of the same flavor (the other platform with its build
    number among them) and the build name of every flavor read the same
    before and after.  The changelog gains the one line of the bump. *)
Theorem bump_frame f p w d n bn :
  f ∈ SUPPORTED_FLAVORS → p ∈ SUPPORTED_PLATFORMS →
  version_json (host w) = JsonDoc d →
  subscript3 d f p "build_number" = Ok (JInt n) →
  subscript2 d f "build_name" = Ok bn →
  ∃ w' d',
    handle_bump [f; p] w = (Ok tt, w') ∧
    version_json (host w') = JsonDoc d' ∧
    (∀ f', f' ≠ f → py_getitem d' f' = py_getitem d f') ∧
    (∀ p', p' ≠ p → subscript2 d' f p' = subscript2 d f p') ∧
    (∀ f' p', (f', p') ≠ (f, p) →
       subscript3 d' f' p' "build_number" = subscript3 d f' p' "build_number") ∧
    (∀ f', subscript2 d' f' "build_name" = subscript2 d f' "build_name") ∧
    changelog_md (host w') =
      Some (default "" (changelog_md (host w)) +:+
            changelog_entry (today (host w)) f p bn (JInt (n + 1))).
Proof.
  intros Hf Hp Hv Hn Hbn.
  destruct (store3_defined _ _ _ _ _ (JInt (n + 1)) Hn) as [d' Hst].
  exists (bumped_world f p bn n d' w), d'.
  split; [by eapply handle_bump_run|].
  split; [reflexivity|].
  split; [intros f' Hne; by eapply store3_other_flavor|].
  split; [intros p' Hne; by eapply store3_other_platform|].
  split; [intros f' p' Hne; by eapply store3_other_pair|].
  split; [|reflexivity].
  intros f'. eapply store3_build_name; [exact Hst|].
  by apply supported_platform_not_build_name.
Qed.

Lemma main_bump f p w :
  f ≠ "--help" → p ≠ "--help" →
  main ["bump"; f; p] w = handle_bump [f; p] w.
Proof.
  intros Hf Hp. unfold main. rewrite bool_decide_eq_false_2; [done|].
  rewrite !elem_of_cons, elem_of_nil. by intros [?|[?|[?|[]]]].
Qed.

(** C5: called with a flavor or a platform outside the supported sets,
    [bump] prints one error line and leaves through [sys.exit(1)], so the
    process ends with status 1; no file has been opened, neither for
    reading nor for writing, and the host is as it was.  [main] hands every
    [bump <flavor> <platform>] to [handle_bump] unless one of the two words
    is the help flag. *)
Theorem bump_rejects_unsupported f p w :
  f ∉ SUPPORTED_FLAVORS ∨ p ∉ SUPPORTED_PLATFORMS →
  ∃ w',
    handle_bump [f; p] w = (Exit 1, w') ∧
    exit_status (fst (handle_bump [f; p] w)) = 1%Z ∧
    host w' = host w ∧
    trace w' = (trace w ++ [EPrint "❌ Invalid flavor or platform."])%list ∧
    (f ≠ "--help" → p ≠ "--help" → main ["bump"; f; p] w = (Exit 1, w')).
Proof.
  intros H. exists (log (EPrint "❌ Invalid flavor or platform.") w).
  assert (E : handle_bump [f; p] w =
              (Exit 1, log (EPrint "❌ Invalid flavor or platform.") w)).
  { unfold handle_bump. cbn [length Nat.ltb Nat.leb unpack2]. mstep.
    rewrite unsupported_pair_rejected by done. by mrun. }
  rewrite E. repeat split. intros Hf Hp. by rewrite main_bump.
Qed.

(** *** The config patchers *)

Lemma sapp_cons a s t : String a s +:+ t = String a (s +:+ t).
Proof. reflexivity. Qed.

Lemma sapp_nil_r s : s +:+ "" = s.
Proof. induction s as [|a s IH]; [done|]. by rewrite sapp_cons, IH. Qed.

Lemma sapp_assoc s t u : (s +:+ t) +:+ u = s +:+ (t +:+ u).
Proof. induction s as [|a s IH]; [done|]. by rewrite !sapp_cons, IH. Qed.

Lemma written_readlines_from cur s :
  written (readlines_from cur s) = cur +:+ s.
Proof.
  revert cur. induction s as [|c s IH]; intros cur; cbn [readlines_from].
  - destruct cur; cbn [written foldr]; [done|]. by rewrite !sapp_nil_r.
  - destruct (Ascii.eqb_spec c (Ascii.ascii_of_nat 10)) as [->|_].
    + cbn [written foldr]. fold (written (readlines_from "" s)).
      rewrite IH. unfold nl. by rewrite sapp_assoc.
    + rewrite IH. by rewrite sapp_assoc.
Qed.

(** The lines [readlines] returns are a partition of the text as Python
    reads it. *)
Lemma written_readlines s : written (readlines s) = universal_newlines s.
Proof. apply written_readlines_from. Qed.

Lemma universal_newlines_no_cr s : no_cr s = true → universal_newlines s = s.
Proof.
  induction s as [|c s IH]; [done|]. cbn [no_cr]. intros [Hc Hs]%andb_prop.
  apply negb_true_iff in Hc. cbn [universal_newlines]. rewrite Hc.
  by rewrite IH.
Qed.

Lemma no_cr_universal_newlines s : no_cr (universal_newlines s) = true.
Proof.
  enough (no_cr (universal_newlines s) = true ∧
          ∀ c, no_cr (universal_newlines (String c s)) = true) by tauto.
  induction s as [|a s [IH1 IH2]].
  - split; [done|]. intros c. cbn [universal_newlines].
    destruct (Ascii.eqb c (Ascii.ascii_of_nat 13)) eqn:Hc; [done|].
    cbn [no_cr]. by rewrite Hc.
  - split; [apply IH2|]. intros c.
    change (universal_newlines (String c (String a s))) with
      (if Ascii.eqb c (Ascii.ascii_of_nat 13)
       then if Ascii.eqb a (Ascii.ascii_of_nat 10)
            then String a (universal_newlines s)
            else String (Ascii.ascii_of_nat 10) (universal_newlines (String a s))
       else String c (universal_newlines (String a s))).
    destruct (Ascii.eqb c (Ascii.ascii_of_nat 13)) eqn:Hc.
    + destruct (Ascii.eqb_spec a (Ascii.ascii_of_nat 10)) as [->|Ha].
      * cbn [no_cr]. by rewrite IH1.
      * change (no_cr (String (Ascii.ascii_of_nat 10) ?t)) with (no_cr t).
        apply IH2.
    + change (no_cr (String c ?t))
        with (negb (Ascii.eqb c (Ascii.ascii_of_nat 13)) && no_cr t).
      by rewrite Hc, IH2.
Qed.

Lemma no_cr_app s t : no_cr (s +:+ t) = no_cr s && no_cr t.
Proof.
  induction s as [|c s IH]; [done|].
  rewrite sapp_cons. cbn [no_cr]. by rewrite IH, andb_assoc.
Qed.

Lemma no_cr_written ls :
  no_cr (written ls) = true ↔ Forall (λ line, no_cr line = true) ls.
Proof.
  induction ls as [|l ls IH]; [by split|].
  cbn [written foldr]. fold (written ls). rewrite no_cr_app, andb_true_iff, IH.
  split; [intros [??]; by constructor|by intros [??]%Forall_cons].
Qed.

(** The lines Python reads hold no carriage return. *)
Lemma readlines_no_cr text : Forall (λ line, no_cr line = true) (readlines text).
Proof.
  apply no_cr_written. rewrite written_readlines. apply no_cr_universal_newlines.
Qed.

Lemma pubspec_line_other bn num line :
  startswith "version:" line = false → pubspec_line bn num line = line.
Proof. intros H. unfold pubspec_line. by rewrite H. Qed.

Lemma codemagic_line_other bn num line :
  contains "BUILD_NAME" line = false → contains "BUILD_NUMBER" line = false →
  codemagic_line bn num line = line.
Proof. intros H1 H2. unfold codemagic_line. by rewrite H1, H2. Qed.

Lemma update_pubspec_yaml_run bn num w text :
  pubspec_yaml (host w) = Some text →
  update_pubspec_yaml bn num w =
    (Ok tt,
     World (with_pubspec (Some (written (pubspec_line bn num <$> readlines text))) (host w))
           (trace w ++ [EOpen PUBSPEC_PATH Rd; EOpen PUBSPEC_PATH Wr;
                        EPrint ("📝 Updated pubspec.yaml with version: " +:+
                                py_str bn +:+ "+" +:+ py_str num)])).
Proof.
  intros E. unfold update_pubspec_yaml. mstep. rewrite E. mrun.
  unfold print, log, set_host. cbn [host trace].
  by rewrite <- !app_assoc.
Qed.

Lemma update_pubspec_yaml_missing bn num w :
  pubspec_yaml (host w) = None →
  update_pubspec_yaml bn num w = (Raise FileNotFoundError, w).
Proof. intros E. unfold update_pubspec_yaml. mstep. by rewrite E. Qed.

Lemma update_codemagic_yaml_run bn num w text :
  codemagic_yaml (host w) = Some text →
  update_codemagic_yaml bn num w =
    (Ok tt,
     World (with_codemagic
              (Some (written (codemagic_line bn num <$> readlines text))) (host w))
           (trace w ++ [EOpen CODEMAGIC_PATH Rd; EOpen CODEMAGIC_PATH Wr;
                        EPrint "📝 Updated codemagic.yaml with BUILD_NAME and BUILD_NUMBER"])).
Proof.
  intros E. unfold update_codemagic_yaml. mstep. rewrite E. mrun.
  unfold print, log, set_host. cbn [host trace].
  by rewrite <- !app_assoc.
Qed.

Lemma update_codemagic_yaml_absent bn num w :
  codemagic_yaml (host w) = None → update_codemagic_yaml bn num w = (Ok tt, w).
Proof. intros E. unfold update_codemagic_yaml. mstep. by rewrite E. Qed.


(** *** Loops *)

Lemma bind_ext {X Y} (m m' : M X) (k k' : X → M Y) w :
  m w = m' w → (∀ a w', k a w' = k' a w') → bind m k w = bind m' k' w.
Proof. intros E H. unfold bind. rewrite <- E. destruct (m w) as [[a| |] w']; auto. Qed.

Lemma for_fold_app {X S} (xs ys : list X) (body : X → S → M S) s w :
  for_fold (xs ++ ys) body s w = bind (for_fold xs body s) (for_fold ys body) w.
Proof.
  revert s w. induction xs as [|x xs IH]; intros s w; [done|].
  cbn [app for_fold]. rewrite bind_assoc. by apply bind_ext.
Qed.

Lemma for_fold_nested {X Y S} (xs : list X) (ys : list Y) (body : X → Y → S → M S) s w :
  for_fold xs (λ x s, for_fold ys (λ y s, body x y s) s) s w =
  for_fold (nested xs ys) (λ xy s, body xy.1 xy.2 s) s w.
Proof.
  revert s w. induction xs as [|x xs IH]; intros s w; [done|].
  cbn [for_fold]. unfold nested. cbn [mbind list_bind]. fold (nested xs ys).
  rewrite for_fold_app.
  assert (E : ∀ s w, for_fold ys (λ y s, body x y s) s w =
                     for_fold ((λ y, (x, y)) <$> ys) (λ xy s, body xy.1 xy.2 s) s w).
  { clear. induction ys as [|y ys IHy]; intros s w; [done|].
    cbn [fmap list_fmap for_fold]. by apply bind_ext. }
  by apply bind_ext.
Qed.

Lemma for_each_app {X} (xs ys : list X) (body : X → M unit) w :
  for_each (xs ++ ys) body w = bind (for_each xs body) (λ _, for_each ys body) w.
Proof.
  revert w. induction xs as [|x xs IH]; intros w; [done|].
  cbn [app for_each]. rewrite bind_assoc. by apply bind_ext.
Qed.

Lemma for_each_nested {X Y} (xs : list X) (ys : list Y) (body : X → Y → M unit) w :
  for_each xs (λ x, for_each ys (λ y, body x y)) w =
  for_each (nested xs ys) (λ xy, body xy.1 xy.2) w.
Proof.
  revert w. induction xs as [|x xs IH]; intros w; [done|].
  cbn [for_each]. unfold nested. cbn [mbind list_bind]. fold (nested xs ys).
  rewrite for_each_app.
  assert (E : ∀ w, for_each ys (λ y, body x y) w =
                   for_each ((λ y, (x, y)) <$> ys) (λ xy, body xy.1 xy.2) w).
  { clear. induction ys as [|y ys IHy]; intros w; [done|].
    cbn [fmap list_fmap for_each]. by apply bind_ext. }
  by apply bind_ext.
Qed.

(** *** [bump-all] *)

Lemma with_changelog_same e : with_changelog (changelog_md e) e = e.
Proof. by destruct e. Qed.

Lemma with_changelog_twice c c' e :
  with_changelog c (with_changelog c' e) = with_changelog c e.
Proof. reflexivity. Qed.

Lemma bump_all_step_run f p d w n bn d' :
  subscript3 d f p "build_number" = Ok (JInt n) →
  subscript2 d f "build_name" = Ok bn →
  store3 d f p "build_number" (JInt (n + 1)) = Ok d' →
  bump_all_step f p d w =
    (Ok d',
     World (with_changelog
              (Some (default "" (changelog_md (host w)) +:+
                     changelog_entry (today (host w)) f p bn (JInt (n + 1))))
              (host w))
           (trace w ++
            [EOpen CHANGELOG_FILE_PATH Ap;
             EPrint ("✅ Bumped " +:+ f +:+ " (" +:+ p +:+ ") to " +:+
                     py_str bn +:+ "+" +:+ py_str (JInt (n + 1)))])).
Proof.
  intros Hn Hbn Hst.
  destruct (subscript3_subscript2 _ _ _ _ _ Hn) as (cur & Hcur & Hold).
  unfold bump_all_step. rewrite Hcur. mstep. rewrite Hbn. mstep.
  rewrite Hold. mstep. cbn [py_add_one]. mstep. rewrite Hst. mstep.
  unfold append_changelog. mrun.
  unfold ret, log, set_host. cbn [host trace].
  by rewrite <- !app_assoc.
Qed.

Lemma bump_loop l : ∀ d w,
  NoDup l → Forall (entry_ok d) l →
  ∃ d' c evs,
    for_fold l (λ fp s, bump_all_step fp.1 fp.2 s) d w =
      (Ok d', World (with_changelog c (host w)) (trace w ++ evs)) ∧
    (∀ f p n, (f, p) ∈ l →
       subscript3 d f p "build_number" = Ok (JInt n) →
       subscript3 d' f p "build_number" = Ok (JInt (n + 1))) ∧
    (∀ f p, (f, p) ∉ l →
       subscript3 d' f p "build_number" = subscript3 d f p "build_number") ∧
    (∀ f, subscript2 d' f "build_name" = subscript2 d f "build_name") ∧
    Forall (λ e, e ≠ EOpen VERSION_FILE_PATH Wr) evs ∧
    packaging_runs evs = [].
Proof.
  induction l as [|[f p] l IH]; intros d w Hnd Hok.
  - exists d, (changelog_md (host w)), []. cbn [for_fold]. unfold ret.
    rewrite with_changelog_same, app_nil_r. destruct w.
    split; [done|]. split; [by intros ??? ?%elem_of_nil|]. by repeat split.
  - apply NoDup_cons in Hnd as [Hfresh Hnd].
    apply Forall_cons in Hok as [(Hp & n & bn & Hn & Hbn) Hok].
    cbn [fst snd] in *.
    destruct (store3_defined _ _ _ _ _ (JInt (n + 1)) Hn) as [d1 Hst].
    assert (Hok1 : Forall (entry_ok d1) l).
    { apply Forall_forall. intros [f' p'] Hin.
      rewrite Forall_forall in Hok. destruct (Hok _ Hin) as (Hp' & n' & bn' & Hn' & Hbn').
      cbn [fst snd] in *. split; [done|]. exists n', bn'. split.
      - rewrite <- Hn'. eapply store3_other_pair; [exact Hst|].
        intros [= -> ->]. done.
      - rewrite <- Hbn'. by eapply store3_build_name. }
    cbn [for_fold fst snd].
    rewrite (bind_Ok _ _ _ _ _ (bump_all_step_run _ _ _ _ _ _ _ Hn Hbn Hst)).
    edestruct (IH d1) as (d' & c & evs & Hrun & Hin & Hout & Hname & Hquiet & Hnone);
      [exact Hnd|exact Hok1|].
    rewrite Hrun. cbn [host trace]. rewrite with_changelog_twice.
    exists d', c. eexists. split; [by rewrite <- app_assoc|].
    split; [|split; [|split; [|split]]].
    + intros f' p' n' [[= -> ->]|Hin']%elem_of_cons Hn'.
      * rewrite Hout by done. rewrite Hn in Hn'. injection Hn' as <-.
        by eapply store3_read.
      * apply Hin; [done|]. rewrite <- Hn'.
        eapply store3_other_pair; [exact Hst|]. intros [= -> ->]. done.
    + intros f' p' [Hne Hnin]%not_elem_of_cons.
      rewrite Hout by done. by eapply store3_other_pair.
    + intros f'. rewrite Hname. by eapply store3_build_name.
    + repeat constructor; [discriminate| |done]. discriminate.
    + unfold packaging_runs in *. rewrite omap_app, Hnone. reflexivity.
Qed.

Lemma elem_of_nested {X Y} (xs : list X) (ys : list Y) x y :
  (x, y) ∈ nested xs ys ↔ x ∈ xs ∧ y ∈ ys.
Proof.
  unfold nested. rewrite list_elem_of_bind. split.
  - intros (x' & Hin & Hx). apply list_elem_of_fmap in Hin as (y' & [= -> ->] & Hy).
    done.
  - intros [Hx Hy]. exists x. split; [|done].
    apply list_elem_of_fmap. by exists y.
Qed.

Lemma supported_pairs_NoDup : NoDup (nested SUPPORTED_FLAVORS SUPPORTED_PLATFORMS).
Proof. by apply (bool_decide_unpack _). Qed.

Lemma complete_doc_entries d :
  complete_doc d →
  Forall (entry_ok d) (nested SUPPORTED_FLAVORS SUPPORTED_PLATFORMS).
Proof.
  intros Hd. apply Forall_forall. intros [f p] [Hf Hp]%elem_of_nested.
  split; [by apply supported_platform_not_build_name|]. by apply Hd.
Qed.

Lemma handle_bump_all_run w d :
  version_json (host w) = JsonDoc d → complete_doc d →
  ∃ d' c evs,
    handle_bump_all w =
      (Ok tt,
       World (with_version (JsonDoc d') (with_changelog c (host w)))
             (trace w ++ [EOpen VERSION_FILE_PATH Rd] ++ evs ++
              [EOpen VERSION_FILE_PATH Wr;
               EPrint "📦 All versions bumped and saved to version.json"])) ∧
    (∀ f p n, f ∈ SUPPORTED_FLAVORS → p ∈ SUPPORTED_PLATFORMS →
       subscript3 d f p "build_number" = Ok (JInt n) →
       subscript3 d' f p "build_number" = Ok (JInt (n + 1))) ∧
    (∀ f, subscript2 d' f "build_name" = subscript2 d f "build_name") ∧
    Forall (λ e, e ≠ EOpen VERSION_FILE_PATH Wr) evs ∧
    packaging_runs evs = [].
Proof.
  intros Hv Hd.
  destruct (bump_loop _ d (log (EOpen VERSION_FILE_PATH Rd) w)
              supported_pairs_NoDup (complete_doc_entries _ Hd))
    as (d' & c & evs & Hrun & Hin & _ & Hname & Hquiet).
  exists d', c, evs. split; [|split; [|done]].
  - unfold handle_bump_all.
    rewrite (bind_Ok _ _ _ _ _ (read_version_file_doc _ _ Hv)).
    erewrite bind_Ok; [|rewrite for_fold_nested; exact Hrun].
    unfold write_version_file. mrun.
    unfold print, log, set_host. cbn [host trace].
    by rewrite <- !app_assoc.
  - intros f p n Hf Hp. apply Hin. by apply elem_of_nested.
Qed.

(** C4: on a version document that has every supported flavor and
    platform, [bump-all] returns normally and the document it has written
    holds, for every supported pair, the build number of the input plus
    one; the file is opened for writing exactly once, after every other
    step and just before the closing message. *)
Theorem bump_all_increments_every_pair w d :
  version_json (host w) = JsonDoc d → complete_doc d →
  ∃ w' d' evs,
    handle_bump_all w = (Ok tt, w') ∧
    version_json (host w') = JsonDoc d' ∧
    (∀ f p n, f ∈ SUPPORTED_FLAVORS → p ∈ SUPPORTED_PLATFORMS →
       subscript3 d f p "build_number" = Ok (JInt n) →
       subscript3 d' f p "build_number" = Ok (JInt (n + 1))) ∧
    trace w' =
      (trace w ++ [EOpen VERSION_FILE_PATH Rd] ++ evs ++
       [EOpen VERSION_FILE_PATH Wr;
        EPrint "📦 All versions bumped and saved to version.json"])%list ∧
    Forall (λ e, e ≠ EOpen VERSION_FILE_PATH Wr) evs.
Proof.
  intros Hv Hd.
  destruct (handle_bump_all_run _ _ Hv Hd)
    as (d' & c & evs & Hrun & Hin & _ & Hquiet & _).
  eexists _, d', evs. split; [exact Hrun|]. by repeat split.
Qed.

(** *** External programs *)

Lemma cmd_strings_JStr (args : list string) : cmd_strings (JStr <$> args) = Some args.
Proof.
  induction args as [|a args IH]; [done|].
  cbn [fmap list_fmap cmd_strings]. fold (JStr <$> args). by rewrite IH.
Qed.

Lemma subprocess_run_returns cmd args sh given w :
  tools_return → cmd_strings cmd = Some args →
  ∃ r e',
    os_exec (Invocation args sh given) (host w) = Some (r, e') ∧
    subprocess_run cmd sh given w =
      (Ok r, World e' (trace w ++ [ERun (Invocation args sh given)])).
Proof.
  intros Hret Hcmd.
  destruct (Hret (Invocation args sh given) (host w)) as [[r e'] E].
  exists r, e'. split; [done|].
  unfold subprocess_run. rewrite Hcmd. cbv zeta. by rewrite E.
Qed.

Lemma packaging_runs_app evs1 evs2 :
  packaging_runs (evs1 ++ evs2) = (packaging_runs evs1 ++ packaging_runs evs2)%list.
Proof. apply omap_app. Qed.

Lemma packaging_runs_print s evs :
  packaging_runs (EPrint s :: evs) = packaging_runs evs.
Proof. reflexivity. Qed.

Lemma packaging_runs_open path m evs :
  packaging_runs (EOpen path m :: evs) = packaging_runs evs.
Proof. reflexivity. Qed.

Lemma load_credentials_run flavor w data entry :
  credentials_json (host w) = JsonDoc data →
  py_getitem data flavor = Ok entry →
  load_credentials flavor w =
    (Ok entry,
     World (host w)
           (trace w ++
            [EOpen CREDENTIALS_PATH Rd;
             EPrint ("🔑 Loaded credentials for " +:+ flavor +:+ " " +:+ py_str entry)])).
Proof.
  intros Hc Hentry. unfold load_credentials. mstep. rewrite Hc. mstep.
  assert (py_contains flavor data = Ok true) as ->.
  { unfold py_getitem in Hentry. destruct data as [| | | | |m]; try discriminate.
    destruct (m !! flavor) eqn:E; [|discriminate].
    unfold py_contains. rewrite E. by rewrite bool_decide_eq_true_2. }
  mstep. cbn [negb]. rewrite Hentry. mrun.
  unfold lift, log. cbn [host trace]. by rewrite <- !app_assoc.
Qed.

Lemma subscript2_inv a b c x :
  subscript2 a b c = Ok x → ∃ y, py_getitem a b = Ok y ∧ py_getitem y c = Ok x.
Proof.
  unfold subscript2, obind. destruct (py_getitem a b) as [y| |]; [|done..].
  intros H. by exists y.
Qed.

Lemma upload_to_google_play_returns flavor w :
  tools_return → creds_ready (credentials_json (host w)) flavor →
  ∃ w', upload_to_google_play flavor w = (Ok tt, w') ∧ upload_effect w w'.
Proof.
  intros Hret (data & gp & ask & Hc & Hgp & _).
  apply subscript2_inv in Hgp as (entry & Hentry & Hgp).
  unfold upload_to_google_play. cbv zeta. mstep.
  destruct (bool_decide (get_aab_path flavor ∈ artifacts (host w))); cbn [negb].
  - rewrite (bind_Ok _ _ _ _ _ (load_credentials_run _ _ _ _ Hc Hentry)).
    rewrite Hgp. mstep.
    edestruct (subprocess_run_returns
                 (google_play_cmd flavor (get_aab_path flavor) (JStr gp))) as (r & e' & Hos & Hrun);
      [exact Hret|reflexivity|].
    rewrite (bind_Ok _ _ _ _ _ Hrun). mrun.
    eexists. split; [reflexivity|]. split; [|right; cbn [host] in Hos; eauto].
    eexists. split; [|split].
    + unfold print, log. cbn [trace]. rewrite <- !app_assoc. reflexivity.
    + reflexivity.
    + repeat constructor; discriminate.
  - eexists. split; [reflexivity|]. split; [|by left]. eexists.
    split; [unfold log; cbn [trace]; reflexivity|].
    split; [done|]. repeat constructor; discriminate.
Qed.

Lemma upload_to_app_store_returns flavor w :
  tools_return → creds_ready (credentials_json (host w)) flavor →
  ∃ w', upload_to_app_store flavor w = (Ok tt, w') ∧ upload_effect w w'.
Proof.
  intros Hret (data & gp & ask & Hc & _ & Hask).
  apply subscript2_inv in Hask as (entry & Hentry & Hask).
  unfold upload_to_app_store. cbv zeta. mstep.
  destruct (bool_decide (get_ipa_path flavor ∈ artifacts (host w))); cbn [negb].
  - rewrite (bind_Ok _ _ _ _ _ (load_credentials_run _ _ _ _ Hc Hentry)).
    rewrite Hask. mstep.
    edestruct (subprocess_run_returns
                 (app_store_cmd (get_ipa_path flavor) (JStr ask))) as (r & e' & Hos & Hrun);
      [exact Hret|reflexivity|].
    rewrite (bind_Ok _ _ _ _ _ Hrun). mrun.
    eexists. split; [reflexivity|]. split; [|right; cbn [host] in Hos; eauto].
    eexists. split; [|split].
    + unfold print, log. cbn [trace]. rewrite <- !app_assoc. reflexivity.
    + reflexivity.
    + repeat constructor; discriminate.
  - eexists. split; [reflexivity|]. split; [|by left]. eexists.
    split; [unfold log; cbn [trace]; reflexivity|].
    split; [done|]. repeat constructor; discriminate.
Qed.

Lemma upload_returns flavor platform w :
  tools_return → creds_ready (credentials_json (host w)) flavor →
  ∃ w', upload flavor platform w = (Ok tt, w') ∧ upload_effect w w'.
Proof.
  intros Hret Hc. unfold upload.
  destruct (String.eqb platform "android"); [by apply upload_to_google_play_returns|].
  destruct (String.eqb platform "ios"); [by apply upload_to_app_store_returns|].
  exists w. split; [done|]. split; [|by left].
  exists []. by rewrite app_nil_r.
Qed.

(** *** Traces *)

Lemma extends_refl w : extends w w [].
Proof. exists []. by rewrite app_nil_r. Qed.

Lemma extends_trans w1 w2 w3 r12 r23 :
  extends w1 w2 r12 → extends w2 w3 r23 → extends w1 w3 (r12 ++ r23).
Proof.
  intros (evs & Ht & Hr & Hq) (evs' & Ht' & Hr' & Hq').
  exists (evs ++ evs')%list. rewrite Ht', Ht, <- app_assoc. split; [done|].
  rewrite packaging_runs_app, Hr, Hr'. split; [done|]. by apply Forall_app.
Qed.

Lemma extends_events e e' t evs :
  Forall (λ e, e ≠ EOpen VERSION_FILE_PATH Wr) evs →
  extends (World e t) (World e' (t ++ evs)) (packaging_runs evs).
Proof. intros Hq. by exists evs. Qed.

Lemma keep_credentials_steps e e' :
  tools_keep_credentials → rtc tool_step e e' →
  credentials_json e' = credentials_json e.
Proof.
  intros Hkeep Hsteps. induction Hsteps as [|e1 e2 e3 (i & r & Hos) _ IH]; [done|].
  rewrite IH. by eapply Hkeep.
Qed.

Lemma keep_pubspec_steps e e' :
  tools_keep_pubspec → rtc tool_step e e' →
  is_Some (pubspec_yaml e) → is_Some (pubspec_yaml e').
Proof.
  intros Hkeep Hsteps. induction Hsteps as [|e1 e2 e3 (i & r & Hos) _ IH]; [done|].
  intros H. apply IH. by eapply Hkeep.
Qed.

(** *** The stages of a release *)

Lemma patch_configs_returns {Y} bn num (k : unit → M Y) w :
  is_Some (pubspec_yaml (host w)) →
  ∃ w1,
    bind (update_pubspec_yaml bn num) (λ _, bind (update_codemagic_yaml bn num) k) w
      = k tt w1 ∧
    extends w w1 [] ∧
    version_json (host w1) = version_json (host w) ∧
    credentials_json (host w1) = credentials_json (host w) ∧
    is_Some (pubspec_yaml (host w1)) ∧
    host w1 = patched_host bn num (host w).
Proof.
  intros [text Hpub]. destruct w as [e t]. cbn [host] in Hpub.
  rewrite (bind_Ok _ _ _ _ _ (update_pubspec_yaml_run bn num (World e t) text Hpub)).
  cbn [host trace].
  destruct (codemagic_yaml e) as [yaml|] eqn:Hcm.
  - erewrite bind_Ok; [|by apply (update_codemagic_yaml_run _ _ _ yaml)].
    cbn [host trace]. eexists. split; [reflexivity|].
    split; [|split; [done|split; [done|split; [done|]]];
                unfold patched_host; by rewrite Hpub, Hcm].
    rewrite <- app_assoc. eexists.
    split; [reflexivity|]. split; [reflexivity|]. repeat constructor; discriminate.
  - erewrite bind_Ok; [|by apply update_codemagic_yaml_absent].
    eexists. split; [reflexivity|].
    split; [|split; [done|split; [done|split; [done|]]];
                unfold patched_host; rewrite Hpub, Hcm; cbn [fmap option_fmap option_map];
                destruct e; cbn in *; by subst].
    eexists. split; [reflexivity|]. split; [reflexivity|].
    repeat constructor; discriminate.
Qed.

Lemma package_and_upload_returns {Y} f p bn num sh given (k : unit → M Y) w :
  tools_return → tools_keep_credentials →
  creds_ready (credentials_json (host w)) f →
  ∃ w2,
    bind (subprocess_run (JStr <$> shorebird_cmd f p bn num) sh given) (λ result,
      bind (print (stdout result)) (λ _,
        bind (print (stderr result)) (λ _,
          bind (upload f p) k))) w = k tt w2 ∧
    extends w w2 [Invocation (shorebird_cmd f p bn num) sh given] ∧
    rtc tool_step (host w) (host w2).
Proof.
  intros Hret Hkeep Hc. destruct w as [e t]. cbn [host] in Hc.
  destruct (subprocess_run_returns _ _ sh given (World e t) Hret
              (cmd_strings_JStr (shorebird_cmd f p bn num)))
    as (r & e1 & Hos & Hrun).
  cbn [host trace] in Hos, Hrun.
  rewrite (bind_Ok _ _ _ _ _ Hrun). mrun.
  unfold log. cbn [host trace]. rewrite <- !app_assoc. cbn [app].
  set (w1 := World e1 _).
  destruct (upload_returns f p w1 Hret) as (w2 & Hup & Hext & Hhost).
  { cbn [host w1]. by rewrite (Hkeep _ _ _ _ Hos). }
  rewrite (bind_Ok _ _ _ _ _ Hup). exists w2. split; [done|]. split.
  - change [Invocation (shorebird_cmd f p bn num) sh given]
      with ([Invocation (shorebird_cmd f p bn num) sh given] ++ [])%list.
    eapply extends_trans; [|exact Hext].
    eexists. split; [reflexivity|]. split; [reflexivity|].
    repeat constructor; discriminate.
  - eapply rtc_l; [by exists (Invocation (shorebird_cmd f p bn num) sh given), r|].
    cbn [host w1] in Hhost. destruct Hhost as [->|Hstep]; [done|].
    by apply rtc_once.
Qed.

Lemma tools_keep_changelog_steps e e' :
  (∀ i e1 r e2, os_exec i e1 = Some (r, e2) → changelog_md e2 = changelog_md e1) →
  rtc tool_step e e' → changelog_md e' = changelog_md e.
Proof.
  intros Hkeep Hsteps. induction Hsteps as [|e1 e2 e3 (i & r & Hos) _ IH]; [done|].
  rewrite IH. by eapply Hkeep.
Qed.

Lemma handle_release_run f p w d n bn d' :
  tools_return → tools_keep_credentials → p ≠ "build_name" →
  version_json (host w) = JsonDoc d →
  subscript3 d f p "build_number" = Ok (JInt n) →
  subscript2 d f "build_name" = Ok bn →
  is_Some (pubspec_yaml (host w)) →
  creds_ready (credentials_json (host w)) f →
  store3 d f p "build_number" (JInt (n + 1)) = Ok d' →
  ∃ w0,
    handle_release [f; p] w =
      (Ok tt,
       World
         (with_changelog
            (Some (default "" (changelog_md (host w0)) +:+
                   changelog_entry (today (host w0)) f p bn (JInt (n + 1))))
            (with_version (JsonDoc d') (host w0)))
         (trace w0 ++
          [EOpen VERSION_FILE_PATH Wr; EOpen CHANGELOG_FILE_PATH Ap;
           EPrint ("✅ Released and bumped to " +:+ py_str bn +:+ "+" +:+
                   py_str (JInt (n + 1)))])) ∧
    extends w w0 [Invocation (shorebird_cmd f p bn (JInt n)) false false] ∧
    rtc tool_step (patched_host bn (JInt n) (host w)) (host w0).
Proof.
  intros Hret Hkeep Hp Hv Hn Hbn Hpub Hc Hst.
  destruct (subscript3_subscript2 _ _ _ _ _ Hn) as (cur & Hcur & Hold).
  unfold handle_release. cbn [length Nat.ltb Nat.leb unpack2]. mstep.
  rewrite (bind_Ok _ _ _ _ _ (read_version_file_doc _ _ Hv)).
  rewrite Hcur. mstep. rewrite Hbn. mstep. rewrite Hold. mstep.
  cbn [py_add_one]. mstep.
  match goal with
  | |- context [bind (update_pubspec_yaml _ _) (λ _, bind _ ?k) ?w0] =>
      destruct (patch_configs_returns bn (JInt n) k w0 Hpub)
        as (w1 & E1 & Hext1 & _ & Hc1 & _ & Hhost1)
  end.
  rewrite E1. clear E1.
  match goal with
  | |- context [bind (subprocess_run _ _ _)
                  (λ r, bind _ (λ _, bind _ (λ _, bind _ ?k))) _] =>
      destruct (package_and_upload_returns f p bn (JInt n) false false k w1 Hret Hkeep)
        as (w2 & E2 & Hext2 & Hsteps); [by rewrite Hc1|]
  end.
  rewrite E2. clear E2. rewrite Hst. mstep. cbv zeta.
  rewrite (after_store_build_name _ _ _ _ _ _ _ Hst Hp Hbn).
  unfold write_version_file, append_changelog. mrun.
  exists w2. split; [|split].
  - unfold print, log, set_host. cbn [host trace]. by rewrite <- !app_assoc.
  - change [Invocation (shorebird_cmd f p bn (JInt n)) false false]
      with ([] ++ [] ++ [Invocation (shorebird_cmd f p bn (JInt n)) false false])%list.
    eapply extends_trans; [|eapply extends_trans; [exact Hext1|exact Hext2]].
    destruct w as [e t]. apply (extends_events e e t [EOpen VERSION_FILE_PATH Rd]).
    repeat constructor; discriminate.
  - by rewrite Hhost1 in Hsteps.
Qed.

(** C1: [release] calls the packaging tool exactly once, without a
    shell, and the command carries the build number that is in the version
    document when the command begins: its last item is [--build-number=]
    followed by that number.  Only afterwards it writes the version
    document, now holding that number plus one, and then appends to the
    changelog, as the external programs left it, the line that carries the
    new number; when those programs do not touch the changelog, that is the
    changelog of the start followed by the line.  The external programs are
    assumed to run to an exit code and the credentials of the flavor to be
    in place.  [release] accepts any platform that has an entry; the one
    excluded here, [build_name], is not a platform of the script. *)
Theorem release_ships_current_number f p w d n bn :
  tools_return → tools_keep_credentials →
  p ≠ "build_name" →
  version_json (host w) = JsonDoc d →
  subscript3 d f p "build_number" = Ok (JInt n) →
  subscript2 d f "build_name" = Ok bn →
  is_Some (pubspec_yaml (host w)) →
  creds_ready (credentials_json (host w)) f →
  ∃ w' d' evs e,
    handle_release [f; p] w = (Ok tt, w') ∧
    trace w' =
      (trace w ++ evs ++
       [EOpen VERSION_FILE_PATH Wr; EOpen CHANGELOG_FILE_PATH Ap;
        EPrint ("✅ Released and bumped to " +:+ py_str bn +:+ "+" +:+
                pretty (n + 1)%Z)])%list ∧
    packaging_runs evs =
      [Invocation
         ["shorebird"; "release"; p; "--flutter-version=3.29.1";
          "--flavor"; f; "-t"; "lib/main_" +:+ f +:+ ".dart";
          "--build-name=" +:+ py_str bn; "--build-number=" +:+ pretty n]
         false false] ∧
    Forall (λ e, e ≠ EOpen VERSION_FILE_PATH Wr) evs ∧
    rtc tool_step (patched_host bn (JInt n) (host w)) e ∧
    host w' =
      with_changelog
        (Some (default "" (changelog_md e) +:+
               ("- [" +:+ today e +:+ "] " +:+ f +:+ " (" +:+ p +:+ "): " +:+
                py_str bn +:+ "+" +:+ pretty (n + 1)%Z +:+ nl)))
        (with_version (JsonDoc d') e) ∧
    subscript3 d' f p "build_number" = Ok (JInt (n + 1)) ∧
    ((∀ i e1 r e2, os_exec i e1 = Some (r, e2) → changelog_md e2 = changelog_md e1) →
     changelog_md (host w') =
       Some (default "" (changelog_md (host w)) +:+
             ("- [" +:+ today e +:+ "] " +:+ f +:+ " (" +:+ p +:+ "): " +:+
              py_str bn +:+ "+" +:+ pretty (n + 1)%Z +:+ nl))).
Proof.
  intros Hret Hkeep Hp Hv Hn Hbn Hpub Hc.
  destruct (store3_defined _ _ _ _ _ (JInt (n + 1)) Hn) as [d' Hst].
  destruct (handle_release_run _ _ _ _ _ _ _ Hret Hkeep Hp Hv Hn Hbn Hpub Hc Hst)
    as (w0 & Hrun & (evs & Ht & Hruns & Hquiet) & Hsteps).
  eexists _, d', evs, (host w0). split; [exact Hrun|]. cbn [host trace].
  split; [by rewrite Ht, <- app_assoc|].
  split; [exact Hruns|]. split; [done|]. split; [done|]. split; [reflexivity|].
  split; [by eapply store3_read|].
  intros Hlog. cbn [changelog_md with_changelog].
  rewrite (tools_keep_changelog_steps _ _ Hlog Hsteps). reflexivity.
Qed.

Lemma supported_not_help f p :
  f ∈ SUPPORTED_FLAVORS → p ∈ SUPPORTED_PLATFORMS → ∀ command,
  command ≠ "--help" → bool_decide ("--help" ∈ [command; f; p]) = false.
Proof.
  intros Hf Hp command Hcmd. apply bool_decide_eq_false_2.
  rewrite !elem_of_cons, elem_of_nil. intros [?|[<-|[<-|[]]]]; [done|..].
  - unfold SUPPORTED_FLAVORS in Hf.
    repeat (apply elem_of_cons in Hf as [Hf|Hf]; [discriminate|]).
    by apply elem_of_nil in Hf.
  - unfold SUPPORTED_PLATFORMS in Hp.
    repeat (apply elem_of_cons in Hp as [Hp|Hp]; [discriminate|]).
    by apply elem_of_nil in Hp.
Qed.

Lemma main_release f p w :
  f ∈ SUPPORTED_FLAVORS → p ∈ SUPPORTED_PLATFORMS →
  main ["release"; f; p] w = handle_release [f; p] w.
Proof.
  intros Hf Hp. unfold main. by rewrite supported_not_help.
Qed.

(** *** [release-all] *)

Lemma release_all_step_run data p f w bn num :
  tools_return → tools_keep_credentials → tools_keep_pubspec →
  subscript3 data f p "build_number" = Ok num →
  subscript2 data f "build_name" = Ok bn →
  is_Some (pubspec_yaml (host w)) →
  creds_ready (credentials_json (host w)) f →
  ∃ w',
    release_all_step data p f w = (Ok tt, w') ∧
    extends w w' [Invocation (shorebird_cmd f p bn num) true true] ∧
    credentials_json (host w') = credentials_json (host w) ∧
    is_Some (pubspec_yaml (host w')).
Proof.
  intros Hret Hkc Hkp Hn Hbn Hpub Hc.
  destruct (subscript3_subscript2 _ _ _ _ _ Hn) as (cur & Hcur & Hold).
  unfold release_all_step. rewrite Hcur. mstep. rewrite Hbn. mstep.
  rewrite Hold. mstep.
  match goal with
  | |- context [bind (update_pubspec_yaml _ _) (λ _, bind _ ?k) ?w0] =>
      destruct (patch_configs_returns bn num k w0 Hpub)
        as (w1 & E1 & Hext1 & _ & Hc1 & Hpub1 & _)
  end.
  rewrite E1. clear E1. mstep.
  match goal with
  | |- context [bind (subprocess_run _ _ _)
                  (λ r, bind _ (λ _, bind _ (λ _, bind _ ?k))) ?w0] =>
      destruct (package_and_upload_returns f p bn num true true k w0 Hret Hkc)
        as (w2 & E2 & Hext2 & Hsteps); [cbn [host log]; by rewrite Hc1|]
  end.
  rewrite E2. clear E2. unfold append_changelog. mrun.
  cbn [host log] in Hsteps.
  eexists. split; [reflexivity|]. split; [|split].
  - change [Invocation (shorebird_cmd f p bn num) true true]
      with ([] ++ ([] ++ [Invocation (shorebird_cmd f p bn num) true true]) ++ [])%list.
    eapply extends_trans; [exact Hext1|].
    eapply extends_trans; [eapply extends_trans; [|exact Hext2]|].
    + destruct w1 as [e1 t1]. apply (extends_events e1 e1 t1 [EPrint _]).
      repeat constructor; discriminate.
    + destruct w2 as [e2 t2]. unfold print, log, set_host. cbn [host trace].
      rewrite <- app_assoc.
      apply (extends_events e2 _ t2 [EOpen CHANGELOG_FILE_PATH Ap; EPrint _]).
      repeat constructor; discriminate.
  - unfold print, log, set_host. cbn [host credentials_json with_changelog].
    by rewrite (keep_credentials_steps _ _ Hkc Hsteps).
  - unfold print, log, set_host. cbn [host pubspec_yaml with_changelog].
    by apply (keep_pubspec_steps _ _ Hkp Hsteps).
Qed.

Lemma release_loop data c l : ∀ w,
  tools_return → tools_keep_credentials → tools_keep_pubspec →
  Forall (λ pf, creds_ready c pf.2 ∧ ∃ args, ships data pf args) l →
  credentials_json (host w) = c →
  is_Some (pubspec_yaml (host w)) →
  ∃ w' runs,
    for_each l (λ pf, release_all_step data pf.1 pf.2) w = (Ok tt, w') ∧
    extends w w' runs ∧
    Forall2 (ships data) l runs ∧
    credentials_json (host w') = c ∧
    is_Some (pubspec_yaml (host w')).
Proof.
  induction l as [|[p f] l IH]; intros w Hret Hkc Hkp Hl Hc Hpub.
  - exists w, []. split; [done|]. split; [apply extends_refl|]. by repeat split.
  - apply Forall_cons in Hl as [[Hcf (args & bn & num & Hn & Hbn & _)] Hl].
    cbn [fst snd] in *.
    destruct (release_all_step_run data p f w bn num Hret Hkc Hkp Hn Hbn Hpub)
      as (w1 & Hstep & Hext1 & Hc1 & Hpub1); [by rewrite Hc|].
    destruct (IH w1 Hret Hkc Hkp Hl) as (w' & runs & Hrest & Hext & Hships & Hc' & Hpub');
      [by rewrite Hc1|done|].
    exists w', (Invocation (shorebird_cmd f p bn num) true true :: runs).
    split; [|split; [|split; [|done]]].
    + cbn [for_each fst snd]. by rewrite (bind_Ok _ _ _ _ _ Hstep).
    + by apply (extends_trans _ _ _ [_] runs Hext1).
    + constructor; [|done]. by exists bn, num.
Qed.

Lemma Forall2_impl_elem {X Y} (P Q : X → Y → Prop) (l : list X) (k : list Y) :
  Forall2 P l k → (∀ x y, x ∈ l → P x y → Q x y) → Forall2 Q l k.
Proof.
  induction 1 as [|x y l k HP _ IH]; intros HQ; constructor.
  - apply HQ; [apply list_elem_of_here|done].
  - apply IH. intros x' y' Hin. apply HQ. by apply list_elem_of_further.
Qed.

Lemma handle_release_all_run w d :
  tools_return → tools_keep_credentials → tools_keep_pubspec →
  version_json (host w) = JsonDoc d → complete_doc d →
  is_Some (pubspec_yaml (host w)) →
  (∀ f, f ∈ SUPPORTED_FLAVORS → creds_ready (credentials_json (host w)) f) →
  ∃ w' wb d' evs_b evs,
    handle_release_all w = (Ok tt, w') ∧
    handle_bump_all (log (EPrint "📦 Bumping all...") w) = (Ok tt, wb) ∧
    version_json (host wb) = JsonDoc d' ∧
    (∀ f p n, f ∈ SUPPORTED_FLAVORS → p ∈ SUPPORTED_PLATFORMS →
       subscript3 d f p "build_number" = Ok (JInt n) →
       subscript3 d' f p "build_number" = Ok (JInt (n + 1))) ∧
    (∀ f, subscript2 d' f "build_name" = subscript2 d f "build_name") ∧
    trace wb = (trace w ++ evs_b)%list ∧
    packaging_runs evs_b = [] ∧
    trace w' = (trace wb ++ evs)%list ∧
    Forall2 (ships d') (nested SUPPORTED_PLATFORMS SUPPORTED_FLAVORS)
            (packaging_runs evs) ∧
    version_json (host w') = JsonDoc d'.
Proof.
  intros Hret Hkc Hkp Hv Hd Hpub Hc.
  destruct (handle_bump_all_run (log (EPrint "📦 Bumping all...") w) d Hv Hd)
    as (d' & c & evs0 & Hbump & Hin & Hname & _ & Hnone).
  cbn [host trace log] in Hbump.
  set (wb := World (with_version (JsonDoc d') (with_changelog c (host w))) _) in Hbump.
  assert (Hl : Forall (λ pf, creds_ready (credentials_json (host w)) pf.2 ∧
                             ∃ args, ships d' pf args)
                      (nested SUPPORTED_PLATFORMS SUPPORTED_FLAVORS)).
  { apply Forall_forall. intros [p f] [Hp Hf]%elem_of_nested. cbn [fst snd].
    split; [by apply Hc|]. destruct (Hd f p Hf Hp) as (n & bn & Hn & Hbn).
    eexists. exists bn, (JInt (n + 1)). cbn [fst snd].
    split; [by apply Hin|]. split; [by rewrite Hname|reflexivity]. }
  destruct (release_loop d' (credentials_json (host w)) _
              (log (EOpen VERSION_FILE_PATH Rd) wb) Hret Hkc Hkp Hl)
    as (w1 & runs & Hloop & (evs1 & Ht1 & Hruns1 & _) & Hships & _ & _);
    [reflexivity|exact Hpub|].
  exists (World (with_version (JsonDoc d') (host w1))
                (trace w1 ++ [EOpen VERSION_FILE_PATH Wr; EPrint "✅ All releases done."])),
         wb, d',
         ([EPrint "📦 Bumping all..."; EOpen VERSION_FILE_PATH Rd] ++ evs0 ++
          [EOpen VERSION_FILE_PATH Wr;
           EPrint "📦 All versions bumped and saved to version.json"])%list,
         ([EOpen VERSION_FILE_PATH Rd] ++ evs1 ++
          [EOpen VERSION_FILE_PATH Wr; EPrint "✅ All releases done."])%list.
  split; [|split; [exact Hbump|split; [reflexivity|split; [exact Hin|split;
    [exact Hname|split; [|split; [|split; [|split]]]]]]]].
  - unfold handle_release_all. mstep.
    rewrite (bind_Ok _ _ _ _ _ Hbump).
    rewrite (bind_Ok _ _ _ _ _ (read_version_file_doc wb d' eq_refl)).
    erewrite bind_Ok; [|rewrite for_each_nested; exact Hloop].
    unfold write_version_file. mrun.
    unfold print, log, set_host. cbn [host trace]. by rewrite <- !app_assoc.
  - unfold wb. cbn [trace app]. rewrite <- !app_assoc. reflexivity.
  - cbn [app]. rewrite packaging_runs_print, packaging_runs_open.
    rewrite packaging_runs_app, Hnone. reflexivity.
  - cbn [trace]. rewrite Ht1. cbn [log trace]. by rewrite <- !app_assoc.
  - cbn [app]. rewrite packaging_runs_open, packaging_runs_app, Hruns1.
    cbn [app]. rewrite packaging_runs_open, packaging_runs_print.
    change (packaging_runs []) with (@nil invocation). by rewrite app_nil_r.
  - reflexivity.
Qed.

(** C2: what [release-all] does with the number.  It first runs
    [bump-all], which writes the version document with every supported
    build number raised by one; each release round then builds the
    packaging command with the raised number, one call per supported pair
    in platform-major order, and hands it to [subprocess.run] as a list
    together with [shell=True].  On a POSIX host the first item of such a
    list is the command text of the shell and the other items are
    parameters of the shell: the packaging tool is started as [shorebird]
    alone and receives neither the flavor nor a build number.  [release]
    for the same pair on the same starting host passes its list without a
    shell, and the tool receives [--build-number=] with the number as it is
    stored. *)
Theorem release_all_drops_build_number w d :
  tools_return → tools_keep_credentials → tools_keep_pubspec →
  version_json (host w) = JsonDoc d → complete_doc d →
  is_Some (pubspec_yaml (host w)) →
  (∀ f, f ∈ SUPPORTED_FLAVORS → creds_ready (credentials_json (host w)) f) →
  ∃ w' wb d' evs,
    handle_release_all w = (Ok tt, w') ∧
    handle_bump_all (log (EPrint "📦 Bumping all...") w) = (Ok tt, wb) ∧
    version_json (host wb) = JsonDoc d' ∧
    trace w' = (trace wb ++ evs)%list ∧
    Forall2
      (λ pf call, ∃ n bn,
         subscript3 d pf.2 pf.1 "build_number" = Ok (JInt n) ∧
         subscript3 d' pf.2 pf.1 "build_number" = Ok (JInt (n + 1)) ∧
         subscript2 d pf.2 "build_name" = Ok bn ∧
         call =
           Invocation
             ["shorebird"; "release"; pf.1; "--flutter-version=3.29.1";
              "--flavor"; pf.2; "-t"; "lib/main_" +:+ pf.2 +:+ ".dart";
              "--build-name=" +:+ py_str bn;
              "--build-number=" +:+ pretty (n + 1)%Z]
             true true ∧
         received_argv call = Some ["shorebird"])
      (nested SUPPORTED_PLATFORMS SUPPORTED_FLAVORS)
      (packaging_runs evs) ∧
    ∀ f p, f ∈ SUPPORTED_FLAVORS → p ∈ SUPPORTED_PLATFORMS →
      ∃ n bn w1 evs1 call,
        subscript3 d f p "build_number" = Ok (JInt n) ∧
        subscript2 d f "build_name" = Ok bn ∧
        handle_release [f; p] w = (Ok tt, w1) ∧
        trace w1 = (trace w ++ evs1)%list ∧
        packaging_runs evs1 = [call] ∧
        received_argv call =
          Some ["shorebird"; "release"; p; "--flutter-version=3.29.1";
                "--flavor"; f; "-t"; "lib/main_" +:+ f +:+ ".dart";
                "--build-name=" +:+ py_str bn; "--build-number=" +:+ pretty n].
Proof.
  intros Hret Hkc Hkp Hv Hd Hpub Hc.
  destruct (handle_release_all_run w d Hret Hkc Hkp Hv Hd Hpub Hc)
    as (w' & wb & d' & evs_b & evs & Hall & Hbump & Hvb & Hin & Hname & Htb & Hnone
        & Ht & Hships & _).
  exists w', wb, d', evs.
  split; [done|]. split; [done|]. split; [done|]. split; [done|]. split.
  - eapply Forall2_impl_elem; [exact Hships|].
    intros [p f] call [Hp Hf]%elem_of_nested (bn' & num & Hnum & Hbn' & ->).
    cbn [fst snd] in *. destruct (Hd f p Hf Hp) as (n & bn & Hn & Hbn).
    exists n, bn. pose proof (Hin f p n Hf Hp Hn) as Hn'.
    rewrite Hn' in Hnum. injection Hnum as <-.
    rewrite Hname, Hbn in Hbn'. injection Hbn' as <-. done.
  - intros f p Hf Hp. destruct (Hd f p Hf Hp) as (n & bn & Hn & Hbn).
    destruct (store3_defined _ _ _ _ _ (JInt (n + 1)) Hn) as [d1 Hst].
    destruct (handle_release_run f p w d n bn d1 Hret Hkc
                (supported_platform_not_build_name p Hp) Hv Hn Hbn Hpub (Hc f Hf) Hst)
      as (w0 & Hrun & (evs0 & Ht0 & Hruns0 & _) & _).
    eexists n, bn, _, _, _. split; [done|]. split; [done|]. split; [exact Hrun|].
    cbn [trace]. split; [by rewrite Ht0, <- app_assoc|].
    split; [by rewrite packaging_runs_app, Hruns0|]. reflexivity.
Qed.

(** ** Errors and edges of the commands *)

(** *** A missing version file *)

Lemma read_version_file_missing w :
  version_json (host w) = NoFile →
  read_version_file w = (Raise FileNotFoundError, w).
Proof. intros E. unfold read_version_file. mstep. by rewrite E. Qed.

(** X1: when [version.json] does not exist, every command that needs it
    raises [FileNotFoundError] before anything is opened, written or run:
    [bump] (for a supported pair), [bump-all] and [release] leave the world
    as it was, and [release-all] has only printed its first line. *)
Theorem version_file_missing f p w :
  version_json (host w) = NoFile →
  (f ∈ SUPPORTED_FLAVORS → p ∈ SUPPORTED_PLATFORMS →
   handle_bump [f; p] w = (Raise FileNotFoundError, w)) ∧
  handle_bump_all w = (Raise FileNotFoundError, w) ∧
  handle_release [f; p] w = (Raise FileNotFoundError, w) ∧
  handle_release_all w =
    (Raise FileNotFoundError, log (EPrint "📦 Bumping all...") w).
Proof.
  intros E. split; [|split; [|split]].
  - intros Hf Hp. unfold handle_bump. cbn [length Nat.ltb Nat.leb unpack2]. mstep.
    rewrite supported_pair_accepted by done.
    by rewrite (bind_Raise _ _ _ _ _ (read_version_file_missing _ E)).
  - unfold handle_bump_all.
    by rewrite (bind_Raise _ _ _ _ _ (read_version_file_missing _ E)).
  - unfold handle_release. cbn [length Nat.ltb Nat.leb unpack2]. mstep.
    by rewrite (bind_Raise _ _ _ _ _ (read_version_file_missing _ E)).
  - unfold handle_release_all. mstep.
    erewrite bind_Raise; [reflexivity|].
    unfold handle_bump_all.
    by rewrite (bind_Raise _ _ _ _ _
                  (read_version_file_missing (log (EPrint "📦 Bumping all...") w) E)).
Qed.

(** *** The number of arguments *)

(** X2: [bump] and [release] take exactly two words.  With fewer, the
    usage line is printed and the process leaves with status 1; with more,
    the unpacking [flavor, platform = args] raises [ValueError].  In both
    cases no file is opened and nothing is run. *)
Theorem wrong_argument_count args w :
  ((length args < 2)%nat →
   handle_bump args w = (Exit 1, log (EPrint "❌ Usage: bump <flavor> <platform>") w) ∧
   handle_release args w =
     (Exit 1, log (EPrint "❌ Usage: release <flavor> <platform>") w)) ∧
  ((2 < length args)%nat →
   handle_bump args w = (Raise ValueError, w) ∧
   handle_release args w = (Raise ValueError, w)).
Proof.
  destruct args as [|a [|b [|c args]]]; cbn [length]; split; intros Hlen;
    try lia; by split.
Qed.

(** *** A document without the entry *)

Lemma read_entry_Ok d f p bn num next :
  read_entry d f p = Ok (bn, num, next) →
  ∃ cur, subscript2 d f p = Ok cur ∧ subscript2 d f "build_name" = Ok bn ∧
         py_getitem cur "build_number" = Ok num ∧ py_add_one num = Ok next.
Proof.
  unfold read_entry, obind.
  destruct (subscript2 d f p) as [cur| |] eqn:E1; [|done..].
  destruct (subscript2 d f "build_name") as [bn'| |] eqn:E2; [|done..].
  destruct (py_getitem cur "build_number") as [num'| |] eqn:E3; [|done..].
  destruct (py_add_one num') as [next'| |] eqn:E4; [|done..].
  intros H. simplify_eq. by exists cur.
Qed.

Lemma lift_read_entry {Y} d f p (k : json → json → json → json → M Y) w :
  bind (lift (subscript2 d f p)) (λ current,
    bind (lift (subscript2 d f "build_name")) (λ build_name,
      bind (lift (py_getitem current "build_number")) (λ build_number,
        bind (lift (py_add_one build_number)) (λ next,
          k current build_name build_number next)))) w =
  match read_entry d f p with
  | Ok (bn, num, next) =>
      match subscript2 d f p with
      | Ok cur => k cur bn num next w
      | Exit c => (Exit c, w)
      | Raise e => (Raise e, w)
      end
  | Exit c => (Exit c, w)
  | Raise e => (Raise e, w)
  end.
Proof.
  unfold read_entry, bind, lift, obind.
  destruct (subscript2 d f p) as [cur| |]; [|done..].
  destruct (subscript2 d f "build_name") as [bn| |]; [|done..].
  destruct (py_getitem cur "build_number") as [num| |]; [|done..].
  by destruct (py_add_one num) as [next| |].
Qed.

(** X3: when one of the lookups in the version document fails (the flavor
    or the platform is not a key, the record has no build name or no build
    number, a value on the way is not a dictionary, or the build number is
    not a number), [release] raises that exception right after reading the
    document: no file has been patched or written and no program started.
    [release] does not check its arguments against the supported sets, so
    this is also what an unknown flavor gets.  [bump] for a supported pair
    behaves the same. *)
Theorem bad_document_entry f p w d e :
  version_json (host w) = JsonDoc d →
  read_entry d f p = Raise e →
  handle_release [f; p] w = (Raise e, log (EOpen VERSION_FILE_PATH Rd) w) ∧
  (f ∈ SUPPORTED_FLAVORS → p ∈ SUPPORTED_PLATFORMS →
   handle_bump [f; p] w = (Raise e, log (EOpen VERSION_FILE_PATH Rd) w)).
Proof.
  intros Hv He. split.
  - unfold handle_release. cbn [length Nat.ltb Nat.leb unpack2]. mstep.
    rewrite (bind_Ok _ _ _ _ _ (read_version_file_doc _ _ Hv)).
    rewrite (lift_read_entry d f p
               (λ current build_name build_number new_build_number, _)).
    by rewrite He.
  - intros Hf Hp. unfold handle_bump. cbn [length Nat.ltb Nat.leb unpack2]. mstep.
    rewrite supported_pair_accepted by done.
    rewrite (bind_Ok _ _ _ _ _ (read_version_file_doc _ _ Hv)).
    rewrite (lift_read_entry d f p (λ current build_name old build_number, _)).
    by rewrite He.
Qed.

Lemma read_entry_missing_flavor m f p :
  m !! f = None → read_entry (JObj m) f p = Raise KeyError.
Proof. intros E. unfold read_entry, subscript2, py_getitem, obind. by rewrite E. Qed.

(** *** Failures in the middle of a release *)

Lemma with_codemagic_same e : with_codemagic (codemagic_yaml e) e = e.
Proof. by destruct e. Qed.

Lemma patch_configs_run {Y} bn num (k : unit → M Y) w :
  is_Some (pubspec_yaml (host w)) →
  bind (update_pubspec_yaml bn num) (λ _, bind (update_codemagic_yaml bn num) k) w =
  k tt (World (patched_host bn num (host w)) (trace w ++ patch_events bn num (host w))).
Proof.
  intros [text Hpub]. destruct w as [e t]. cbn [host trace] in *.
  rewrite (bind_Ok _ _ _ _ _ (update_pubspec_yaml_run bn num (World e t) text Hpub)).
  cbn [host trace]. unfold patched_host, patch_events. rewrite Hpub. cbn [fmap option_fmap option_map].
  destruct (codemagic_yaml e) as [yaml|] eqn:Hcm.
  - erewrite bind_Ok; [|by apply (update_codemagic_yaml_run _ _ _ yaml)].
    cbn [host trace fmap option_fmap option_map]. by rewrite <- app_assoc.
  - erewrite bind_Ok; [|by apply update_codemagic_yaml_absent].
    cbn [fmap option_fmap option_map]. rewrite app_nil_r.
    f_equal. f_equal. destruct e. cbn in *. by rewrite Hcm.
Qed.

Lemma handle_release_prefix d f p w bn num next :
  version_json (host w) = JsonDoc d →
  read_entry d f p = Ok (bn, num, next) →
  is_Some (pubspec_yaml (host w)) →
  handle_release [f; p] w =
    bind (subprocess_run (JStr <$> shorebird_cmd f p bn num) false false) (λ result,
      bind (print (stdout result)) (λ _,
        bind (print (stderr result)) (λ _,
          bind (upload f p) (λ _,
            bind (lift (store3 d f p "build_number" next)) (λ data,
              bind (write_version_file data) (λ _,
                bind (append_changelog f p (after_store data f "build_name" bn) next)
                  (λ _,
                  print ("✅ Released and bumped to " +:+
                         py_str (after_store data f "build_name" bn) +:+ "+" +:+
                         py_str next))))))))
      (World (patched_host bn num (host w))
             (trace w ++ EOpen VERSION_FILE_PATH Rd :: patch_events bn num (host w))).
Proof.
  intros Hv He Hpub.
  destruct (read_entry_Ok _ _ _ _ _ _ He) as (cur & Hcur & _).
  unfold handle_release. cbn [length Nat.ltb Nat.leb unpack2]. mstep.
  rewrite (bind_Ok _ _ _ _ _ (read_version_file_doc _ _ Hv)).
  rewrite (lift_read_entry d f p
             (λ current build_name build_number new_build_number, _)).
  rewrite He, Hcur.
  rewrite patch_configs_run by exact Hpub.
  cbn [host trace log]. by rewrite <- app_assoc.
Qed.

(** X4: when the packaging tool cannot be started, [release] ends with
    the exception [subprocess.run] raises for it, which is the error of the
    operating system ([FileNotFoundError] when the tool is not installed).
    By then [pubspec.yaml] (and [codemagic.yaml], when it exists) has been
    patched with the stored number, but the version document and the
    changelog are as they were: the number is not bumped. *)
Theorem release_tool_cannot_start f p w d bn num next :
  version_json (host w) = JsonDoc d →
  read_entry d f p = Ok (bn, num, next) →
  is_Some (pubspec_yaml (host w)) →
  os_exec (Invocation (shorebird_cmd f p bn num) false false)
          (patched_host bn num (host w)) = None →
  ∃ w',
    handle_release [f; p] w =
      (Raise (start_error (Invocation (shorebird_cmd f p bn num) false false)
                          (patched_host bn num (host w))), w') ∧
    host w' = patched_host bn num (host w) ∧
    version_json (host w') = JsonDoc d ∧
    changelog_md (host w') = changelog_md (host w) ∧
    (∀ text, pubspec_yaml (host w) = Some text →
       pubspec_yaml (host w') =
         Some (written (pubspec_line bn num <$> readlines text))) ∧
    runs (trace w') = (runs (trace w) ++
                       [Invocation (shorebird_cmd f p bn num) false false])%list.
Proof.
  intros Hv He Hpub Hos.
  rewrite (handle_release_prefix _ _ _ _ _ _ _ Hv He Hpub).
  unfold bind at 1. unfold subprocess_run. rewrite cmd_strings_JStr. cbv zeta.
  cbn [host]. rewrite Hos. eexists. split; [reflexivity|].
  cbn [host log trace]. split; [done|]. split; [done|]. split; [done|].
  split.
  - intros text Htext. unfold patched_host. cbn. by rewrite Htext.
  - unfold runs, patch_events. rewrite !omap_app. cbn [omap list_omap run_of].
    destruct (codemagic_yaml (host w)); cbn; by rewrite ?app_nil_r.
Qed.

(** X5: without [pubspec.yaml], [release] raises [FileNotFoundError]
    after reading the version document: nothing is written and nothing is
    run. *)
Theorem release_missing_pubspec f p w d bn num next :
  version_json (host w) = JsonDoc d →
  read_entry d f p = Ok (bn, num, next) →
  pubspec_yaml (host w) = None →
  handle_release [f; p] w =
    (Raise FileNotFoundError, log (EOpen VERSION_FILE_PATH Rd) w).
Proof.
  intros Hv He Hpub.
  destruct (read_entry_Ok _ _ _ _ _ _ He) as (cur & Hcur & _).
  unfold handle_release. cbn [length Nat.ltb Nat.leb unpack2]. mstep.
  rewrite (bind_Ok _ _ _ _ _ (read_version_file_doc _ _ Hv)).
  rewrite (lift_read_entry d f p
             (λ current build_name build_number new_build_number, _)).
  rewrite He, Hcur.
  by rewrite (bind_Raise _ _ _ _ _
                (update_pubspec_yaml_missing bn num (log (EOpen VERSION_FILE_PATH Rd) w) Hpub)).
Qed.

(** *** A platform that [release] does not know *)

Lemma runs_app evs1 evs2 : runs (evs1 ++ evs2) = (runs evs1 ++ runs evs2)%list.
Proof. apply omap_app. Qed.

Lemma runs_patch_events bn num e : runs (patch_events bn num e) = [].
Proof. unfold patch_events. by destruct (codemagic_yaml e). Qed.

(** X6: [release] checks neither the flavor nor the platform.  For a
    platform other than [android] and [ios] that has an entry in the
    version document it patches the files, starts the packaging tool, skips
    the upload (the packaging tool is the only program started), and bumps
    the number all the same.  (The key [build_name] is set apart: used as a
    platform, its entry is the object the name [build_name] refers to, and
    the changelog line would show it after the assignment.) *)
Theorem release_unknown_platform f p w d n bn r e' :
  p ≠ "android" → p ≠ "ios" → p ≠ "build_name" →
  version_json (host w) = JsonDoc d →
  subscript3 d f p "build_number" = Ok (JInt n) →
  subscript2 d f "build_name" = Ok bn →
  is_Some (pubspec_yaml (host w)) →
  os_exec (Invocation (shorebird_cmd f p bn (JInt n)) false false)
          (patched_host bn (JInt n) (host w)) = Some (r, e') →
  ∃ w' d' evs,
    handle_release [f; p] w = (Ok tt, w') ∧
    version_json (host w') = JsonDoc d' ∧
    subscript3 d' f p "build_number" = Ok (JInt (n + 1)) ∧
    changelog_md (host w') =
      Some (default "" (changelog_md e') +:+
            changelog_entry (today e') f p bn (JInt (n + 1))) ∧
    trace w' = (trace w ++ evs)%list ∧
    runs evs = [Invocation (shorebird_cmd f p bn (JInt n)) false false].
Proof.
  intros Hand Hios Hname Hv Hn Hbn Hpub Hos.
  destruct (subscript3_subscript2 _ _ _ _ _ Hn) as (cur & Hcur & Hold).
  assert (He : read_entry d f p = Ok (bn, JInt n, JInt (n + 1))).
  { unfold read_entry, obind. by rewrite Hcur, Hbn, Hold. }
  destruct (store3_defined _ _ _ _ _ (JInt (n + 1)) Hn) as [d' Hst].
  rewrite (handle_release_prefix _ _ _ _ _ _ _ Hv He Hpub).
  unfold bind at 1. unfold subprocess_run. rewrite cmd_strings_JStr. cbv zeta.
  cbn [host]. rewrite Hos. mrun.
  unfold upload. apply String.eqb_neq in Hand, Hios. rewrite Hand, Hios. mstep.
  rewrite Hst. mstep. rewrite (after_store_build_name _ _ _ _ _ _ _ Hst Hname Hbn).
  unfold write_version_file, append_changelog. mrun.
  eexists _, d', _. split; [reflexivity|].
  unfold print, log, set_host. cbn [host trace].
  split; [reflexivity|]. split; [by eapply store3_read|]. split; [reflexivity|].
  split.
  - rewrite <- !app_assoc. reflexivity.
  - cbn [app]. unfold runs. cbn [omap list_omap run_of].
    rewrite !omap_app. fold (runs (patch_events bn (JInt n) (host w))).
    rewrite runs_patch_events. reflexivity.
Qed.

(** *** Uploads *)

Lemma load_credentials_missing_file flavor w :
  credentials_json (host w) = NoFile →
  load_credentials flavor w = (Raise FileNotFoundError, w).
Proof. intros E. unfold load_credentials. mstep. by rewrite E. Qed.

Lemma load_credentials_missing_flavor flavor w m :
  credentials_json (host w) = JsonDoc (JObj m) → m !! flavor = None →
  load_credentials flavor w = (Raise KeyError, log (EOpen CREDENTIALS_PATH Rd) w).
Proof.
  intros E Hm. unfold load_credentials. mstep. rewrite E. mstep.
  cbn [py_contains]. rewrite Hm.
  rewrite bool_decide_eq_false_2 by (by intros [? ?]). by mrun.
Qed.

(** X7: the Google Play upload, when the bundle exists and the
    credentials of the flavor hold a key path, starts exactly one program:
    [fastlane supply] with the bundle, the package name of the flavor, the
    production track and the key.  It returns normally whatever the exit
    code is; the code only chooses between the success and the failure
    line.  The host is left as the program left it. *)
Theorem upload_to_google_play_run flavor w data entry key r e' :
  get_aab_path flavor ∈ artifacts (host w) →
  credentials_json (host w) = JsonDoc data →
  py_getitem data flavor = Ok entry →
  py_getitem entry "google_play" = Ok (JStr key) →
  os_exec (Invocation
             ["fastlane"; "supply"; "--aab"; get_aab_path flavor;
              "--package_name"; get_package_name flavor;
              "--track"; "production"; "--json_key"; key;
              "--skip_upload_metadata"; "--skip_upload_images";
              "--skip_upload_screenshots"] false false) (host w) = Some (r, e') →
  upload_to_google_play flavor w =
    (Ok tt,
     World e'
       (trace w ++
        [EOpen CREDENTIALS_PATH Rd;
         EPrint ("🔑 Loaded credentials for " +:+ flavor +:+ " " +:+ py_str entry);
         ERun (Invocation
                 ["fastlane"; "supply"; "--aab"; get_aab_path flavor;
                  "--package_name"; get_package_name flavor;
                  "--track"; "production"; "--json_key"; key;
                  "--skip_upload_metadata"; "--skip_upload_images";
                  "--skip_upload_screenshots"] false false);
         EPrint (stdout r); EPrint (stderr r);
         EPrint (if (returncode r =? 0)%Z
                 then "✅ Uploaded to Google Play Store"
                 else "❌ Google Play upload failed")])).
Proof.
  intros Haab Hc Hentry Hkey Hos.
  unfold upload_to_google_play. cbv zeta. mstep.
  rewrite bool_decide_eq_true_2 by done. cbn [negb].
  rewrite (bind_Ok _ _ _ _ _ (load_credentials_run _ _ _ _ Hc Hentry)).
  rewrite Hkey. mstep.
  unfold bind at 1. unfold subprocess_run, google_play_cmd.
  cbn [cmd_strings option_map]. cbv zeta. cbn [host]. rewrite Hos. mrun.
  unfold print, log, set_host. cbn [host trace]. by rewrite <- !app_assoc.
Qed.

(** X8: the App Store upload, when the archive exists and the
    credentials of the flavor hold an API key path, starts exactly one
    program, [fastlane deliver] with the archive and the key, and returns
    normally whatever the exit code is. *)
Theorem upload_to_app_store_run flavor w data entry key r e' :
  get_ipa_path flavor ∈ artifacts (host w) →
  credentials_json (host w) = JsonDoc data →
  py_getitem data flavor = Ok entry →
  py_getitem entry "app_store_key_path" = Ok (JStr key) →
  os_exec (Invocation
             ["fastlane"; "deliver"; "--ipa"; get_ipa_path flavor;
              "--skip_metadata"; "--skip_screenshots"; "--submit_for_review";
              "--automatic_release"; "--api_key_path"; key] false false)
          (host w) = Some (r, e') →
  upload_to_app_store flavor w =
    (Ok tt,
     World e'
       (trace w ++
        [EOpen CREDENTIALS_PATH Rd;
         EPrint ("🔑 Loaded credentials for " +:+ flavor +:+ " " +:+ py_str entry);
         ERun (Invocation
                 ["fastlane"; "deliver"; "--ipa"; get_ipa_path flavor;
                  "--skip_metadata"; "--skip_screenshots"; "--submit_for_review";
                  "--automatic_release"; "--api_key_path"; key] false false);
         EPrint (stdout r); EPrint (stderr r);
         EPrint (if (returncode r =? 0)%Z
                 then "✅ Uploaded to App Store Connect"
                 else "❌ App Store upload failed")])).
Proof.
  intros Hipa Hc Hentry Hkey Hos.
  unfold upload_to_app_store. cbv zeta. mstep.
  rewrite bool_decide_eq_true_2 by done. cbn [negb].
  rewrite (bind_Ok _ _ _ _ _ (load_credentials_run _ _ _ _ Hc Hentry)).
  rewrite Hkey. mstep.
  unfold bind at 1. unfold subprocess_run, app_store_cmd.
  cbn [cmd_strings option_map]. cbv zeta. cbn [host]. rewrite Hos. mrun.
  unfold print, log, set_host. cbn [host trace]. by rewrite <- !app_assoc.
Qed.

(** X9: with the artifact in place but no usable credentials, both
    uploads raise and start no program: [FileNotFoundError] when the
    credentials file does not exist, [KeyError] when the file is a
    dictionary without the flavor.  In the second case the file has been
    opened; the host is unchanged in both. *)
Theorem upload_without_credentials flavor w :
  get_aab_path flavor ∈ artifacts (host w) →
  get_ipa_path flavor ∈ artifacts (host w) →
  (credentials_json (host w) = NoFile →
   upload_to_google_play flavor w = (Raise FileNotFoundError, w) ∧
   upload_to_app_store flavor w = (Raise FileNotFoundError, w)) ∧
  (∀ m, credentials_json (host w) = JsonDoc (JObj m) → m !! flavor = None →
   upload_to_google_play flavor w =
     (Raise KeyError, log (EOpen CREDENTIALS_PATH Rd) w) ∧
   upload_to_app_store flavor w =
     (Raise KeyError, log (EOpen CREDENTIALS_PATH Rd) w)).
Proof.
  intros Haab Hipa. split.
  - intros Hc. split.
    + unfold upload_to_google_play. cbv zeta. mstep.
      rewrite bool_decide_eq_true_2 by done. cbn [negb].
      by rewrite (bind_Raise _ _ _ _ _ (load_credentials_missing_file _ _ Hc)).
    + unfold upload_to_app_store. cbv zeta. mstep.
      rewrite bool_decide_eq_true_2 by done. cbn [negb].
      by rewrite (bind_Raise _ _ _ _ _ (load_credentials_missing_file _ _ Hc)).
  - intros m Hc Hm. split.
    + unfold upload_to_google_play. cbv zeta. mstep.
      rewrite bool_decide_eq_true_2 by done. cbn [negb].
      by rewrite (bind_Raise _ _ _ _ _ (load_credentials_missing_flavor _ _ _ Hc Hm)).
    + unfold upload_to_app_store. cbv zeta. mstep.
      rewrite bool_decide_eq_true_2 by done. cbn [negb].
      by rewrite (bind_Raise _ _ _ _ _ (load_credentials_missing_flavor _ _ _ Hc Hm)).
Qed.

(** X10: a credentials entry whose key path is missing or is not a
    string makes the upload raise after the credentials were loaded and
    printed: [KeyError] when the entry is a dictionary without the key,
    [TypeError] when the value is a number, since [subprocess.run] takes
    strings only.  No program is started. *)
Theorem upload_bad_key flavor w data entry :
  get_aab_path flavor ∈ artifacts (host w) →
  credentials_json (host w) = JsonDoc data →
  py_getitem data flavor = Ok entry →
  ∃ w',
    load_credentials flavor w = (Ok entry, w') ∧
    host w' = host w ∧ runs (trace w') = runs (trace w) ∧
    (∀ m, entry = JObj m → m !! "google_play" = None →
       upload_to_google_play flavor w = (Raise KeyError, w')) ∧
    (∀ n, py_getitem entry "google_play" = Ok (JInt n) →
       upload_to_google_play flavor w = (Raise TypeError, w')).
Proof.
  intros Haab Hc Hentry. eexists.
  split; [exact (load_credentials_run _ _ _ _ Hc Hentry)|]. cbn [host trace].
  split; [done|]. split; [by rewrite runs_app, app_nil_r|]. split.
  - intros m -> Hm. unfold upload_to_google_play. cbv zeta. mstep.
    rewrite bool_decide_eq_true_2 by done. cbn [negb].
    rewrite (bind_Ok _ _ _ _ _ (load_credentials_run _ _ _ _ Hc Hentry)).
    cbn [py_getitem]. rewrite Hm. by mstep.
  - intros n Hn. unfold upload_to_google_play. cbv zeta. mstep.
    rewrite bool_decide_eq_true_2 by done. cbn [negb].
    rewrite (bind_Ok _ _ _ _ _ (load_credentials_run _ _ _ _ Hc Hentry)).
    rewrite Hn. mstep. reflexivity.
Qed.

(** *** More on the config patchers *)

Lemma no_newline_app s t :
  no_newline (s +:+ t) = no_newline s && no_newline t.
Proof.
  induction s as [|c s IH]; [done|].
  rewrite sapp_cons. cbn [no_newline]. by rewrite IH, andb_assoc.
Qed.

Lemma readlines_from_plain cur s :
  no_newline s = true →
  readlines_from cur s = match cur +:+ s with "" => [] | _ => [cur +:+ s] end.
Proof.
  revert cur. induction s as [|c s IH]; intros cur Hs.
  - cbn [readlines_from]. rewrite sapp_nil_r. by destruct cur.
  - cbn [no_newline] in Hs. apply andb_prop in Hs as [Hc Hs].
    cbn [readlines_from]. apply negb_true_iff in Hc. rewrite Hc.
    rewrite IH by done. by rewrite sapp_assoc.
Qed.

Lemma readlines_from_line cur s rest :
  no_newline s = true →
  readlines_from cur ((s +:+ nl) +:+ rest) =
    (cur +:+ s +:+ nl) :: readlines_from "" rest.
Proof.
  revert cur. induction s as [|c s IH]; intros cur Hs.
  - reflexivity.
  - cbn [no_newline] in Hs. apply andb_prop in Hs as [Hc Hs].
    rewrite !sapp_cons. cbn [readlines_from]. apply negb_true_iff in Hc. rewrite Hc.
    rewrite IH by done. by rewrite sapp_assoc.
Qed.

Lemma readlines_from_ok cur s :
  no_newline cur = true → lines_ok (readlines_from cur s).
Proof.
  revert cur. induction s as [|c s IH]; intros cur Hcur; cbn [readlines_from].
  - destruct cur; [constructor|]. by constructor.
  - destruct (Ascii.eqb c (Ascii.ascii_of_nat 10)) eqn:Hc.
    + constructor; [done|]. by apply IH.
    + apply IH. rewrite no_newline_app, Hcur. cbn [no_newline]. by rewrite Hc.
Qed.

Lemma readlines_ok text : lines_ok (readlines text).
Proof. by apply readlines_from_ok. Qed.

Lemma cut_written ls : lines_ok ls → readlines_from "" (written ls) = ls.
Proof.
  induction 1 as [|s Hs Hne|s ls Hs _ IH]; [done|..].
  - cbn [written foldr]. rewrite sapp_nil_r.
    rewrite readlines_from_plain by done. by destruct s.
  - cbn [written foldr]. fold (written ls).
    rewrite readlines_from_line by done. by rewrite IH.
Qed.

(** Reading back what was written line by line gives the same lines, when
    no carriage return was written. *)
Lemma readlines_written ls :
  lines_ok ls → Forall (λ line, no_cr line = true) ls → readlines (written ls) = ls.
Proof.
  intros Hok Hcr. unfold readlines.
  rewrite universal_newlines_no_cr by by apply no_cr_written.
  by apply cut_written.
Qed.

Lemma pubspec_lines_no_cr bn num ls :
  no_cr (py_str bn) = true → no_cr (py_str num) = true →
  Forall (λ line, no_cr line = true) ls →
  Forall (λ line, no_cr line = true) (pubspec_line bn num <$> ls).
Proof.
  intros Hbn Hnum Hls. apply Forall_fmap. eapply Forall_impl; [exact Hls|].
  intros line Hline. cbn. unfold pubspec_line.
  destruct (startswith "version:" line); [|done].
  by rewrite !no_cr_app, Hbn, Hnum.
Qed.

Lemma version_line_shape bn num :
  no_newline (py_str bn) = true → no_newline (py_str num) = true →
  ∃ s, no_newline s = true ∧
       "version: " +:+ py_str bn +:+ "+" +:+ py_str num +:+ nl = s +:+ nl.
Proof.
  intros Hbn Hnum. exists ("version: " +:+ py_str bn +:+ "+" +:+ py_str num). split.
  - rewrite !no_newline_app, Hbn, Hnum. reflexivity.
  - by rewrite !sapp_assoc.
Qed.

Lemma pubspec_lines_ok bn num ls :
  no_newline (py_str bn) = true → no_newline (py_str num) = true →
  lines_ok ls → lines_ok (pubspec_line bn num <$> ls).
Proof.
  intros Hbn Hnum. destruct (version_line_shape bn num Hbn Hnum) as (v & Hv & Ev).
  induction 1 as [|s Hs Hne|s ls Hs _ IH]; cbn [fmap list_fmap].
  - constructor.
  - unfold pubspec_line. destruct (startswith "version:" s).
    + rewrite Ev. constructor; [done|constructor].
    + by constructor.
  - fold (pubspec_line bn num <$> ls). unfold pubspec_line at 1.
    destruct (startswith "version:" (s +:+ nl)).
    + rewrite Ev. by constructor.
    + by constructor.
Qed.

Lemma pubspec_line_twice bn1 num1 bn2 num2 line :
  pubspec_line bn2 num2 (pubspec_line bn1 num1 line) = pubspec_line bn2 num2 line.
Proof.
  unfold pubspec_line. destruct (startswith "version:" line) eqn:E; [done|].
  by rewrite E.
Qed.

(** X11: patching [pubspec.yaml] twice leaves what the second patch
    alone would have left, provided the first version string stays on one
    line (it has neither a newline nor a carriage return in it, either of
    which the second patch would read as the end of a line).  In particular
    a patch with the same values is idempotent, and after the rounds of
    [release-all] the file carries the version of the last round. *)
Theorem update_pubspec_yaml_twice bn1 num1 bn2 num2 w text :
  pubspec_yaml (host w) = Some text →
  no_line_break (py_str bn1) = true → no_line_break (py_str num1) = true →
  pubspec_yaml
    (host (snd (update_pubspec_yaml bn2 num2 (snd (update_pubspec_yaml bn1 num1 w))))) =
  pubspec_yaml (host (snd (update_pubspec_yaml bn2 num2 w))).
Proof.
  intros Hpub [Hbn Hbn']%andb_prop [Hnum Hnum']%andb_prop.
  rewrite (update_pubspec_yaml_run bn1 num1 w text Hpub). cbn [snd].
  erewrite (update_pubspec_yaml_run bn2 num2 (World _ _)); [|reflexivity].
  rewrite (update_pubspec_yaml_run bn2 num2 w text Hpub). cbn [snd host pubspec_yaml with_pubspec].
  rewrite readlines_written.
  - rewrite <- list_fmap_compose. f_equal. f_equal.
    apply list_fmap_ext. intros i line _. apply pubspec_line_twice.
  - apply pubspec_lines_ok; auto using readlines_ok.
  - apply pubspec_lines_no_cr; auto using readlines_no_cr.
Qed.

(** X12: a patcher that finds no line to replace still rewrites the
    file: what it writes is the text with the line ends as Python read them
    (every carriage-return line end has become a newline) and nothing else
    changed.  A file without carriage returns is therefore left as it was,
    character for character.  This is [pubspec.yaml] when no line starts
    with [version:], and [codemagic.yaml] when no line contains
    [BUILD_NAME] or [BUILD_NUMBER]. *)
Theorem patch_without_key bn num w :
  (∀ text, pubspec_yaml (host w) = Some text →
     Forall (λ line, startswith "version:" line = false) (readlines text) →
     host (snd (update_pubspec_yaml bn num w)) =
       with_pubspec (Some (universal_newlines text)) (host w) ∧
     (no_cr text = true → host (snd (update_pubspec_yaml bn num w)) = host w)) ∧
  (∀ text, codemagic_yaml (host w) = Some text →
     Forall (λ line, contains "BUILD_NAME" line = false ∧
                     contains "BUILD_NUMBER" line = false) (readlines text) →
     host (snd (update_codemagic_yaml bn num w)) =
       with_codemagic (Some (universal_newlines text)) (host w) ∧
     (no_cr text = true → host (snd (update_codemagic_yaml bn num w)) = host w)).
Proof.
  split; intros text Hfile Hlines.
  - rewrite (update_pubspec_yaml_run bn num w text Hfile). cbn [snd host].
    assert (pubspec_line bn num <$> readlines text = readlines text) as ->.
    { rewrite <- (list_fmap_id (readlines text)) at 2.
      apply Forall_fmap_ext_1. eapply Forall_impl; [exact Hlines|].
      intros line Hline. by apply pubspec_line_other. }
    rewrite written_readlines. split; [done|]. intros Hcr.
    rewrite universal_newlines_no_cr, <- Hfile by done. by destruct (host w).
  - rewrite (update_codemagic_yaml_run bn num w text Hfile). cbn [snd host].
    assert (codemagic_line bn num <$> readlines text = readlines text) as ->.
    { rewrite <- (list_fmap_id (readlines text)) at 2.
      apply Forall_fmap_ext_1. eapply Forall_impl; [exact Hlines|].
      intros line [H1 H2]. by apply codemagic_line_other. }
    rewrite written_readlines. split; [done|]. intros Hcr.
    rewrite universal_newlines_no_cr, <- Hfile by done. by destruct (host w).
Qed.

(** X13: the lines the patchers do replace.  In [pubspec.yaml] every
    line that starts with [version:] (not only the first) is written as the
    new version line.  In [codemagic.yaml] a line that contains
    [BUILD_NAME] anywhere is written as the name line, also when it
    contains [BUILD_NUMBER] as well; a line that contains [BUILD_NUMBER]
    and not [BUILD_NAME] is written as the number line. *)
Theorem patch_matching_lines bn num w :
  (∀ text, pubspec_yaml (host w) = Some text →
     ∃ out,
       pubspec_yaml (host (snd (update_pubspec_yaml bn num w))) = Some (written out) ∧
       ∀ i line, readlines text !! i = Some line →
         startswith "version:" line = true →
         out !! i = Some ("version: " +:+ py_str bn +:+ "+" +:+ py_str num +:+ nl)) ∧
  (∀ text, codemagic_yaml (host w) = Some text →
     ∃ out,
       codemagic_yaml (host (snd (update_codemagic_yaml bn num w))) = Some (written out) ∧
       ∀ i line, readlines text !! i = Some line →
         (contains "BUILD_NAME" line = true →
          out !! i = Some ("      BUILD_NAME: " +:+ dq +:+ py_str bn +:+ dq +:+ nl)) ∧
         (contains "BUILD_NAME" line = false → contains "BUILD_NUMBER" line = true →
          out !! i = Some ("      BUILD_NUMBER: " +:+ dq +:+ py_str num +:+ dq +:+ nl))).
Proof.
  split; intros text Hfile.
  - rewrite (update_pubspec_yaml_run bn num w text Hfile).
    eexists. split; [reflexivity|]. intros i line Hi Hk.
    rewrite list_lookup_fmap, Hi. cbn [fmap option_fmap option_map].
    unfold pubspec_line. by rewrite Hk.
  - rewrite (update_codemagic_yaml_run bn num w text Hfile).
    eexists. split; [reflexivity|]. intros i line Hi.
    rewrite list_lookup_fmap, Hi. cbn [fmap option_fmap option_map].
    unfold codemagic_line. split; [by intros ->|by intros -> ->].
Qed.

(** *** How bumps compose *)

Lemma handle_bump_next f p w d n bn :
  f ∈ SUPPORTED_FLAVORS → p ∈ SUPPORTED_PLATFORMS →
  version_json (host w) = JsonDoc d →
  subscript3 d f p "build_number" = Ok (JInt n) →
  subscript2 d f "build_name" = Ok bn →
  ∃ d',
    handle_bump [f; p] w = (Ok tt, bumped_world f p bn n d' w) ∧
    store3 d f p "build_number" (JInt (n + 1)) = Ok d' ∧
    subscript3 d' f p "build_number" = Ok (JInt (n + 1)) ∧
    subscript2 d' f "build_name" = Ok bn.
Proof.
  intros Hf Hp Hv Hn Hbn.
  destruct (store3_defined _ _ _ _ _ (JInt (n + 1)) Hn) as [d' Hst].
  exists d'. split; [by eapply handle_bump_run|]. split; [done|].
  split; [by eapply store3_read|].
  rewrite <- Hbn. eapply store3_build_name; [exact Hst|].
  by apply supported_platform_not_build_name.
Qed.

(** X14: [bump] keeps no record of having run: [k] bumps of the same
    supported pair in a row all return normally and leave the build number
    raised by [k], with the build name as it was. *)
Theorem bump_repeated f p w d n bn (k : nat) :
  f ∈ SUPPORTED_FLAVORS → p ∈ SUPPORTED_PLATFORMS →
  version_json (host w) = JsonDoc d →
  subscript3 d f p "build_number" = Ok (JInt n) →
  subscript2 d f "build_name" = Ok bn →
  ∃ dk,
    version_json (host (Nat.iter k (λ w, snd (handle_bump [f; p] w)) w)) = JsonDoc dk ∧
    subscript3 dk f p "build_number" = Ok (JInt (n + Z.of_nat k)) ∧
    subscript2 dk f "build_name" = Ok bn ∧
    (∀ j, (j < k)%nat →
       fst (handle_bump [f; p] (Nat.iter j (λ w, snd (handle_bump [f; p] w)) w)) = Ok tt).
Proof.
  intros Hf Hp Hv Hn Hbn. induction k as [|k (dk & Hvk & Hnk & Hbnk & Hok)].
  - exists d. rewrite Z.add_0_r. repeat split; [done..|]. lia.
  - destruct (handle_bump_next f p _ dk _ bn Hf Hp Hvk Hnk Hbnk)
      as (d' & Hrun & _ & Hn' & Hbn').
    exists d'. rewrite Nat.iter_succ, Hrun. cbn [snd].
    split; [reflexivity|]. split; [|split; [done|]].
    + rewrite Hn'. do 2 f_equal. lia.
    + intros j Hj. destruct (decide (j = k)) as [->|Hne].
      * by rewrite Hrun.
      * apply Hok. lia.
Qed.

Lemma store3_commute d f1 p1 f2 p2 k v1 v2 d1 d12 :
  (f1, p1) ≠ (f2, p2) →
  store3 d f1 p1 k v1 = Ok d1 → store3 d1 f2 p2 k v2 = Ok d12 →
  ∃ d2, store3 d f2 p2 k v2 = Ok d2 ∧ store3 d2 f1 p1 k v1 = Ok d12.
Proof.
  intros Hne (md & mr1 & mc1 & -> & Ef1 & Ep1 & ->)%store3_inv.
  intros (md' & mr2 & mc2 & [= <-] & Ef2 & Ep2 & ->)%store3_inv.
  unfold store3, py_getitem, py_setitem, obind.
  destruct (decide (f1 = f2)) as [->|Hf].
  - assert (p1 ≠ p2) as Hp by congruence.
    rewrite lookup_insert_eq in Ef2. injection Ef2 as <-.
    rewrite lookup_insert_ne in Ep2 by done.
    rewrite Ef1, Ep2. eexists. split; [reflexivity|]. cbv beta iota.
    rewrite lookup_insert_eq, lookup_insert_ne, Ep1 by done.
    rewrite !insert_insert_eq. do 4 f_equal. by apply insert_insert_ne.
  - rewrite lookup_insert_ne in Ef2 by done.
    rewrite Ef2, Ep2. eexists. split; [reflexivity|]. cbv beta iota.
    rewrite lookup_insert_ne, Ef1, Ep1 by done.
    do 2 f_equal. by apply insert_insert_ne.
Qed.

(** X15: bumps of two different supported pairs commute on the version
    document: whichever runs first, both return normally and the same
    document is written in the end. *)
Theorem bump_commutes f1 p1 f2 p2 w d n1 n2 bn1 bn2 :
  (f1, p1) ≠ (f2, p2) →
  f1 ∈ SUPPORTED_FLAVORS → p1 ∈ SUPPORTED_PLATFORMS →
  f2 ∈ SUPPORTED_FLAVORS → p2 ∈ SUPPORTED_PLATFORMS →
  version_json (host w) = JsonDoc d →
  subscript3 d f1 p1 "build_number" = Ok (JInt n1) →
  subscript2 d f1 "build_name" = Ok bn1 →
  subscript3 d f2 p2 "build_number" = Ok (JInt n2) →
  subscript2 d f2 "build_name" = Ok bn2 →
  let w1 := snd (handle_bump [f1; p1] w) in
  let w2 := snd (handle_bump [f2; p2] w) in
  fst (handle_bump [f2; p2] w1) = Ok tt ∧
  fst (handle_bump [f1; p1] w2) = Ok tt ∧
  version_json (host (snd (handle_bump [f2; p2] w1))) =
  version_json (host (snd (handle_bump [f1; p1] w2))).
Proof.
  intros Hne Hf1 Hp1 Hf2 Hp2 Hv Hn1 Hbn1 Hn2 Hbn2 w1 w2.
  destruct (handle_bump_next f1 p1 w d n1 bn1 Hf1 Hp1 Hv Hn1 Hbn1)
    as (d1 & Hrun1 & Hst1 & _ & _).
  destruct (handle_bump_next f2 p2 w d n2 bn2 Hf2 Hp2 Hv Hn2 Hbn2)
    as (d2 & Hrun2 & Hst2 & _ & _).
  assert (Hn2' : subscript3 d1 f2 p2 "build_number" = Ok (JInt n2)).
  { rewrite <- Hn2. eapply store3_other_pair; [exact Hst1|]. congruence. }
  assert (Hbn2' : subscript2 d1 f2 "build_name" = Ok bn2).
  { rewrite <- Hbn2. eapply store3_build_name; [exact Hst1|].
    by apply supported_platform_not_build_name. }
  assert (Hn1' : subscript3 d2 f1 p1 "build_number" = Ok (JInt n1)).
  { rewrite <- Hn1. by eapply store3_other_pair. }
  assert (Hbn1' : subscript2 d2 f1 "build_name" = Ok bn1).
  { rewrite <- Hbn1. eapply store3_build_name; [exact Hst2|].
    by apply supported_platform_not_build_name. }
  subst w1 w2. rewrite Hrun1, Hrun2. cbn [snd].
  destruct (handle_bump_next f2 p2 (bumped_world f1 p1 bn1 n1 d1 w) d1 n2 bn2
              Hf2 Hp2 eq_refl Hn2' Hbn2') as (d12 & Hrun12 & Hst12 & _ & _).
  destruct (handle_bump_next f1 p1 (bumped_world f2 p2 bn2 n2 d2 w) d2 n1 bn1
              Hf1 Hp1 eq_refl Hn1' Hbn1') as (d21 & Hrun21 & Hst21 & _ & _).
  rewrite Hrun12, Hrun21. cbn [fst snd host bumped_world version_json with_changelog with_version].
  split; [done|]. split; [done|].
  destruct (store3_commute _ _ _ _ _ _ _ _ _ _ Hne Hst1 Hst12) as (d2' & Hst2' & Hst21').
  rewrite Hst2 in Hst2'. injection Hst2' as <-.
  rewrite Hst21 in Hst21'. by injection Hst21' as <-.
Qed.

(** *** The changelog of [bump-all] *)

Lemma bump_loop_changelog l : ∀ d w,
  NoDup l → Forall (entry_ok d) l →
  ∃ d' lines,
    (for_fold l (λ fp s, bump_all_step fp.1 fp.2 s) d w).1 = Ok d' ∧
    host (for_fold l (λ fp s, bump_all_step fp.1 fp.2 s) d w).2 =
      match l with
      | [] => host w
      | _ => with_changelog
               (Some (default "" (changelog_md (host w)) +:+ written lines)) (host w)
      end ∧
    Forall2 (bump_line d (today (host w))) l lines.
Proof.
  induction l as [|[f p] l IH]; intros d w Hnd Hok.
  - exists d, []. by repeat split.
  - apply NoDup_cons in Hnd as [Hfresh Hnd].
    apply Forall_cons in Hok as [(Hp & n & bn & Hn & Hbn) Hok].
    cbn [fst snd] in *.
    destruct (store3_defined _ _ _ _ _ (JInt (n + 1)) Hn) as [d1 Hst].
    assert (Hsame : ∀ f' p', (f', p') ∈ l →
              subscript3 d1 f' p' "build_number" = subscript3 d f' p' "build_number" ∧
              subscript2 d1 f' "build_name" = subscript2 d f' "build_name").
    { intros f' p' Hin. split.
      - eapply store3_other_pair; [exact Hst|]. intros [= -> ->]. done.
      - by eapply store3_build_name. }
    assert (Hok1 : Forall (entry_ok d1) l).
    { apply Forall_forall. intros [f' p'] Hin.
      rewrite Forall_forall in Hok. destruct (Hok _ Hin) as (Hp' & n' & bn' & Hn' & Hbn').
      cbn [fst snd] in *. destruct (Hsame f' p' Hin) as [E1 E2].
      split; [done|]. exists n', bn'. cbn [fst snd]. by rewrite E1, E2. }
    cbn [for_fold fst snd].
    rewrite (bind_Ok _ _ _ _ _ (bump_all_step_run _ _ _ _ _ _ _ Hn Hbn Hst)).
    set (w1 := World _ _).
    destruct (IH d1 w1 Hnd Hok1) as (d' & lines & Hres & Hhost & Hlines).
    exists d', (changelog_entry (today (host w)) f p bn (JInt (n + 1)) :: lines).
    split; [done|]. split.
    + rewrite Hhost. destruct l as [|x l'].
      * inversion Hlines; subst. cbn [written foldr]. by rewrite sapp_nil_r.
      * cbn [host w1 changelog_md with_changelog from_option id written foldr].
        fold (written lines). rewrite sapp_assoc. reflexivity.
    + constructor; [by exists n, bn|].
      eapply Forall2_impl_elem; [exact Hlines|].
      intros [f' p'] line Hin (n' & bn' & Hn' & Hbn' & ->). cbn [fst snd] in *.
      destruct (Hsame f' p' Hin) as [E1 E2]. exists n', bn'. cbn [fst snd].
      by rewrite <- E1, <- E2.
Qed.

(** X16: on a complete version document [bump-all] appends to the
    changelog exactly one line per supported pair, flavor by flavor and
    within a flavor android before ios; each line carries the build name
    and the new number of its pair.  What was in the changelog before
    stays in front. *)
Theorem bump_all_changelog w d :
  version_json (host w) = JsonDoc d → complete_doc d →
  ∃ lines,
    changelog_md (host (snd (handle_bump_all w))) =
      Some (default "" (changelog_md (host w)) +:+ written lines) ∧
    Forall2 (bump_line d (today (host w)))
            (nested SUPPORTED_FLAVORS SUPPORTED_PLATFORMS) lines.
Proof.
  intros Hv Hd.
  destruct (bump_loop_changelog _ d (log (EOpen VERSION_FILE_PATH Rd) w)
              supported_pairs_NoDup (complete_doc_entries _ Hd))
    as (d' & lines & Hres & Hhost & Hlines).
  exists lines. split; [|exact Hlines].
  unfold handle_bump_all.
  rewrite (bind_Ok _ _ _ _ _ (read_version_file_doc _ _ Hv)).
  unfold bind at 1. rewrite for_fold_nested.
  destruct (for_fold _ _ d _) as [[d''| |] w1]; cbn [fst snd] in *; try done.
  unfold write_version_file. mrun. unfold print, log, set_host.
  cbn [snd host]. rewrite Hhost. reflexivity.
Qed.

(** *** [release-all] as a whole *)

(** X17: [release-all] raises every build number once, not twice: the
    release rounds add nothing to what [bump-all] did, and the document the
    command writes at its end is the one [bump-all] wrote.  (Same
    assumptions on the host as for the packaging runs of [release-all].) *)
Theorem release_all_increments_once w d :
  tools_return → tools_keep_credentials → tools_keep_pubspec →
  version_json (host w) = JsonDoc d → complete_doc d →
  is_Some (pubspec_yaml (host w)) →
  (∀ f, f ∈ SUPPORTED_FLAVORS → creds_ready (credentials_json (host w)) f) →
  ∃ w' d',
    handle_release_all w = (Ok tt, w') ∧
    version_json (host w') = JsonDoc d' ∧
    version_json (host (snd (handle_bump_all (log (EPrint "📦 Bumping all...") w))))
      = JsonDoc d' ∧
    (∀ f p n, f ∈ SUPPORTED_FLAVORS → p ∈ SUPPORTED_PLATFORMS →
       subscript3 d f p "build_number" = Ok (JInt n) →
       subscript3 d' f p "build_number" = Ok (JInt (n + 1))) ∧
    (∀ f, subscript2 d' f "build_name" = subscript2 d f "build_name").
Proof.
  intros Hret Hkc Hkp Hv Hd Hpub Hc.
  destruct (handle_release_all_run w d Hret Hkc Hkp Hv Hd Hpub Hc)
    as (w' & wb & d' & evs_b & evs & Hall & Hbump & Hvb & Hin & Hname & _ & _ & _ & _ & Hv').
  exists w', d'. rewrite Hbump. by repeat split.
Qed.

(** X18: [release-all] is not all-or-nothing.  When [pubspec.yaml] is
    missing it fails in its first release round with [FileNotFoundError]:
    after [bump-all] it has only read the version document again.  By then
    [bump-all] has already written the raised build numbers, which stay. *)
Theorem release_all_missing_pubspec w d :
  version_json (host w) = JsonDoc d → complete_doc d →
  pubspec_yaml (host w) = None →
  ∃ w' wb d',
    handle_release_all w = (Raise FileNotFoundError, w') ∧
    handle_bump_all (log (EPrint "📦 Bumping all...") w) = (Ok tt, wb) ∧
    host w' = host wb ∧
    trace w' = (trace wb ++ [EOpen VERSION_FILE_PATH Rd])%list ∧
    version_json (host w') = JsonDoc d' ∧
    (∀ f p n, f ∈ SUPPORTED_FLAVORS → p ∈ SUPPORTED_PLATFORMS →
       subscript3 d f p "build_number" = Ok (JInt n) →
       subscript3 d' f p "build_number" = Ok (JInt (n + 1))).
Proof.
  intros Hv Hd Hpub.
  destruct (handle_bump_all_run (log (EPrint "📦 Bumping all...") w) d Hv Hd)
    as (d' & c & evs0 & Hbump & Hin & Hname & _ & _).
  destruct (Hd "workplacebyls" "android") as (n & bn & Hn & Hbn);
    [by apply (bool_decide_unpack _)..|].
  assert (Hn' : subscript3 d' "workplacebyls" "android" "build_number"
                = Ok (JInt (n + 1))).
  { apply Hin; [by apply (bool_decide_unpack _)..|done]. }
  destruct (subscript3_subscript2 _ _ _ _ _ Hn') as (cur & Hcur & Hold).
  eexists _, _, d'. split; [|split; [exact Hbump|]].
  - unfold handle_release_all. mstep.
    rewrite (bind_Ok _ _ _ _ _ Hbump).
    erewrite (bind_Ok read_version_file);
      [|apply (read_version_file_doc _ d'); reflexivity].
    erewrite bind_Raise; [reflexivity|].
    cbn [for_each SUPPORTED_PLATFORMS SUPPORTED_FLAVORS]. mrun.
    unfold release_all_step at 1. mrun. rewrite Hcur. mrun. rewrite Hname, Hbn. mrun.
    rewrite Hold. mrun.
    erewrite bind_Raise; [reflexivity|]. by apply update_pubspec_yaml_missing.
  - by repeat split.
Qed.

(** ** Invariants of every run

    A relation between worlds that every single effect of the script
    respects is respected by every command, whatever the arguments, the
    files and the way the command ends. *)

Lemma never_exits_getitem v k : never_exits (py_getitem v k).
Proof. intros c. unfold py_getitem. by repeat case_match. Qed.

Lemma never_exits_obind {X Y} (o : outcome X) (k : X → outcome Y) :
  never_exits o → (∀ a, never_exits (k a)) → never_exits (obind o k).
Proof. intros Ho Hk c. destruct o as [a| |]; [apply Hk|by destruct (Ho code)|done]. Qed.

Lemma never_exits_subscript2 a b c : never_exits (subscript2 a b c).
Proof. apply never_exits_obind; auto using never_exits_getitem. Qed.

Lemma never_exits_setitem v k x : never_exits (py_setitem v k x).
Proof. intros c. unfold py_setitem. by repeat case_match. Qed.

Lemma never_exits_add_one v : never_exits (py_add_one v).
Proof. intros c. unfold py_add_one. by repeat case_match. Qed.

Lemma never_exits_contains k v : never_exits (py_contains k v).
Proof. intros c. unfold py_contains. by repeat case_match. Qed.

Lemma never_exits_store3 a b c d x : never_exits (store3 a b c d x).
Proof.
  unfold store3.
  repeat (apply never_exits_obind; [|intros ?]);
    auto using never_exits_getitem, never_exits_setitem.
Qed.

Section Invariant.

Variable R : world → world → Prop.
Hypothesis R_refl : ∀ w, R w w.
Hypothesis R_trans : ∀ w1 w2 w3, R w1 w2 → R w2 w3 → R w1 w3.
Hypothesis R_print : ∀ s w, R w (log (EPrint s) w).
Hypothesis R_open : ∀ path m w, R w (log (EOpen path m) w).
Hypothesis R_version : ∀ data w, R w (set_host (with_version (JsonDoc data)) w).
Hypothesis R_changelog : ∀ s w,
  R w (set_host (λ e, with_changelog (Some (default "" (changelog_md e) +:+ s)) e) w).

Lemma upholds_ret {X} (a : X) : upholds R (ret a).
Proof. intros w. split; [apply R_refl|done]. Qed.

Lemma upholds_raise {X} e : upholds R (@raise X e).
Proof. intros w. split; [apply R_refl|done]. Qed.

Lemma upholds_sys_exit {X} : upholds R (@sys_exit X 1).
Proof. intros w. split; [apply R_refl|]. by intros c [= <-]. Qed.

Lemma upholds_lift {X} (o : outcome X) : never_exits o → upholds R (lift o).
Proof. intros Ho w. split; [apply R_refl|]. intros c E. by destruct (Ho c). Qed.

Lemma upholds_print s : upholds R (print s).
Proof. intros w. split; [apply R_print|done]. Qed.

Lemma upholds_opened path m : upholds R (opened path m).
Proof. intros w. split; [apply R_open|done]. Qed.

Lemma upholds_look {X} (f : env → X) : upholds R (look f).
Proof. intros w. split; [apply R_refl|done]. Qed.

Lemma upholds_modify f : (∀ w, R w (set_host f w)) → upholds R (modify f).
Proof. intros Hf w. split; [apply Hf|done]. Qed.

Lemma upholds_bind {X Y} (m : M X) (k : X → M Y) :
  upholds R m → (∀ a, upholds R (k a)) → upholds R (bind m k).
Proof.
  intros Hm Hk w. destruct (Hm w) as [HR Hc]. unfold bind.
  destruct (m w) as [[a|c|e] w1]; simpl in *.
  - destruct (Hk a w1) as [HR' Hc']. split; [by apply (R_trans _ w1)|done].
  - split; [done|]. intros c0 [= <-]. by apply Hc.
  - by split.
Qed.

Ltac uphold_with known :=
  repeat first
    [ known
    | apply upholds_ret | apply upholds_raise | apply upholds_sys_exit
    | apply upholds_print | apply upholds_opened | apply upholds_look
    | apply upholds_lift;
      auto using never_exits_getitem, never_exits_subscript2, never_exits_add_one,
                 never_exits_store3, never_exits_contains
    | apply upholds_modify; solve [auto]
    | apply upholds_bind; [solve [uphold_with known]|intros ?]
    | match goal with
      | |- upholds _ (match ?x with _ => _ end) => destruct x
      | |- upholds _ (if ?b then _ else _) => destruct b
      end ].

Ltac uphold := uphold_with fail.

Lemma upholds_handle_bump args : upholds R (handle_bump args).
Proof. unfold handle_bump, unpack2. uphold. Qed.

Lemma upholds_handle_bump_all : upholds R handle_bump_all.
Proof. unfold handle_bump_all. uphold. Qed.

Hypothesis R_pubspec : ∀ t w, R w (set_host (with_pubspec (Some t)) w).
Hypothesis R_codemagic : ∀ t w, R w (set_host (with_codemagic (Some t)) w).
Hypothesis R_run : ∀ i w,
  match os_exec i (host w) with
  | Some (r, e') => R w (set_host (λ _, e') (log (ERun i) w))
  | None => R w (log (ERun i) w)
  end.

Lemma upholds_subprocess_run cmd sh given : upholds R (subprocess_run cmd sh given).
Proof.
  unfold subprocess_run. destruct (cmd_strings cmd) as [args|]; [|apply upholds_raise].
  cbv zeta. intros w. pose proof (R_run (Invocation args sh given) w) as H.
  destruct (os_exec _ (host w)) as [[r e']|]; by split.
Qed.

Lemma upholds_upload f p : upholds R (upload f p).
Proof.
  unfold upload, upload_to_google_play, upload_to_app_store, load_credentials.
  cbv zeta. uphold_with ltac:(apply upholds_subprocess_run).
Qed.

Lemma upholds_handle_release args : upholds R (handle_release args).
Proof.
  unfold handle_release, unpack2.
  uphold_with ltac:(first [apply upholds_subprocess_run | apply upholds_upload]).
Qed.

Lemma upholds_handle_release_all : upholds R handle_release_all.
Proof.
  unfold handle_release_all.
  uphold_with ltac:(first [apply upholds_subprocess_run | apply upholds_upload
                          | apply upholds_handle_bump_all]).
Qed.

Lemma upholds_main args : upholds R (main args).
Proof.
  unfold main, print_help, commands.
  destruct args as [|command options]; [apply upholds_print|].
  destruct (bool_decide _); [apply upholds_print|].
  repeat match goal with
         | |- context [String.eqb ?a ?b] => destruct (String.eqb a b)
         end;
    uphold_with ltac:(first [apply upholds_handle_bump | apply upholds_handle_bump_all
                            | apply upholds_handle_release
                            | apply upholds_handle_release_all]).
Qed.

End Invariant.

(** X19: the process never ends with a status other than 0 or 1,
    whatever the arguments, the files and the external programs: the only
    [sys.exit] in the script is [sys.exit(1)], an escaping exception gives
    1 and a normal return gives 0. *)
Theorem exit_status_zero_or_one args w :
  exit_status (main args w).1 = 0%Z ∨ exit_status (main args w).1 = 1%Z.
Proof.
  destruct (upholds_main (λ _ _, True) ltac:(done) ltac:(done) ltac:(done)
              ltac:(done) ltac:(done) ltac:(done) ltac:(done) ltac:(done)
              ltac:(by intros i w0; repeat case_match) args w) as [_ Hexit].
  destruct (main args w).1 as [[]|c|e]; cbn [exit_status]; [by left| |by right].
  right. by apply Hexit.
Qed.

Lemma changelog_grows_refl c : changelog_grows c c.
Proof. split; [|done]. exists "". by rewrite sapp_nil_r. Qed.

Lemma changelog_grows_trans c1 c2 c3 :
  changelog_grows c1 c2 → changelog_grows c2 c3 → changelog_grows c1 c3.
Proof.
  intros [[a1 E1] H1] [[a2 E2] H2]. split; [|auto].
  exists (a1 +:+ a2). by rewrite E2, E1, sapp_assoc.
Qed.

(** X20: the changelog is append-only under every command.  If the
    external programs at most add text at the end of the changelog, then
    however [main] ends (normally, through [sys.exit] or with an
    exception), the changelog it leaves is the one it found with text added
    at the end, and a changelog that existed still exists. *)
Theorem changelog_append_only args w :
  (∀ i e r e', os_exec i e = Some (r, e') →
     changelog_grows (changelog_md e) (changelog_md e')) →
  changelog_grows (changelog_md (host w)) (changelog_md (host (main args w).2)).
Proof.
  intros Htools.
  refine (proj1 (upholds_main
    (λ w w', changelog_grows (changelog_md (host w)) (changelog_md (host w')))
    _ _ _ _ _ _ _ _ _ args w)).
  - intros w0. apply changelog_grows_refl.
  - intros w1 w2 w3. apply changelog_grows_trans.
  - intros s w0. apply changelog_grows_refl.
  - intros path m w0. apply changelog_grows_refl.
  - intros data w0. apply changelog_grows_refl.
  - intros s w0. split; [by exists s|by eexists].
  - intros t w0. apply changelog_grows_refl.
  - intros t w0. apply changelog_grows_refl.
  - intros i w0. destruct (os_exec i (host w0)) as [[r e']|] eqn:E.
    + by apply (Htools i _ r).
    + apply changelog_grows_refl.
Qed.

(** X21: the script itself never writes the credentials file: if the
    external programs leave it alone, it is the same after every command
    as before, however the command ends. *)
Theorem main_keeps_credentials args w :
  tools_keep_credentials →
  credentials_json (host (main args w).2) = credentials_json (host w).
Proof.
  intros Htools.
  refine (proj1 (upholds_main
    (λ w w', credentials_json (host w') = credentials_json (host w))
    _ _ _ _ _ _ _ _ _ args w)); try done.
  - intros w1 w2 w3 E1 E2. by rewrite E2.
  - intros i w0. destruct (os_exec i (host w0)) as [[r e']|] eqn:E; [|done].
    by apply (Htools i _ r).
Qed.

Lemma runs_log_other e w :
  run_of e = None → runs (trace (log e w)) = runs (trace w).
Proof.
  intros He. unfold log, runs. cbn [trace]. rewrite omap_app.
  cbn [omap list_omap]. rewrite He. by rewrite app_nil_r.
Qed.

(** X22: [bump] and [bump-all] work on the version document and the
    changelog only.  Whatever the arguments and the document, and however
    the command ends, no program has been started and [pubspec.yaml],
    [codemagic.yaml], the credentials and the build outputs are as they
    were. *)
Theorem bump_touches_only_the_store args w :
  only_store_touched w (handle_bump args w).2 ∧
  only_store_touched w (handle_bump_all w).2.
Proof.
  assert (Hrefl : ∀ w0, only_store_touched w0 w0) by done.
  assert (Htrans : ∀ w1 w2 w3, only_store_touched w1 w2 →
            only_store_touched w2 w3 → only_store_touched w1 w3).
  { intros w1 w2 w3 (A1 & A2 & A3 & A4 & A5) (B1 & B2 & B3 & B4 & B5).
    repeat split; congruence. }
  assert (Hprint : ∀ s w0, only_store_touched w0 (log (EPrint s) w0)).
  { intros s w0. repeat split. by apply runs_log_other. }
  assert (Hopen : ∀ path m w0, only_store_touched w0 (log (EOpen path m) w0)).
  { intros path m w0. repeat split. by apply runs_log_other. }
  split.
  - by apply (upholds_handle_bump only_store_touched).
  - by apply (upholds_handle_bump_all only_store_touched).
Qed.

(** *** Commands [main] does not know *)

Lemma eqb_false_of_ne (a b : string) : a ≠ b → String.eqb a b = false.
Proof. by intros ?%String.eqb_neq. Qed.

(** X23: [main] runs no command when it is given none.  Without
    arguments, or with the help flag anywhere among them (even after a
    valid command), it prints the help text and returns, so the status is
    0; with a first word that is none of the four commands it prints the
    word and the help text and leaves with status 1.  In each case the host
    is untouched and no file is opened. *)
Theorem main_without_command args w :
  (args = [] ∨ "--help" ∈ args →
   main args w = (Ok tt, log (EPrint help_text) w)) ∧
  (∀ command options, args = command :: options → "--help" ∉ args →
     command ∉ ["bump"; "bump-all"; "release"; "release-all"] →
     main args w =
       (Exit 1, log (EPrint help_text)
                  (log (EPrint ("❌ Unknown command: " +:+ command +:+ nl)) w))).
Proof.
  split.
  - intros [->|Hhelp]; [done|]. unfold main. destruct args as [|c o]; [done|].
    by rewrite bool_decide_eq_true_2.
  - intros command options -> Hhelp Hcmd. unfold main.
    rewrite bool_decide_eq_false_2 by done.
    repeat (apply not_elem_of_cons in Hcmd as [? Hcmd]).
    unfold commands. rewrite !eqb_false_of_ne by done. by mrun.
Qed.

(** *** Files that are not JSON *)

Lemma read_version_file_invalid w :
  version_json (host w) = BadJson →
  read_version_file w = (Raise JSONDecodeError, log (EOpen VERSION_FILE_PATH Rd) w).
Proof. intros E. unfold read_version_file. mstep. rewrite E. by mrun. Qed.

Lemma load_credentials_invalid flavor w :
  credentials_json (host w) = BadJson →
  load_credentials flavor w = (Raise JSONDecodeError, log (EOpen CREDENTIALS_PATH Rd) w).
Proof. intros E. unfold load_credentials. mstep. rewrite E. by mrun. Qed.

(** X24: a file that exists but does not hold JSON makes [json.load]
    raise once the file has been opened, and that is all that happens.
    With such a [version.json], [bump] (for a supported pair), [bump-all],
    [release] and [release-all] raise [JSONDecodeError] with the host
    untouched; with such a credentials file, an upload whose artifact is in
    place raises it without starting a program. *)
Theorem invalid_json_file f p w :
  (version_json (host w) = BadJson →
   (f ∈ SUPPORTED_FLAVORS → p ∈ SUPPORTED_PLATFORMS →
    handle_bump [f; p] w =
      (Raise JSONDecodeError, log (EOpen VERSION_FILE_PATH Rd) w)) ∧
   handle_bump_all w = (Raise JSONDecodeError, log (EOpen VERSION_FILE_PATH Rd) w) ∧
   handle_release [f; p] w =
     (Raise JSONDecodeError, log (EOpen VERSION_FILE_PATH Rd) w) ∧
   handle_release_all w =
     (Raise JSONDecodeError,
      log (EOpen VERSION_FILE_PATH Rd) (log (EPrint "📦 Bumping all...") w))) ∧
  (credentials_json (host w) = BadJson →
   (get_aab_path f ∈ artifacts (host w) →
    upload_to_google_play f w =
      (Raise JSONDecodeError, log (EOpen CREDENTIALS_PATH Rd) w)) ∧
   (get_ipa_path f ∈ artifacts (host w) →
    upload_to_app_store f w =
      (Raise JSONDecodeError, log (EOpen CREDENTIALS_PATH Rd) w))).
Proof.
  split.
  - intros E. split; [|split; [|split]].
    + intros Hf Hp. unfold handle_bump. cbn [length Nat.ltb Nat.leb unpack2]. mstep.
      rewrite supported_pair_accepted by done.
      by rewrite (bind_Raise _ _ _ _ _ (read_version_file_invalid _ E)).
    + unfold handle_bump_all.
      by rewrite (bind_Raise _ _ _ _ _ (read_version_file_invalid _ E)).
    + unfold handle_release. cbn [length Nat.ltb Nat.leb unpack2]. mstep.
      by rewrite (bind_Raise _ _ _ _ _ (read_version_file_invalid _ E)).
    + unfold handle_release_all. mstep.
      erewrite bind_Raise; [reflexivity|].
      unfold handle_bump_all.
      by rewrite (bind_Raise _ _ _ _ _
                    (read_version_file_invalid (log (EPrint "📦 Bumping all...") w) E)).
  - intros E. split; intros Hin.
    + unfold upload_to_google_play. cbv zeta. mstep.
      rewrite bool_decide_eq_true_2 by done. cbn [negb].
      by rewrite (bind_Raise _ _ _ _ _ (load_credentials_invalid _ _ E)).
    + unfold upload_to_app_store. cbv zeta. mstep.
      rewrite bool_decide_eq_true_2 by done. cbn [negb].
      by rewrite (bind_Raise _ _ _ _ _ (load_credentials_invalid _ _ E)).
Qed.

(** *** The paths of the build outputs *)

Lemma slength_app s t :
  String.length (s +:+ t) = (String.length s + String.length t)%nat.
Proof.
  induction s as [|a s IH]; [done|].
  rewrite sapp_cons. cbn [String.length]. by rewrite IH.
Qed.

Lemma sapp_inv_head s t1 t2 : s +:+ t1 = s +:+ t2 → t1 = t2.
Proof.
  induction s as [|a s IH]; [done|].
  rewrite !sapp_cons. intros [= E]. by apply IH.
Qed.

Lemma sapp_inv_length s1 s2 t1 t2 :
  String.length s1 = String.length s2 → s1 +:+ t1 = s2 +:+ t2 → s1 = s2.
Proof.
  revert s2. induction s1 as [|a s1 IH]; intros [|b s2]; try done.
  cbn [String.length]. intros [= Hlen]. rewrite !sapp_cons. intros [= -> E].
  f_equal. by apply IH.
Qed.

(** X25: the bundle path names the flavor: two flavors never have the
    same [.aab] path, so the Google Play upload of one flavor cannot pick
    up the bundle of another.  The archive paths of the supported flavors
    are distinct as well. *)
Theorem artifact_paths_distinct f1 f2 :
  (get_aab_path f1 = get_aab_path f2 → f1 = f2) ∧
  (f1 ∈ SUPPORTED_FLAVORS → f2 ∈ SUPPORTED_FLAVORS →
   get_ipa_path f1 = get_ipa_path f2 → f1 = f2).
Proof.
  split.
  - unfold get_aab_path. intros E%sapp_inv_head.
    apply (sapp_inv_length _ _ _ _) in E; [done|].
    apply (f_equal String.length) in E.
    rewrite !slength_app in E. lia.
  - intros H1 H2 E. unfold SUPPORTED_FLAVORS in H1, H2.
    repeat (apply elem_of_cons in H1 as [->|H1]);
      try (by apply elem_of_nil in H1);
      repeat (apply elem_of_cons in H2 as [->|H2]);
      try (by apply elem_of_nil in H2); try done;
      by vm_compute in E.
Qed.

(** *** [bump-all] that fails on the way *)

Lemma store3_other_entry d f p k v d' f' p' :
  store3 d f p k v = Ok d' → (f', p') ≠ (f, p) →
  subscript2 d' f' p' = subscript2 d f' p'.
Proof.
  intros Hst Hne. destruct (decide (f' = f)) as [->|Hf].
  - apply (store3_other_platform _ _ _ _ _ _ _ Hst). congruence.
  - unfold subscript2. by rewrite (store3_other_flavor _ _ _ _ _ _ _ Hst Hf).
Qed.

Lemma bump_loop_prefix l : ∀ d w,
  NoDup l → Forall (entry_ok d) l →
  ∃ d' w' lines,
    for_fold l (λ fp s, bump_all_step fp.1 fp.2 s) d w = (Ok d', w') ∧
    version_json (host w') = version_json (host w) ∧
    default "" (changelog_md (host w')) =
      default "" (changelog_md (host w)) +:+ written lines ∧
    Forall2 (bump_line d (today (host w))) l lines ∧
    (∀ f p, (f, p) ∉ l → subscript2 d' f p = subscript2 d f p).
Proof.
  induction l as [|[f p] l IH]; intros d w Hnd Hok.
  - exists d, w, []. cbn [written foldr]. rewrite sapp_nil_r. by repeat split.
  - apply NoDup_cons in Hnd as [Hfresh Hnd].
    apply Forall_cons in Hok as [(Hp & n & bn & Hn & Hbn) Hok].
    cbn [fst snd] in *.
    destruct (store3_defined _ _ _ _ _ (JInt (n + 1)) Hn) as [d1 Hst].
    assert (Hsame : ∀ f' p', (f', p') ∈ l →
              subscript3 d1 f' p' "build_number" = subscript3 d f' p' "build_number" ∧
              subscript2 d1 f' "build_name" = subscript2 d f' "build_name").
    { intros f' p' Hin. split.
      - eapply store3_other_pair; [exact Hst|]. intros [= -> ->]. done.
      - by eapply store3_build_name. }
    assert (Hok1 : Forall (entry_ok d1) l).
    { apply Forall_forall. intros [f' p'] Hin.
      rewrite Forall_forall in Hok. destruct (Hok _ Hin) as (Hp' & n' & bn' & Hn' & Hbn').
      cbn [fst snd] in *. destruct (Hsame f' p' Hin) as [E1 E2].
      split; [done|]. exists n', bn'. cbn [fst snd]. by rewrite E1, E2. }
    cbn [for_fold fst snd].
    rewrite (bind_Ok _ _ _ _ _ (bump_all_step_run _ _ _ _ _ _ _ Hn Hbn Hst)).
    set (w1 := World _ _).
    destruct (IH d1 w1 Hnd Hok1) as (d' & w' & lines & Hrun & Hver & Hlog & Hlines & Hframe).
    exists d', w', (changelog_entry (today (host w)) f p bn (JInt (n + 1)) :: lines).
    split; [done|]. split; [by rewrite Hver|]. split; [|split].
    + rewrite Hlog. cbn [host w1 changelog_md with_changelog from_option id written foldr].
      fold (written lines). by rewrite sapp_assoc.
    + constructor; [by exists n, bn|].
      eapply Forall2_impl_elem; [exact Hlines|].
      intros [f' p'] line Hin (n' & bn' & Hn' & Hbn' & ->). cbn [fst snd] in *.
      destruct (Hsame f' p' Hin) as [E1 E2]. exists n', bn'. cbn [fst snd].
      by rewrite <- E1, <- E2.
    + intros f' p' [Hne Hnin]%not_elem_of_cons.
      rewrite (Hframe _ _ Hnin). by eapply store3_other_entry.
Qed.

(** X26: [bump-all] is not atomic.  It appends the changelog line of a
    pair inside the loop and writes [version.json] only after the loop.
    When the entries of the first pairs are in order and a lookup for the
    next pair fails, the command raises that exception; by then the
    changelog has gained one line for each pair before the failing one,
    while [version.json] still holds the numbers it had. *)
Theorem bump_all_stops_midway w d before f p rest e :
  version_json (host w) = JsonDoc d →
  nested SUPPORTED_FLAVORS SUPPORTED_PLATFORMS = (before ++ (f, p) :: rest)%list →
  Forall (entry_ok d) before →
  read_entry d f p = Raise e →
  ∃ w' lines,
    handle_bump_all w = (Raise e, w') ∧
    version_json (host w') = JsonDoc d ∧
    default "" (changelog_md (host w')) =
      default "" (changelog_md (host w)) +:+ written lines ∧
    Forall2 (bump_line d (today (host w))) before lines.
Proof.
  intros Hd Hsplit Hok Hfail.
  pose proof supported_pairs_NoDup as Hnd. rewrite Hsplit in Hnd.
  apply NoDup_app in Hnd as (Hnd1 & Hdisj & _).
  assert (Hfresh : (f, p) ∉ before).
  { intros Hin. apply (Hdisj _ Hin). by left. }
  destruct (bump_loop_prefix before d (log (EOpen VERSION_FILE_PATH Rd) w) Hnd1 Hok)
    as (d' & w' & lines & Hrun & Hver & Hlog & Hlines & Hframe).
  assert (Hentry : read_entry d' f p = Raise e).
  { rewrite <- Hfail. unfold read_entry. rewrite (Hframe f p Hfresh).
    rewrite (Hframe f "build_name"); [done|].
    intros Hin. rewrite Forall_forall in Hok. by destruct (Hok _ Hin) as [Hne _]. }
  exists w', lines. split; [|split; [by rewrite Hver|by split]].
  unfold handle_bump_all.
  rewrite (bind_Ok _ _ _ _ _ (read_version_file_doc _ _ Hd)).
  erewrite bind_Raise; [reflexivity|].
  rewrite for_fold_nested, Hsplit, for_fold_app.
  rewrite (bind_Ok _ _ _ _ _ Hrun). cbn [for_fold fst snd].
  apply bind_Raise. unfold bump_all_step.
  rewrite (lift_read_entry d' f p (λ current build_name old build_number, _)).
  by rewrite Hentry.
Qed.

(** *** An upload that fails after the packaging run *)

(** X27: [release] bumps the number only after the upload.  When the
    packaging tool has run and produced the artifact, but the credentials
    file is missing, the upload raises [FileNotFoundError] and [release]
    ends there: the packaging tool is the one program that ran, and the
    files are as that tool left them, so a version document the tool did
    not touch still holds the number that was just shipped. *)
Theorem release_upload_raises f p w d bn num next r e' :
  version_json (host w) = JsonDoc d →
  read_entry d f p = Ok (bn, num, next) →
  is_Some (pubspec_yaml (host w)) →
  os_exec (Invocation (shorebird_cmd f p bn num) false false)
          (patched_host bn num (host w)) = Some (r, e') →
  credentials_json e' = NoFile →
  (p = "android" ∧ get_aab_path f ∈ artifacts e') ∨
  (p = "ios" ∧ get_ipa_path f ∈ artifacts e') →
  ∃ w',
    handle_release [f; p] w = (Raise FileNotFoundError, w') ∧
    host w' = e' ∧
    runs (trace w') = (runs (trace w) ++
                       [Invocation (shorebird_cmd f p bn num) false false])%list.
Proof.
  intros Hv He Hpub Hos Hcreds Hbuilt.
  rewrite (handle_release_prefix _ _ _ _ _ _ _ Hv He Hpub).
  unfold bind at 1. unfold subprocess_run. rewrite cmd_strings_JStr. cbv zeta.
  cbn [host]. rewrite Hos. mrun.
  match goal with
  | |- context [bind (upload f p) ?k ?w1] =>
      assert (Hup : upload f p w1 = (Raise FileNotFoundError, w1))
  end.
  { unfold upload. destruct Hbuilt as [[-> Hin]|[-> Hin]].
    - rewrite String.eqb_refl. unfold upload_to_google_play. cbv zeta. mstep.
      unfold print, log, set_host. cbn [host]. rewrite bool_decide_eq_true_2 by done.
      cbn [negb]. apply bind_Raise. by apply load_credentials_missing_file.
    - rewrite (proj2 (String.eqb_neq "ios" "android")) by done.
      rewrite String.eqb_refl. unfold upload_to_app_store. cbv zeta. mstep.
      unfold print, log, set_host. cbn [host]. rewrite bool_decide_eq_true_2 by done.
      cbn [negb]. apply bind_Raise. by apply load_credentials_missing_file. }
  rewrite (bind_Raise _ _ _ _ _ Hup).
  eexists. split; [reflexivity|].
  unfold print, log, set_host. cbn [host trace]. split; [done|].
  unfold runs. rewrite <- !app_assoc. cbn [app]. rewrite !omap_app.
  fold (runs (trace w)). cbn [omap list_omap run_of]. rewrite omap_app.
  fold (runs (patch_events bn num (host w))). rewrite runs_patch_events.
  reflexivity.
Qed.

(** *** A platform argument that names the build name *)

(** X28: the one place where [release] shows a value after it was
    changed.  The name [build_name] is bound to the object
    [data[flavor]['build_name']].  When the platform argument is the key
    [build_name] itself (its entry then has to be a dictionary with a build
    number), the assignment of the new number changes that very object.
    The packaging command, built before the assignment, shows the
    dictionary with the stored number; the changelog line and the closing
    message, built after it, show it with the new number. *)
Theorem release_build_name_alias f w d mc n r e' :
  version_json (host w) = JsonDoc d →
  subscript2 d f "build_name" = Ok (JObj mc) →
  mc !! "build_number" = Some (JInt n) →
  is_Some (pubspec_yaml (host w)) →
  os_exec (Invocation (shorebird_cmd f "build_name" (JObj mc) (JInt n)) false false)
          (patched_host (JObj mc) (JInt n) (host w)) = Some (r, e') →
  ∃ w' evs,
    handle_release [f; "build_name"] w = (Ok tt, w') ∧
    changelog_md (host w') =
      Some (default "" (changelog_md e') +:+
            ("- [" +:+ today e' +:+ "] " +:+ f +:+ " (build_name): " +:+
             py_str (JObj (<["build_number" := JInt (n + 1)]> mc)) +:+ "+" +:+
             pretty (n + 1)%Z +:+ nl)) ∧
    trace w' = (trace w ++ evs)%list ∧
    runs evs =
      [Invocation
         ["shorebird"; "release"; "build_name"; "--flutter-version=3.29.1";
          "--flavor"; f; "-t"; "lib/main_" +:+ f +:+ ".dart";
          "--build-name=" +:+ py_str (JObj mc); "--build-number=" +:+ pretty n]
         false false] ∧
    last evs =
      Some (EPrint ("✅ Released and bumped to " +:+
                    py_str (JObj (<["build_number" := JInt (n + 1)]> mc)) +:+ "+" +:+
                    pretty (n + 1)%Z)).
Proof.
  intros Hv Hbn Hn Hpub Hos.
  assert (Hold : py_getitem (JObj mc) "build_number" = Ok (JInt n))
    by (unfold py_getitem; by rewrite Hn).
  assert (He : read_entry d f "build_name" = Ok (JObj mc, JInt n, JInt (n + 1))).
  { unfold read_entry, obind. by rewrite Hbn, Hold. }
  assert (Hn3 : subscript3 d f "build_name" "build_number" = Ok (JInt n)).
  { destruct (subscript2_inv _ _ _ _ Hbn) as (rec & Hrec & Hcur).
    unfold subscript3, obind. by rewrite Hrec, Hcur. }
  destruct (store3_defined _ _ _ _ _ (JInt (n + 1)) Hn3) as [d' Hst].
  assert (Halias : after_store d' f "build_name" (JObj mc) =
                   JObj (<["build_number" := JInt (n + 1)]> mc)).
  { apply store3_inv in Hst as (md & mr & mc' & -> & Ef & Ep & ->).
    unfold subscript2, py_getitem, obind in Hbn. rewrite Ef, Ep in Hbn.
    injection Hbn as ->.
    unfold after_store, subscript2, py_getitem, obind. by rewrite !lookup_insert_eq. }
  rewrite (handle_release_prefix _ _ _ _ _ _ _ Hv He Hpub).
  unfold bind at 1. unfold subprocess_run. rewrite cmd_strings_JStr. cbv zeta.
  cbn [host]. rewrite Hos. mrun.
  unfold upload.
  change (String.eqb "build_name" "android") with false.
  change (String.eqb "build_name" "ios") with false. cbv iota. mstep.
  rewrite Hst. mstep. rewrite Halias.
  unfold write_version_file, append_changelog. mrun.
  eexists _, _. split; [reflexivity|].
  unfold print, log, set_host. cbn [host trace].
  split; [reflexivity|]. split; [by rewrite <- !app_assoc|]. split.
  - cbn [app]. unfold runs. cbn [omap list_omap run_of].
    rewrite !omap_app. fold (runs (patch_events (JObj mc) (JInt n) (host w))).
    rewrite runs_patch_events. reflexivity.
  - rewrite !app_assoc. apply last_snoc.
Qed.

End Script.

(** ** What the output of the external programs can change

    Two runs of the script whose external programs leave the same files
    but print and return different things. *)

Section Diagnostics.

Variables os1 os2 : invocation → env → option (CompletedProcess * env).
Variable start_error : invocation → env → exn.
Variable py_repr : json → string.

Hypothesis same_files : ∀ i e, snd <$> os1 i e = snd <$> os2 i e.

Lemma same_effects_refl w : same_effects w w.
Proof. done. Qed.

Lemma same_effects_print s1 s2 w1 w2 :
  same_effects w1 w2 → same_effects (log (EPrint s1) w1) (log (EPrint s2) w2).
Proof.
  intros [Hh Ht]. split; [done|]. unfold log, effects in *. cbn [trace].
  by rewrite !omap_app, Ht.
Qed.

Lemma same_effects_log e w1 w2 :
  same_effects w1 w2 → same_effects (log e w1) (log e w2).
Proof.
  intros [Hh Ht]. split; [done|]. unfold log, effects in *. cbn [trace].
  by rewrite !omap_app, Ht.
Qed.

Lemma same_effects_set_host f w1 w2 :
  same_effects w1 w2 → same_effects (set_host f w1) (set_host f w2).
Proof. intros [Hh Ht]. split; [|done]. unfold set_host. cbn [host]. by rewrite Hh. Qed.

Lemma sim_ret {X} (a : X) : sim eq (ret a) (ret a).
Proof. by intros w1 w2 H. Qed.

Lemma sim_lift {X} (o : outcome X) : sim eq (lift o) (lift o).
Proof. intros w1 w2 H. unfold lift. by destruct o. Qed.

Lemma sim_raise {X} e : sim eq (@raise X e) (raise e).
Proof. by intros w1 w2 H. Qed.

Lemma sim_sys_exit {X} c : sim eq (@sys_exit X c) (sys_exit c).
Proof. by intros w1 w2 H. Qed.

Lemma sim_print s1 s2 : sim eq (print s1) (print s2).
Proof. intros w1 w2 H. split; [done|]. by apply same_effects_print. Qed.

Lemma sim_opened path m : sim eq (opened path m) (opened path m).
Proof. intros w1 w2 H. split; [done|]. by apply same_effects_log. Qed.

Lemma sim_look {X} (f : env → X) : sim eq (look f) (look f).
Proof. intros w1 w2 [Hh Ht]. unfold look. rewrite Hh. by split. Qed.

Lemma sim_modify f : sim eq (modify f) (modify f).
Proof. intros w1 w2 H. split; [done|]. by apply same_effects_set_host. Qed.

Lemma sim_bind {X Y} (R : X → X → Prop) (S : Y → Y → Prop) m1 m2 k1 k2 :
  sim R m1 m2 → (∀ a1 a2, R a1 a2 → sim S (k1 a1) (k2 a2)) →
  sim S (bind m1 k1) (bind m2 k2).
Proof.
  intros Hm Hk w1 w2 H. specialize (Hm w1 w2 H). unfold bind.
  destruct (m1 w1) as [[a1|c1|e1] w1'], (m2 w2) as [[a2|c2|e2] w2']; try done.
  destruct Hm as [HR H']. by apply Hk.
Qed.

Lemma sim_bind_eq {X Y} (S : Y → Y → Prop) (m1 m2 : M X) k1 k2 :
  sim eq m1 m2 → (∀ a, sim S (k1 a) (k2 a)) → sim S (bind m1 k1) (bind m2 k2).
Proof. intros Hm Hk. apply (sim_bind eq S); [done|]. intros a ? <-. apply Hk. Qed.

Lemma sim_subprocess_run cmd sh given :
  sim (λ _ _, True) (subprocess_run os1 start_error cmd sh given) (subprocess_run os2 start_error cmd sh given).
Proof.
  intros w1 w2 [Hh Ht]. unfold subprocess_run.
  destruct (cmd_strings cmd) as [args|]; [|done]. cbv zeta.
  pose proof (same_files (Invocation args sh given) (host w1)) as Hsame.
  rewrite <- Hh.
  destruct (os1 _ (host w1)) as [[r1 e1]|], (os2 _ (host w1)) as [[r2 e2]|];
    try discriminate.
  - injection Hsame as <-. split; [done|]. split; [done|].
    unfold set_host, log, effects in *. cbn [trace]. by rewrite !omap_app, Ht.
  - split; [done|]. by apply same_effects_log.
Qed.

(** Composite actions are built from the rules above. *)
Ltac sim_auto :=
  repeat first
    [ apply sim_ret | apply sim_lift | apply sim_raise | apply sim_sys_exit
    | apply sim_print | apply sim_opened | apply sim_look | apply sim_modify
    | assumption
    | apply sim_bind_eq; [solve [sim_auto]|intros ?]
    | match goal with
      | |- sim _ (match ?x with _ => _ end) (match ?x with _ => _ end) => destruct x
      | |- sim _ (if ?b then _ else _) (if ?b then _ else _) => destruct b
      end ].

Lemma sim_read_version_file : sim eq read_version_file read_version_file.
Proof. unfold read_version_file. sim_auto. Qed.

Lemma sim_write_version_file data :
  sim eq (write_version_file data) (write_version_file data).
Proof. unfold write_version_file. sim_auto. Qed.

Lemma sim_append_changelog f p bn num :
  sim eq (append_changelog py_repr f p bn num) (append_changelog py_repr f p bn num).
Proof. unfold append_changelog. sim_auto. Qed.

Lemma sim_update_pubspec_yaml bn num :
  sim eq (update_pubspec_yaml py_repr bn num) (update_pubspec_yaml py_repr bn num).
Proof. unfold update_pubspec_yaml. sim_auto. Qed.

Lemma sim_update_codemagic_yaml bn num :
  sim eq (update_codemagic_yaml py_repr bn num) (update_codemagic_yaml py_repr bn num).
Proof. unfold update_codemagic_yaml. sim_auto. Qed.

Lemma sim_load_credentials f :
  sim eq (load_credentials py_repr f) (load_credentials py_repr f).
Proof. unfold load_credentials. sim_auto. Qed.

(** The result of a program is only printed, or chooses what is printed. *)
Lemma sim_report (say : CompletedProcess → string) :
  ∀ r1 r2 : CompletedProcess, True →
    sim eq (bind (print (stdout r1)) (λ _, bind (print (stderr r1)) (λ _, print (say r1))))
           (bind (print (stdout r2)) (λ _, bind (print (stderr r2)) (λ _, print (say r2)))).
Proof.
  intros r1 r2 _.
  eapply sim_bind; [apply sim_print|]. intros _ _ _.
  eapply sim_bind; [apply sim_print|]. intros _ _ _. apply sim_print.
Qed.

Lemma sim_upload_to_google_play f :
  sim eq (upload_to_google_play os1 start_error py_repr f) (upload_to_google_play os2 start_error py_repr f).
Proof.
  pose proof (sim_load_credentials f). unfold upload_to_google_play. cbv zeta.
  sim_auto. eapply sim_bind; [apply sim_subprocess_run|]. apply sim_report.
Qed.

Lemma sim_upload_to_app_store f :
  sim eq (upload_to_app_store os1 start_error py_repr f) (upload_to_app_store os2 start_error py_repr f).
Proof.
  pose proof (sim_load_credentials f). unfold upload_to_app_store. cbv zeta.
  sim_auto. eapply sim_bind; [apply sim_subprocess_run|]. apply sim_report.
Qed.

Lemma sim_upload f p : sim eq (upload os1 start_error py_repr f p) (upload os2 start_error py_repr f p).
Proof.
  unfold upload. destruct (String.eqb p "android"); [apply sim_upload_to_google_play|].
  destruct (String.eqb p "ios"); [apply sim_upload_to_app_store|apply sim_ret].
Qed.

Lemma sim_handle_release args :
  sim eq (handle_release os1 start_error py_repr args) (handle_release os2 start_error py_repr args).
Proof.
  unfold handle_release, unpack2. sim_auto.
  eapply sim_bind; [apply sim_subprocess_run|]. intros r1 r2 _.
  eapply sim_bind; [apply sim_print|]. intros _ _ _.
  eapply sim_bind; [apply sim_print|]. intros _ _ _.
  apply sim_bind_eq; [apply sim_upload|intros _].
  sim_auto.
Qed.

Lemma sim_main_release f p :
  sim eq (main os1 start_error py_repr ["release"; f; p]) (main os2 start_error py_repr ["release"; f; p]).
Proof.
  unfold main. destruct (bool_decide _); [apply sim_print|].
  apply sim_handle_release.
Qed.

(** C6: whatever exit codes the packaging tool and the upload tool
    return, [release] for a supported pair neither raises nor stops: the
    version document with the build number plus one is written, the
    changelog line with the new number is appended to the changelog as the
    programs left it (to the changelog of the start, when they do not touch
    it), and the process ends with status 0.  A run in which the programs
    print and return anything else, leaving the same files, ends in the
    same host after the same file accesses and program starts: only the
    printed text differs.  The programs are assumed to return an exit code
    and to leave the credentials file alone. *)
Theorem release_ignores_exit_codes f p w d n bn :
  f ∈ SUPPORTED_FLAVORS → p ∈ SUPPORTED_PLATFORMS →
  tools_return os1 → tools_keep_credentials os1 →
  version_json (host w) = JsonDoc d →
  subscript3 d f p "build_number" = Ok (JInt n) →
  subscript2 d f "build_name" = Ok bn →
  is_Some (pubspec_yaml (host w)) →
  creds_ready (credentials_json (host w)) f →
  ∃ w1 w2 d' e,
    main os1 start_error py_repr ["release"; f; p] w = (Ok tt, w1) ∧
    exit_status (fst (main os1 start_error py_repr ["release"; f; p] w)) = 0%Z ∧
    version_json (host w1) = JsonDoc d' ∧
    subscript3 d' f p "build_number" = Ok (JInt (n + 1)) ∧
    (∀ f' p', (f', p') ≠ (f, p) →
       subscript3 d' f' p' "build_number" = subscript3 d f' p' "build_number") ∧
    rtc (tool_step os1) (patched_host py_repr bn (JInt n) (host w)) e ∧
    host w1 =
      with_changelog
        (Some (default "" (changelog_md e) +:+
               ("- [" +:+ today e +:+ "] " +:+ f +:+ " (" +:+ p +:+ "): " +:+
                py_str py_repr bn +:+ "+" +:+ pretty (n + 1)%Z +:+ nl)))
        (with_version (JsonDoc d') e) ∧
    ((∀ i e1 r e2, os1 i e1 = Some (r, e2) → changelog_md e2 = changelog_md e1) →
     changelog_md (host w1) =
       Some (default "" (changelog_md (host w)) +:+
             ("- [" +:+ today e +:+ "] " +:+ f +:+ " (" +:+ p +:+ "): " +:+
              py_str py_repr bn +:+ "+" +:+ pretty (n + 1)%Z +:+ nl))) ∧
    main os2 start_error py_repr ["release"; f; p] w = (Ok tt, w2) ∧
    host w2 = host w1 ∧
    effects (trace w2) = effects (trace w1).
Proof.
  intros Hf Hp Hret Hkeep Hv Hn Hbn Hpub Hc.
  destruct (store3_defined _ _ _ _ _ (JInt (n + 1)) Hn) as [d' Hst].
  destruct (handle_release_run os1 start_error py_repr _ _ _ _ _ _ _ Hret Hkeep
              (supported_platform_not_build_name p Hp) Hv Hn Hbn Hpub Hc Hst)
    as (w0 & Hrun & _ & Hsteps).
  pose proof (sim_main_release f p w w (same_effects_refl w)) as Hsim.
  rewrite (main_release os1 start_error py_repr f p w Hf Hp) in *. rewrite Hrun in *.
  destruct (main os2 start_error py_repr ["release"; f; p] w) as [[[]|c|e] w2]; try done.
  destruct Hsim as [_ [Hhost Htrace]].
  eexists _, w2, d', (host w0). split; [reflexivity|]. split; [reflexivity|].
  split; [reflexivity|]. split; [by eapply store3_read|].
  split; [intros f' p' Hne; by eapply store3_other_pair|].
  split; [exact Hsteps|]. split; [reflexivity|]. split; [|by repeat split].
  intros Hlog. cbn [host changelog_md with_changelog].
  rewrite (tools_keep_changelog_steps os1 _ _ Hlog Hsteps). reflexivity.
Qed.

End Diagnostics.

(** ** The sample host satisfies the assumptions *)

Lemma failing_tools_return : tools_return failing_tools.
Proof. intros i e. by eexists. Qed.

Lemma failing_tools_keep_credentials : tools_keep_credentials failing_tools.
Proof. by intros i e r e' [= _ <-]. Qed.

Lemma failing_tools_keep_pubspec : tools_keep_pubspec failing_tools.
Proof. by intros i e r e' [= _ <-]. Qed.

Lemma passing_tools_return : tools_return passing_tools.
Proof. intros i e. by eexists. Qed.

Lemma passing_tools_keep_credentials : tools_keep_credentials passing_tools.
Proof. by intros i e r e' [= _ <-]. Qed.

Lemma failing_tools_steps e e' : rtc (tool_step failing_tools) e e' → e' = e.
Proof.
  induction 1 as [|e1 e2 e3 (i & r & [= _ <-]) _ IH]; [done|]. exact IH.
Qed.

Lemma supported_flavor_cases (P : string → Prop) :
  P "workplacebyls" → P "workplacebytsphub" → P "tiabytsp" →
  ∀ f, f ∈ SUPPORTED_FLAVORS → P f.
Proof.
  intros H1 H2 H3 f Hf. unfold SUPPORTED_FLAVORS in Hf.
  repeat (apply elem_of_cons in Hf as [->|Hf]; [assumption|]).
  by apply elem_of_nil in Hf.
Qed.

Lemma supported_platform_cases (P : string → Prop) :
  P "android" → P "ios" → ∀ p, p ∈ SUPPORTED_PLATFORMS → P p.
Proof.
  intros H1 H2 p Hp. unfold SUPPORTED_PLATFORMS in Hp.
  repeat (apply elem_of_cons in Hp as [->|Hp]; [assumption|]).
  by apply elem_of_nil in Hp.
Qed.

Lemma sample_doc_complete : complete_doc sample_doc.
Proof.
  intros f p Hf Hp. revert p Hp. revert f Hf.
  apply (supported_flavor_cases
           (λ f, ∀ p, p ∈ SUPPORTED_PLATFORMS → ∃ n bn,
              subscript3 sample_doc f p "build_number" = Ok (JInt n) ∧
              subscript2 sample_doc f "build_name" = Ok bn));
    apply supported_platform_cases; eexists _, _; split; reflexivity.
Qed.

Lemma sample_credentials_ready f :
  f ∈ SUPPORTED_FLAVORS → creds_ready (JsonDoc sample_credentials) f.
Proof.
  revert f. apply supported_flavor_cases;
    eexists _, _, _; (split; [reflexivity|]); split; reflexivity.
Qed.

(** ** The theorems at the sample host *)

(** The example of the specification: with build number 5 stored,
    [release workplacebyls android] passes [--build-number=5] and leaves 6
    in the version document. *)
Lemma release_ships_current_number_witness :
  ∃ w' d' evs,
    handle_release failing_tools not_found sample_repr ["workplacebyls"; "android"]
                   sample_world = (Ok tt, w') ∧
    trace w' =
      (trace sample_world ++ evs ++
       [EOpen VERSION_FILE_PATH Wr; EOpen CHANGELOG_FILE_PATH Ap;
        EPrint "✅ Released and bumped to 1.2.0+6"])%list ∧
    packaging_runs evs =
      [Invocation
         ["shorebird"; "release"; "android"; "--flutter-version=3.29.1";
          "--flavor"; "workplacebyls"; "-t"; "lib/main_workplacebyls.dart";
          "--build-name=1.2.0"; "--build-number=5"]
         false false] ∧
    Forall (λ e, e ≠ EOpen VERSION_FILE_PATH Wr) evs ∧
    version_json (host w') = JsonDoc d' ∧
    subscript3 d' "workplacebyls" "android" "build_number" = Ok (JInt 6) ∧
    changelog_md (host w') =
      Some ("# Changelog" +:+ nl +:+
            "- [2025-01-31] workplacebyls (android): 1.2.0+6" +:+ nl).
Proof.
  destruct (release_ships_current_number failing_tools not_found sample_repr
              "workplacebyls" "android" sample_world sample_doc 5 (JStr "1.2.0"))
    as (w' & d' & evs & e & Hrun & Htrace & Hruns & Hquiet & Hsteps & Hhost & Hnumber & _).
  - exact failing_tools_return.
  - exact failing_tools_keep_credentials.
  - discriminate.
  - reflexivity.
  - reflexivity.
  - reflexivity.
  - by eexists.
  - apply sample_credentials_ready. by apply (bool_decide_unpack _).
  - apply failing_tools_steps in Hsteps. subst e.
    exists w', d', evs. split; [exact Hrun|]. split; [exact Htrace|].
    split; [exact Hruns|]. split; [exact Hquiet|].
    rewrite Hhost. split; [reflexivity|]. split; [exact Hnumber|]. reflexivity.
Defined.

(** [release-all] on the built host: every packaging call carries the
    raised number in its list and is made through the shell, which starts
    the tool without arguments. *)
Lemma release_all_drops_build_number_witness :
  ∃ w' wb d' evs,
    handle_release_all failing_tools not_found sample_repr built_world = (Ok tt, w') ∧
    handle_bump_all sample_repr (log (EPrint "📦 Bumping all...") built_world)
      = (Ok tt, wb) ∧
    version_json (host wb) = JsonDoc d' ∧
    trace w' = (trace wb ++ evs)%list ∧
    Forall2
      (λ pf call, ∃ n bn,
         subscript3 sample_doc pf.2 pf.1 "build_number" = Ok (JInt n) ∧
         subscript3 d' pf.2 pf.1 "build_number" = Ok (JInt (n + 1)) ∧
         subscript2 sample_doc pf.2 "build_name" = Ok bn ∧
         call =
           Invocation
             ["shorebird"; "release"; pf.1; "--flutter-version=3.29.1";
              "--flavor"; pf.2; "-t"; "lib/main_" +:+ pf.2 +:+ ".dart";
              "--build-name=" +:+ py_str sample_repr bn;
              "--build-number=" +:+ pretty (n + 1)%Z]
             true true ∧
         received_argv call = Some ["shorebird"])
      (nested SUPPORTED_PLATFORMS SUPPORTED_FLAVORS)
      (packaging_runs evs) ∧
    ∀ f p, f ∈ SUPPORTED_FLAVORS → p ∈ SUPPORTED_PLATFORMS →
      ∃ n bn w1 evs1 call,
        subscript3 sample_doc f p "build_number" = Ok (JInt n) ∧
        subscript2 sample_doc f "build_name" = Ok bn ∧
        handle_release failing_tools not_found sample_repr [f; p] built_world
          = (Ok tt, w1) ∧
        trace w1 = (trace built_world ++ evs1)%list ∧
        packaging_runs evs1 = [call] ∧
        received_argv call =
          Some ["shorebird"; "release"; p; "--flutter-version=3.29.1";
                "--flavor"; f; "-t"; "lib/main_" +:+ f +:+ ".dart";
                "--build-name=" +:+ py_str sample_repr bn;
                "--build-number=" +:+ pretty n].
Proof.
  apply (release_all_drops_build_number failing_tools not_found sample_repr
           built_world sample_doc).
  - exact failing_tools_return.
  - exact failing_tools_keep_credentials.
  - exact failing_tools_keep_pubspec.
  - reflexivity.
  - exact sample_doc_complete.
  - by eexists.
  - exact sample_credentials_ready.
Defined.

(** The example of the specification: [bump workplacebyls android] on
    build number 5 leaves 6. *)
Lemma bump_increments_build_number_witness :
  ∃ w' d',
    handle_bump sample_repr ["workplacebyls"; "android"] sample_world = (Ok tt, w') ∧
    version_json (host w') = JsonDoc d' ∧
    subscript3 d' "workplacebyls" "android" "build_number" = Ok (JInt 6) ∧
    subscript2 d' "workplacebyls" "build_name" = Ok (JStr "1.2.0").
Proof.
  apply (bump_increments_build_number sample_repr
           "workplacebyls" "android" sample_world sample_doc 5 (JStr "1.2.0")).
  - by apply (bool_decide_unpack _).
  - by apply (bool_decide_unpack _).
  - reflexivity.
  - reflexivity.
  - reflexivity.
Defined.

Lemma bump_all_increments_every_pair_witness :
  ∃ w' d' evs,
    handle_bump_all sample_repr sample_world = (Ok tt, w') ∧
    version_json (host w') = JsonDoc d' ∧
    (∀ f p n, f ∈ SUPPORTED_FLAVORS → p ∈ SUPPORTED_PLATFORMS →
       subscript3 sample_doc f p "build_number" = Ok (JInt n) →
       subscript3 d' f p "build_number" = Ok (JInt (n + 1))) ∧
    trace w' =
      (trace sample_world ++ [EOpen VERSION_FILE_PATH Rd] ++ evs ++
       [EOpen VERSION_FILE_PATH Wr;
        EPrint "📦 All versions bumped and saved to version.json"])%list ∧
    Forall (λ e, e ≠ EOpen VERSION_FILE_PATH Wr) evs.
Proof.
  apply (bump_all_increments_every_pair sample_repr sample_world sample_doc).
  - reflexivity.
  - exact sample_doc_complete.
Defined.

(** The example of the specification: [bump badflavor android]. *)
Lemma bump_rejects_unsupported_witness :
  ∃ w',
    handle_bump sample_repr ["badflavor"; "android"] sample_world = (Exit 1, w') ∧
    exit_status (fst (handle_bump sample_repr ["badflavor"; "android"] sample_world))
      = 1%Z ∧
    host w' = host sample_world ∧
    trace w' = (trace sample_world ++ [EPrint "❌ Invalid flavor or platform."])%list ∧
    ("badflavor" ≠ "--help" → "android" ≠ "--help" →
     main failing_tools not_found sample_repr ["bump"; "badflavor"; "android"] sample_world
       = (Exit 1, w')).
Proof.
  apply (bump_rejects_unsupported failing_tools not_found sample_repr
           "badflavor" "android" sample_world).
  left. by apply (bool_decide_unpack _).
Defined.

Lemma release_ignores_exit_codes_witness :
  ∃ w1 w2 d',
    main failing_tools not_found sample_repr ["release"; "workplacebyls"; "ios"] built_world
      = (Ok tt, w1) ∧
    exit_status
      (fst (main failing_tools not_found sample_repr ["release"; "workplacebyls"; "ios"]
                 built_world))
      = 0%Z ∧
    version_json (host w1) = JsonDoc d' ∧
    subscript3 d' "workplacebyls" "ios" "build_number" = Ok (JInt 6) ∧
    (∀ f' p', (f', p') ≠ ("workplacebyls", "ios") →
       subscript3 d' f' p' "build_number" = subscript3 sample_doc f' p' "build_number") ∧
    changelog_md (host w1) =
      Some ("# Changelog" +:+ nl +:+
            "- [2025-01-31] workplacebyls (ios): 1.2.0+6" +:+ nl) ∧
    main passing_tools not_found sample_repr ["release"; "workplacebyls"; "ios"] built_world
      = (Ok tt, w2) ∧
    host w2 = host w1 ∧
    effects (trace w2) = effects (trace w1).
Proof.
  destruct (release_ignores_exit_codes failing_tools passing_tools not_found sample_repr
              (λ i e, eq_refl)
              "workplacebyls" "ios" built_world sample_doc 5 (JStr "1.2.0"))
    as (w1 & w2 & d' & e & Hrun & Hstatus & Hversion & Hnumber & Hframe & Hsteps
        & Hhost & _ & Hother & Hsame & Heffects).
  - by apply (bool_decide_unpack _).
  - by apply (bool_decide_unpack _).
  - exact failing_tools_return.
  - exact failing_tools_keep_credentials.
  - reflexivity.
  - reflexivity.
  - reflexivity.
  - by eexists.
  - apply sample_credentials_ready. by apply (bool_decide_unpack _).
  - apply failing_tools_steps in Hsteps. subst e.
    exists w1, w2, d'. split; [exact Hrun|]. split; [exact Hstatus|].
    split; [exact Hversion|]. split; [exact Hnumber|]. split; [exact Hframe|].
    split; [by rewrite Hhost|]. split; [exact Hother|]. split; [exact Hsame|exact Heffects].
Defined.

Lemma upload_skips_missing_artifact_witness :
  upload_to_google_play passing_tools not_found sample_repr "tiabytsp" sample_world =
    (Ok tt, log (EPrint "❌ AAB not found. Did you run `flutter build appbundle`?")
                sample_world) ∧
  upload_to_app_store passing_tools not_found sample_repr "tiabytsp" sample_world =
    (Ok tt, log (EPrint "❌ IPA not found at build/ios/ipa/TIA by TSP.ipa") sample_world).
Proof.
  destruct (upload_skips_missing_artifact passing_tools not_found sample_repr "tiabytsp" sample_world)
    as [Haab Hipa].
  split; [apply Haab|apply Hipa]; by apply (bool_decide_unpack _).
Defined.


Lemma bump_frame_witness :
  ∃ w' d',
    handle_bump sample_repr ["workplacebyls"; "android"] sample_world = (Ok tt, w') ∧
    version_json (host w') = JsonDoc d' ∧
    (∀ f', f' ≠ "workplacebyls" → py_getitem d' f' = py_getitem sample_doc f') ∧
    (∀ p', p' ≠ "android" →
       subscript2 d' "workplacebyls" p' = subscript2 sample_doc "workplacebyls" p') ∧
    (∀ f' p', (f', p') ≠ ("workplacebyls", "android") →
       subscript3 d' f' p' "build_number" = subscript3 sample_doc f' p' "build_number") ∧
    (∀ f', subscript2 d' f' "build_name" = subscript2 sample_doc f' "build_name") ∧
    changelog_md (host w') =
      Some ("# Changelog" +:+ nl +:+
            "- [2025-01-31] workplacebyls (android): 1.2.0+6" +:+ nl).
Proof.
  apply (bump_frame sample_repr
           "workplacebyls" "android" sample_world sample_doc 5 (JStr "1.2.0")).
  - by apply (bool_decide_unpack _).
  - by apply (bool_decide_unpack _).
  - reflexivity.
  - reflexivity.
  - reflexivity.
Defined.

Lemma get_package_name_default_witness :
  ("badflavor" ∉ SUPPORTED_FLAVORS) ∧
  get_package_name "badflavor" = "com.locationsolutions.workplacebyls".
Proof.
  assert (H : "badflavor" ∉ SUPPORTED_FLAVORS) by by apply (bool_decide_unpack _).
  split; [exact H|]. exact (proj1 (get_package_name_default "badflavor" H)).
Defined.

(** ** The errors and edges at sample hosts *)

Lemma built_bundle : get_aab_path "workplacebyls" ∈ artifacts built_env.
Proof. apply elem_of_union_l. by apply elem_of_singleton. Qed.

Lemma built_archive : get_ipa_path "workplacebyls" ∈ artifacts built_env.
Proof. apply elem_of_union_r. by apply elem_of_singleton. Qed.

Lemma version_file_missing_witness :
  handle_release failing_tools not_found sample_repr ["workplacebyls"; "android"] empty_world
    = (Raise FileNotFoundError, empty_world) ∧
  handle_release_all failing_tools not_found sample_repr empty_world
    = (Raise FileNotFoundError, log (EPrint "📦 Bumping all...") empty_world).
Proof.
  destruct (version_file_missing failing_tools not_found sample_repr
              "workplacebyls" "android" empty_world eq_refl)
    as (_ & _ & Hrelease & Hall).
  exact (conj Hrelease Hall).
Defined.

Lemma wrong_argument_count_witness :
  handle_bump sample_repr ["workplacebyls"] sample_world =
    (Exit 1, log (EPrint "❌ Usage: bump <flavor> <platform>") sample_world) ∧
  handle_release failing_tools not_found sample_repr ["workplacebyls"; "android"; "now"] sample_world
    = (Raise ValueError, sample_world).
Proof.
  split.
  - refine (proj1 (proj1 (wrong_argument_count failing_tools not_found sample_repr
                            ["workplacebyls"] sample_world) _)).
    cbn [length]. lia.
  - refine (proj2 (proj2 (wrong_argument_count failing_tools not_found sample_repr
                            ["workplacebyls"; "android"; "now"] sample_world) _)).
    cbn [length]. lia.
Defined.

Lemma bad_document_entry_witness :
  handle_release failing_tools not_found sample_repr ["badflavor"; "android"] sample_world =
    (Raise KeyError, log (EOpen VERSION_FILE_PATH Rd) sample_world).
Proof.
  refine (proj1 (bad_document_entry failing_tools not_found sample_repr
                   "badflavor" "android" sample_world sample_doc KeyError _ _));
    reflexivity.
Defined.

Lemma release_tool_cannot_start_witness :
  ∃ w',
    handle_release missing_tools not_found sample_repr ["workplacebyls"; "android"]
                   sample_world = (Raise FileNotFoundError, w') ∧
    version_json (host w') = JsonDoc sample_doc ∧
    changelog_md (host w') = Some ("# Changelog" +:+ nl).
Proof.
  destruct (release_tool_cannot_start missing_tools not_found sample_repr
              "workplacebyls" "android" sample_world sample_doc
              (JStr "1.2.0") (JInt 5) (JInt 6))
    as (w' & Hrun & _ & Hversion & Hlog & _).
  - reflexivity.
  - reflexivity.
  - by eexists.
  - reflexivity.
  - exists w'. exact (conj Hrun (conj Hversion Hlog)).
Defined.

Lemma release_missing_pubspec_witness :
  handle_release failing_tools not_found sample_repr ["workplacebyls"; "ios"] store_only_world =
    (Raise FileNotFoundError, log (EOpen VERSION_FILE_PATH Rd) store_only_world).
Proof.
  apply (release_missing_pubspec failing_tools not_found sample_repr
           "workplacebyls" "ios" store_only_world sample_doc
           (JStr "1.2.0") (JInt 5) (JInt 6)); reflexivity.
Defined.

Lemma release_unknown_platform_witness :
  ∃ w' d' evs,
    handle_release failing_tools not_found sample_repr ["workplacebyls"; "web"] web_world
      = (Ok tt, w') ∧
    version_json (host w') = JsonDoc d' ∧
    subscript3 d' "workplacebyls" "web" "build_number" = Ok (JInt 3) ∧
    trace w' = (trace web_world ++ evs)%list ∧
    runs evs =
      [Invocation (shorebird_cmd sample_repr "workplacebyls" "web" (JStr "1.2.0") (JInt 2))
                  false false].
Proof.
  destruct (release_unknown_platform failing_tools not_found sample_repr
              "workplacebyls" "web" web_world web_doc 2 (JStr "1.2.0")
              (Completed "" "error: tool failed" 70)
              (patched_host sample_repr (JStr "1.2.0") (JInt 2) (host web_world)))
    as (w' & d' & evs & Hrun & Hversion & Hnumber & _ & Htrace & Hruns).
  - by apply (bool_decide_unpack _).
  - by apply (bool_decide_unpack _).
  - by apply (bool_decide_unpack _).
  - reflexivity.
  - reflexivity.
  - reflexivity.
  - by eexists.
  - reflexivity.
  - exists w', d', evs.
    exact (conj Hrun (conj Hversion (conj Hnumber (conj Htrace Hruns)))).
Defined.

Lemma upload_to_google_play_run_witness :
  ∃ w',
    upload_to_google_play passing_tools not_found sample_repr "workplacebyls" built_world
      = (Ok tt, w') ∧
    host w' = built_env ∧
    last (trace w') = Some (EPrint "✅ Uploaded to Google Play Store").
Proof.
  eexists. split.
  - eapply (upload_to_google_play_run passing_tools not_found sample_repr
              "workplacebyls" built_world sample_credentials).
    + exact built_bundle.
    + reflexivity.
    + reflexivity.
    + reflexivity.
    + reflexivity.
  - split; reflexivity.
Defined.

Lemma upload_to_app_store_run_witness :
  ∃ w',
    upload_to_app_store failing_tools not_found sample_repr "workplacebyls" built_world
      = (Ok tt, w') ∧
    host w' = built_env ∧
    last (trace w') = Some (EPrint "❌ App Store upload failed").
Proof.
  eexists. split.
  - eapply (upload_to_app_store_run failing_tools not_found sample_repr
              "workplacebyls" built_world sample_credentials).
    + exact built_archive.
    + reflexivity.
    + reflexivity.
    + reflexivity.
    + reflexivity.
  - split; reflexivity.
Defined.

Lemma upload_without_credentials_witness :
  upload_to_google_play passing_tools not_found sample_repr "workplacebyls" unsigned_world
    = (Raise FileNotFoundError, unsigned_world) ∧
  upload_to_app_store passing_tools not_found sample_repr "workplacebyls" unsigned_world
    = (Raise FileNotFoundError, unsigned_world).
Proof.
  exact (proj1 (upload_without_credentials passing_tools not_found sample_repr
                  "workplacebyls" unsigned_world built_bundle built_archive) eq_refl).
Defined.

Lemma upload_bad_key_witness :
  ∃ w',
    upload_to_google_play passing_tools not_found sample_repr "workplacebyls" keyless_world
      = (Raise KeyError, w') ∧
    host w' = keyless_env ∧ runs (trace w') = [].
Proof.
  destruct (upload_bad_key passing_tools not_found sample_repr
              "workplacebyls" keyless_world keyless_credentials keyless_entry)
    as (w' & _ & Hhost & Hruns & Hkey & _).
  - exact built_bundle.
  - reflexivity.
  - reflexivity.
  - exists w'. exact (conj (Hkey _ eq_refl eq_refl) (conj Hhost Hruns)).
Defined.

Lemma update_pubspec_yaml_twice_witness :
  pubspec_yaml
    (host (snd (update_pubspec_yaml sample_repr (JStr "1.2.0") (JInt 6)
                  (snd (update_pubspec_yaml sample_repr (JStr "1.2.0") (JInt 5)
                          sample_world))))) =
  pubspec_yaml
    (host (snd (update_pubspec_yaml sample_repr (JStr "1.2.0") (JInt 6) sample_world))).
Proof.
  apply (update_pubspec_yaml_twice sample_repr (JStr "1.2.0") (JInt 5)
           (JStr "1.2.0") (JInt 6) sample_world sample_pubspec); reflexivity.
Defined.

Lemma patch_without_key_witness :
  host (snd (update_pubspec_yaml sample_repr (JStr "1.2.0") (JInt 5) plain_world))
    = plain_env ∧
  host (snd (update_codemagic_yaml sample_repr (JStr "1.2.0") (JInt 5) plain_world))
    = plain_env ∧
  pubspec_yaml
    (host (snd (update_pubspec_yaml sample_repr (JStr "1.2.0") (JInt 5) crlf_world)))
    = Some ("name: workplace" +:+ nl +:+ "environment:" +:+ nl).
Proof.
  destruct (patch_without_key sample_repr (JStr "1.2.0") (JInt 5) plain_world)
    as [Hpubspec Hcodemagic].
  destruct (patch_without_key sample_repr (JStr "1.2.0") (JInt 5) crlf_world)
    as [Hcrlf _].
  split; [|split].
  - apply (Hpubspec _ eq_refl); [by apply (bool_decide_unpack _)|reflexivity].
  - apply (Hcodemagic _ eq_refl); [by apply (bool_decide_unpack _)|reflexivity].
  - destruct (Hcrlf _ eq_refl) as [Hfile _]; [by apply (bool_decide_unpack _)|].
    by rewrite Hfile.
Defined.

Lemma patch_matching_lines_witness :
  (∃ out,
     pubspec_yaml (host (snd (update_pubspec_yaml sample_repr (JStr "1.2.0") (JInt 5)
                                sample_world))) = Some (written out) ∧
     out !! 1%nat = Some ("version: 1.2.0+5" +:+ nl)) ∧
  (∃ out,
     codemagic_yaml (host (snd (update_codemagic_yaml sample_repr (JStr "1.2.0") (JInt 5)
                                  sample_world))) = Some (written out) ∧
     out !! 3%nat = Some ("      BUILD_NUMBER: " +:+ dq +:+ "5" +:+ dq +:+ nl)).
Proof.
  destruct (patch_matching_lines sample_repr (JStr "1.2.0") (JInt 5) sample_world)
    as [Hpubspec Hcodemagic].
  split.
  - destruct (Hpubspec _ eq_refl) as (out & Hfile & Hline).
    exists out. split; [exact Hfile|].
    exact (Hline 1%nat ("version: 1.0.0+1" +:+ nl) eq_refl eq_refl).
  - destruct (Hcodemagic _ eq_refl) as (out & Hfile & Hline).
    exists out. split; [exact Hfile|].
    exact (proj2 (Hline 3%nat ("      BUILD_NUMBER: " +:+ dq +:+ "1" +:+ dq +:+ nl) eq_refl)
                 eq_refl eq_refl).
Defined.

Lemma bump_repeated_witness :
  ∃ dk,
    version_json
      (host (Nat.iter 3 (λ w, snd (handle_bump sample_repr ["workplacebyls"; "android"] w))
                      sample_world)) = JsonDoc dk ∧
    subscript3 dk "workplacebyls" "android" "build_number" = Ok (JInt 8) ∧
    subscript2 dk "workplacebyls" "build_name" = Ok (JStr "1.2.0").
Proof.
  destruct (bump_repeated sample_repr "workplacebyls" "android" sample_world sample_doc
              5 (JStr "1.2.0") 3) as (dk & Hversion & Hnumber & Hname & _).
  - by apply (bool_decide_unpack _).
  - by apply (bool_decide_unpack _).
  - reflexivity.
  - reflexivity.
  - reflexivity.
  - exists dk. exact (conj Hversion (conj Hnumber Hname)).
Defined.

Lemma bump_commutes_witness :
  version_json
    (host (snd (handle_bump sample_repr ["tiabytsp"; "ios"]
                  (snd (handle_bump sample_repr ["workplacebyls"; "android"]
                          sample_world))))) =
  version_json
    (host (snd (handle_bump sample_repr ["workplacebyls"; "android"]
                  (snd (handle_bump sample_repr ["tiabytsp"; "ios"] sample_world))))).
Proof.
  refine (proj2 (proj2 (bump_commutes sample_repr
                          "workplacebyls" "android" "tiabytsp" "ios"
                          sample_world sample_doc 5 8 (JStr "1.2.0") (JStr "0.9.4")
                          _ _ _ _ _ _ _ _ _ _)));
    try reflexivity; by apply (bool_decide_unpack _).
Defined.

Lemma bump_all_changelog_witness :
  ∃ lines,
    changelog_md (host (snd (handle_bump_all sample_repr sample_world))) =
      Some (default "" (changelog_md (host sample_world)) +:+ written lines) ∧
    Forall2 (bump_line sample_repr sample_doc (today (host sample_world)))
            (nested SUPPORTED_FLAVORS SUPPORTED_PLATFORMS) lines.
Proof.
  apply (bump_all_changelog sample_repr sample_world sample_doc).
  - reflexivity.
  - exact sample_doc_complete.
Defined.

Lemma release_all_increments_once_witness :
  ∃ w' d',
    handle_release_all failing_tools not_found sample_repr built_world = (Ok tt, w') ∧
    version_json (host w') = JsonDoc d' ∧
    version_json
      (host (snd (handle_bump_all sample_repr
                    (log (EPrint "📦 Bumping all...") built_world)))) = JsonDoc d' ∧
    subscript3 d' "workplacebyls" "android" "build_number" = Ok (JInt 6).
Proof.
  destruct (release_all_increments_once failing_tools not_found sample_repr built_world sample_doc)
    as (w' & d' & Hrun & Hversion & Hbump & Hnumber & _).
  - exact failing_tools_return.
  - exact failing_tools_keep_credentials.
  - exact failing_tools_keep_pubspec.
  - reflexivity.
  - exact sample_doc_complete.
  - by eexists.
  - exact sample_credentials_ready.
  - exists w', d'. split; [exact Hrun|]. split; [exact Hversion|]. split; [exact Hbump|].
    apply (Hnumber "workplacebyls" "android" 5%Z);
      [by apply (bool_decide_unpack _)..|reflexivity].
Defined.

Lemma release_all_missing_pubspec_witness :
  ∃ w' d',
    handle_release_all failing_tools not_found sample_repr store_only_world
      = (Raise FileNotFoundError, w') ∧
    version_json (host w') = JsonDoc d' ∧
    subscript3 d' "tiabytsp" "ios" "build_number" = Ok (JInt 9).
Proof.
  destruct (release_all_missing_pubspec failing_tools not_found sample_repr
              store_only_world sample_doc)
    as (w' & wb & d' & Hrun & _ & _ & _ & Hversion & Hnumber).
  - reflexivity.
  - exact sample_doc_complete.
  - reflexivity.
  - exists w', d'. split; [exact Hrun|]. split; [exact Hversion|].
    apply (Hnumber "tiabytsp" "ios" 8%Z);
      [by apply (bool_decide_unpack _)..|reflexivity].
Defined.

Lemma changelog_append_only_witness :
  changelog_grows
    (changelog_md (host built_world))
    (changelog_md (host (main failing_tools not_found sample_repr ["release-all"] built_world).2)).
Proof.
  apply (changelog_append_only failing_tools not_found sample_repr ["release-all"] built_world).
  intros i e r e' [= _ <-]. apply changelog_grows_refl.
Defined.

Lemma main_keeps_credentials_witness :
  credentials_json
    (host (main failing_tools not_found sample_repr ["release"; "workplacebyls"; "android"]
             built_world).2)
    = JsonDoc sample_credentials.
Proof.
  apply (main_keeps_credentials failing_tools not_found sample_repr
           ["release"; "workplacebyls"; "android"] built_world).
  exact failing_tools_keep_credentials.
Defined.

Lemma main_without_command_witness :
  main failing_tools not_found sample_repr ["release"; "workplacebyls"; "--help"] sample_world
    = (Ok tt, log (EPrint (help_text)) sample_world) ∧
  main failing_tools not_found sample_repr ["deploy"; "workplacebyls"] sample_world
    = (Exit 1, log (EPrint help_text)
                 (log (EPrint ("❌ Unknown command: " +:+ "deploy" +:+ nl)) sample_world)).
Proof.
  split.
  - refine (proj1 (main_without_command failing_tools not_found sample_repr
                     ["release"; "workplacebyls"; "--help"] sample_world) _).
    right. by apply (bool_decide_unpack _).
  - refine (proj2 (main_without_command failing_tools not_found sample_repr
                     ["deploy"; "workplacebyls"] sample_world) "deploy" ["workplacebyls"]
                  eq_refl _ _);
      by apply (bool_decide_unpack _).
Defined.

Lemma invalid_json_file_witness :
  handle_release failing_tools not_found sample_repr ["workplacebyls"; "android"] corrupt_world
    = (Raise JSONDecodeError, log (EOpen VERSION_FILE_PATH Rd) corrupt_world) ∧
  upload_to_google_play failing_tools not_found sample_repr "workplacebyls" corrupt_world
    = (Raise JSONDecodeError, log (EOpen CREDENTIALS_PATH Rd) corrupt_world).
Proof.
  destruct (invalid_json_file failing_tools not_found sample_repr
              "workplacebyls" "android" corrupt_world) as [Hversion Hcredentials].
  split.
  - exact (proj1 (proj2 (proj2 (Hversion eq_refl)))).
  - exact (proj1 (Hcredentials eq_refl) built_bundle).
Defined.

Lemma bump_all_stops_midway_witness :
  ∃ w' lines,
    handle_bump_all sample_repr partial_world = (Raise KeyError, w') ∧
    version_json (host w') = JsonDoc partial_doc ∧
    default "" (changelog_md (host w')) = ("# Changelog" +:+ nl) +:+ written lines ∧
    length lines = 4%nat.
Proof.
  destruct (bump_all_stops_midway sample_repr partial_world partial_doc
              [("workplacebyls", "android"); ("workplacebyls", "ios");
               ("workplacebytsphub", "android"); ("workplacebytsphub", "ios")]
              "tiabytsp" "android" [("tiabytsp", "ios")] KeyError)
    as (w' & lines & Hrun & Hversion & Hlog & Hlines).
  - reflexivity.
  - reflexivity.
  - repeat constructor; try discriminate; eexists _, _; split; reflexivity.
  - reflexivity.
  - exists w', lines. split; [exact Hrun|]. split; [exact Hversion|].
    split; [exact Hlog|]. symmetry. exact (Forall2_length _ _ _ Hlines).
Defined.

Lemma release_upload_raises_witness :
  ∃ w',
    handle_release passing_tools not_found sample_repr ["workplacebyls"; "android"] unsigned_world
      = (Raise FileNotFoundError, w') ∧
    version_json (host w') = JsonDoc sample_doc ∧
    runs (trace w') =
      [Invocation (shorebird_cmd sample_repr "workplacebyls" "android"
                     (JStr "1.2.0") (JInt 5)) false false].
Proof.
  destruct (release_upload_raises passing_tools not_found sample_repr
              "workplacebyls" "android" unsigned_world sample_doc
              (JStr "1.2.0") (JInt 5) (JInt 6) (Completed "done" "" 0)
              (patched_host sample_repr (JStr "1.2.0") (JInt 5) unsigned_env))
    as (w' & Hrun & Hhost & Hruns).
  - reflexivity.
  - reflexivity.
  - by eexists.
  - reflexivity.
  - reflexivity.
  - left. split; [reflexivity|exact built_bundle].
  - exists w'. split; [exact Hrun|]. split; [by rewrite Hhost|exact Hruns].
Defined.

Lemma release_build_name_alias_witness :
  ∃ w' evs,
    handle_release failing_tools not_found number_repr ["workplacebyls"; "build_name"]
                   nested_name_world = (Ok tt, w') ∧
    changelog_md (host w') =
      Some ("- [2025-01-31] workplacebyls (build_name): {'build_number': 3}+3" +:+ nl) ∧
    trace w' = (trace nested_name_world ++ evs)%list ∧
    runs evs =
      [Invocation
         ["shorebird"; "release"; "build_name"; "--flutter-version=3.29.1";
          "--flavor"; "workplacebyls"; "-t"; "lib/main_workplacebyls.dart";
          "--build-name={'build_number': 2}"; "--build-number=2"]
         false false] ∧
    last evs = Some (EPrint "✅ Released and bumped to {'build_number': 3}+3").
Proof.
  destruct (release_build_name_alias failing_tools not_found number_repr
              "workplacebyls" nested_name_world nested_name_doc
              {["build_number" := JInt 2]} 2 (Completed "" "error: tool failed" 70)
              (patched_host number_repr (JObj {["build_number" := JInt 2]}) (JInt 2)
                 nested_name_env))
    as (w' & evs & Hrun & Hlog & Htrace & Hruns & Hlast).
  - reflexivity.
  - reflexivity.
  - reflexivity.
  - by eexists.
  - reflexivity.
  - exists w', evs. split; [exact Hrun|]. split; [exact Hlog|].
    split; [exact Htrace|]. split; [exact Hruns|exact Hlast].
Defined.

(** ** The examples of the specification, run on the model *)

(** [bump workplacebyls android] on 5/5: android becomes 6, ios stays 5
    and the changelog gains one line. *)
Example bump_example :
  let w' := snd (handle_bump sample_repr ["workplacebyls"; "android"] sample_world) in
  match version_json (host w') with
  | JsonDoc d' =>
      subscript3 d' "workplacebyls" "android" "build_number" = Ok (JInt 6) ∧
      subscript3 d' "workplacebyls" "ios" "build_number" = Ok (JInt 5)
  | _ => False
  end ∧
  changelog_md (host w') =
    Some ("# Changelog" +:+ nl +:+
          "- [2025-01-31] workplacebyls (android): 1.2.0+6" +:+ nl).
Proof. vm_compute. by repeat split. Qed.

(** Running [bump] twice adds two. *)
Example bump_twice_example :
  let w1 := snd (handle_bump sample_repr ["tiabytsp"; "ios"] sample_world) in
  let w2 := snd (handle_bump sample_repr ["tiabytsp"; "ios"] w1) in
  match version_json (host w2) with
  | JsonDoc d' => subscript3 d' "tiabytsp" "ios" "build_number" = Ok (JInt 10)
  | _ => False
  end.
Proof. vm_compute. reflexivity. Qed.

(** [release workplacebyls android] on build number 5 passes
    [--build-number=5] and then stores 6. *)
Example release_example :
  let w' := snd (handle_release failing_tools not_found sample_repr
                   ["workplacebyls"; "android"] sample_world) in
  packaging_runs (trace w') =
    [Invocation
       ["shorebird"; "release"; "android"; "--flutter-version=3.29.1";
        "--flavor"; "workplacebyls"; "-t"; "lib/main_workplacebyls.dart";
        "--build-name=1.2.0"; "--build-number=5"]
       false false] ∧
  match version_json (host w') with
  | JsonDoc d' => subscript3 d' "workplacebyls" "android" "build_number" = Ok (JInt 6)
  | _ => False
  end.
Proof. vm_compute. by split. Qed.

(** [release-all] on the same document puts 6 for that pair in the list
    it hands to [subprocess.run], together with [shell=True]: what the
    shell starts for each of the six calls is the tool without arguments. *)
Example release_all_example :
  let w' := snd (handle_release_all failing_tools not_found sample_repr sample_world) in
  packaging_runs (trace w') !! 0%nat =
    Some (Invocation
            ["shorebird"; "release"; "android"; "--flutter-version=3.29.1";
             "--flavor"; "workplacebyls"; "-t"; "lib/main_workplacebyls.dart";
             "--build-name=1.2.0"; "--build-number=6"]
            true true) ∧
  received_argv <$> packaging_runs (trace w') = replicate 6 (Some ["shorebird"]).
Proof. vm_compute. by split. Qed.

(** The help flag is looked for before the command is dispatched. *)
Example help_flag_example :
  main failing_tools not_found sample_repr ["bump"; "--help"; "android"] sample_world =
    (Ok tt, log (EPrint help_text) sample_world).
Proof. reflexivity. Qed.

(** [release] does not check its arguments against the supported sets: an
    unknown flavor fails on the lookup in the version document. *)
Example release_unknown_flavor_example :
  handle_release failing_tools not_found sample_repr ["badflavor"; "android"] sample_world =
    (Raise KeyError, log (EOpen VERSION_FILE_PATH Rd) sample_world).
Proof. reflexivity. Qed.

(** Without a credentials file an upload whose artifact exists raises, and
    the release ends before the version document is written. *)
Example release_without_credentials_example :
  let w := World (with_version (JsonDoc sample_doc)
                    (Env NoFile NoFile None (Some sample_pubspec) None
                         (artifacts built_env) "2025-01-31")) [] in
  let r := handle_release passing_tools not_found sample_repr ["workplacebyls"; "android"] w in
  fst r = Raise FileNotFoundError ∧
  version_json (host (snd r)) = JsonDoc sample_doc ∧
  changelog_md (host (snd r)) = None.
Proof. vm_compute. by repeat split. Qed.

(** A [pubspec.yaml] with the line ends of Windows is written back with
    newlines: every line changes on disk, the patched one and the others. *)
Example crlf_example :
  let w := World (with_pubspec
                    (Some ("name: workplace" +:+ cr +:+ nl +:+
                           "version: 1.0.0+1" +:+ cr +:+ nl)) sample_env) [] in
  pubspec_yaml (host (snd (update_pubspec_yaml sample_repr (JStr "1.2.0") (JInt 5) w))) =
    Some ("name: workplace" +:+ nl +:+ "version: 1.2.0+5" +:+ nl).
Proof. vm_compute. reflexivity. Qed.

(** After [release-all] on the sample host, [pubspec.yaml] carries the
    version of the last round, with the raised number. *)
Example release_all_pubspec_example :
  pubspec_yaml
    (host (snd (handle_release_all failing_tools not_found sample_repr sample_world))) =
    Some ("name: workplace" +:+ nl +:+ "version: 0.9.4+9" +:+ nl +:+
          "environment:" +:+ nl +:+ "  sdk: ^3.7.0" +:+ nl).
Proof. vm_compute. reflexivity. Qed.
